(** * MIFARE Classic dictionary attack scene

    A shallow embedding of
    [applications/main/nfc/scenes/nfc_scene_mf_classic_dict_attack.c]:
    the poller callback [nfc_dict_attack_worker_callback], the view
    refresh, the phase entry [prepare_view] and the scene handlers
    [on_enter], [on_event] and [on_exit].

    The C code mutates one [NfcApp] object and calls into collaborators
    (key dictionary, storage, poller, view, scene manager).  Here the
    object is threaded through a small monad that also records every
    outward call, in order, and that stops at the first use of a handle
    that is not open. *)

From Stdlib Require Import String ZArith List Bool Lia.
From Stdlib Require Import Strings.Byte.
Import ListNotations.
Local Open Scope Z_scope.

(** ** Machine integers *)

(** Modelled from the spec: the attack context is declared in
    nfc_app_i.h, which is not among the sources; [total_keys] is a u32
    (§4.1, §6) and the two counters that hold it and count up to it,
    [dict_keys_total] and [dict_keys_current], get the same width. *)
Definition SIZE_BITS : Z := 32.
Definition SIZE_MAX : Z := 2 ^ SIZE_BITS - 1.
Definition to_size_t (x : Z) : Z := x mod 2 ^ SIZE_BITS.

(** ** Keys and card data *)

(** [MfClassicKey]: [uint8_t data[6]]. *)
Record MfClassicKey : Type := { data : list byte }.

(** [MfClassicKey key = {}] *)
Definition MfClassicKey_zero : MfClassicKey := {| data := repeat x00 6 |}.

(** Modelled from the spec: the card types ([MfClassicType], lib/nfc). *)
Inductive MfClassicType : Type :=
| MfClassicTypeMini
| MfClassicType1k
| MfClassicType4k.

(** Modelled from the spec: [MfClassicData] and its helpers live in
    lib/nfc/protocols/mf_classic; the card image is kept as the card
    type and, per sector, whether key A and key B are known. *)
Record MfClassicData : Type := {
  type : MfClassicType;
  sector_keys : list (bool * bool)
}.

(** Modelled from the spec: [mf_classic_get_total_sectors_num]
    (lib/nfc), the number of sectors of a card type. *)
Definition mf_classic_get_total_sectors_num (t : MfClassicType) : Z :=
  match t with
  | MfClassicTypeMini => 5
  | MfClassicType1k => 16
  | MfClassicType4k => 40
  end.

(** Modelled from the spec: [mf_classic_get_read_sectors_and_keys]
    (lib/nfc): [sectors_read] counts the sectors with at least one key
    known, [keys_found] the key slots resolved. *)
Definition mf_classic_get_read_sectors_and_keys (d : MfClassicData) : Z * Z :=
  (Z.of_nat (length (filter (fun s => fst s || snd s) (sector_keys d))),
   Z.of_nat (length (filter fst (sector_keys d)))
   + Z.of_nat (length (filter snd (sector_keys d)))).

(** Modelled from the spec: [mf_classic_is_card_read] (lib/nfc), whether
    the card is fully read: every sector of the type has both keys. *)
Definition mf_classic_is_card_read (d : MfClassicData) : bool :=
  forallb (fun s => fst s && snd s) (sector_keys d)
  && (Z.of_nat (length (sector_keys d)) =? mf_classic_get_total_sectors_num (type d)).

(** Modelled from the spec: [MfClassicNestedPhase] (lib/nfc).  The scene
    names [MfClassicNestedPhaseNone] only; the phases of a running
    nested attack are told apart by a number. *)
Inductive MfClassicNestedPhase : Type :=
| MfClassicNestedPhaseNone
| MfClassicNestedPhaseRunning (stage : nat).

(** Modelled from the spec: the PRNG classes of §3. *)
Inductive MfClassicPrngType : Type :=
| MfClassicPrngTypeUnknown
| MfClassicPrngTypeClassic
| MfClassicPrngTypeWeak
| MfClassicPrngTypeStatic
| MfClassicPrngTypeHardened.

(** Modelled from the spec: the backdoor classes of §3. *)
Inductive MfClassicBackdoor : Type :=
| MfClassicBackdoorUnknown
| MfClassicBackdoorNone
| MfClassicBackdoorTypeA
| MfClassicBackdoorTypeB.

(** ** Storage and the key dictionary *)

(** The four dictionary paths the scene names (macros of nfc_app_i.h). *)
Inductive DictPath : Type :=
| NFC_APP_MF_CLASSIC_DICT_USER_PATH
| NFC_APP_MF_CLASSIC_DICT_USER_NESTED_PATH
| NFC_APP_MF_CLASSIC_DICT_SYSTEM_PATH
| NFC_APP_MF_CLASSIC_DICT_SYSTEM_NESTED_PATH.

(** Modelled from the spec: the storage collaborator, restricted to the
    four dictionary files the scene touches.  A file is the list of its
    key records, in file order; [None] is an absent file. *)
Record Storage : Type := {
  user_dict_file : option (list MfClassicKey);
  user_nested_file : option (list MfClassicKey);
  system_dict_file : option (list MfClassicKey);
  system_nested_file : option (list MfClassicKey)
}.

Definition storage_file (st : Storage) (p : DictPath) : option (list MfClassicKey) :=
  match p with
  | NFC_APP_MF_CLASSIC_DICT_USER_PATH => user_dict_file st
  | NFC_APP_MF_CLASSIC_DICT_USER_NESTED_PATH => user_nested_file st
  | NFC_APP_MF_CLASSIC_DICT_SYSTEM_PATH => system_dict_file st
  | NFC_APP_MF_CLASSIC_DICT_SYSTEM_NESTED_PATH => system_nested_file st
  end.

Definition storage_write (st : Storage) (p : DictPath)
    (f : option (list MfClassicKey)) : Storage :=
  match p with
  | NFC_APP_MF_CLASSIC_DICT_USER_PATH =>
      {| user_dict_file := f; user_nested_file := user_nested_file st;
         system_dict_file := system_dict_file st;
         system_nested_file := system_nested_file st |}
  | NFC_APP_MF_CLASSIC_DICT_USER_NESTED_PATH =>
      {| user_dict_file := user_dict_file st; user_nested_file := f;
         system_dict_file := system_dict_file st;
         system_nested_file := system_nested_file st |}
  | NFC_APP_MF_CLASSIC_DICT_SYSTEM_PATH =>
      {| user_dict_file := user_dict_file st;
         user_nested_file := user_nested_file st;
         system_dict_file := f;
         system_nested_file := system_nested_file st |}
  | NFC_APP_MF_CLASSIC_DICT_SYSTEM_NESTED_PATH =>
      {| user_dict_file := user_dict_file st;
         user_nested_file := user_nested_file st;
         system_dict_file := system_dict_file st;
         system_nested_file := f |}
  end.

(** Modelled from the spec: [remove(path)], as the storage carries it
    out; a removal that the storage refuses is not modelled. *)
Definition storage_remove (st : Storage) (p : DictPath) : Storage :=
  storage_write st p None.

(** Modelled from the spec: [copy(src, dst)], as the storage carries it
    out; copying an absent source fails and leaves the storage as it
    was (the scene ignores the result).  A copy that fails for another
    reason is not modelled. *)
Definition storage_copy (st : Storage) (src dst : DictPath) : Storage :=
  match storage_file st src with
  | Some f => storage_write st dst (Some f)
  | None => st
  end.

Inductive KeysDictMode : Type :=
| KeysDictModeOpenExisting
| KeysDictModeOpenAlways.

(** Modelled from the spec: the dictionary handle of §3/§4.1 (the
    implementation is lib/toolbox/keys_dict): the candidates in file
    order, a sequential read cursor and the total count cached at open. *)
Record KeysDict : Type := {
  dict_path : DictPath;
  dict_keys : list MfClassicKey;
  dict_cursor : nat;
  total_keys : Z
}.

(** Modelled from the spec: [open(path, mode)].  [MustExist]
    ([KeysDictModeOpenExisting]) fails on an absent path;
    [CreateIfAbsent] ([KeysDictModeOpenAlways]) creates an empty
    dictionary there. *)
Definition keys_dict_open (st : Storage) (p : DictPath) (mode : KeysDictMode)
    : option KeysDict * Storage :=
  match storage_file st p, mode with
  | Some ks, _ =>
      (Some {| dict_path := p; dict_keys := ks; dict_cursor := 0%nat;
               total_keys := to_size_t (Z.of_nat (length ks)) |}, st)
  | None, KeysDictModeOpenAlways =>
      (Some {| dict_path := p; dict_keys := []; dict_cursor := 0%nat;
               total_keys := 0 |}, storage_write st p (Some []))
  | None, KeysDictModeOpenExisting => (None, st)
  end.

(** Modelled from the spec: [next_key(handle)] returns the next
    candidate and advances the cursor; nothing once exhausted. *)
Definition keys_dict_next (d : KeysDict) : option MfClassicKey * KeysDict :=
  match nth_error (dict_keys d) (dict_cursor d) with
  | Some k =>
      (Some k, {| dict_path := dict_path d; dict_keys := dict_keys d;
                  dict_cursor := S (dict_cursor d);
                  total_keys := total_keys d |})
  | None => (None, d)
  end.

(** Modelled from the spec: [rewind(handle)] resets the cursor to the
    start without reopening. *)
Definition keys_dict_rewound (d : KeysDict) : KeysDict :=
  {| dict_path := dict_path d; dict_keys := dict_keys d;
     dict_cursor := 0%nat; total_keys := total_keys d |}.

(** ** The application object *)

(** [NfcMfClassicDictAttackContext] ([instance->nfc_dict_context]), with
    the fields the scene reads and writes.  [dict] is the handle
    pointer: [None] when it points to no open dictionary (never opened,
    failed to open, or freed). *)
Record NfcMfClassicDictAttackContext : Type := {
  dict : option KeysDict;
  sectors_total : Z;
  sectors_read : Z;
  current_sector : Z;
  keys_found : Z;
  dict_keys_total : Z;
  dict_keys_current : Z;
  is_key_attack : bool;
  key_attack_current_sector : Z;
  is_card_present : bool;
  nested_phase : MfClassicNestedPhase;
  prng_type : MfClassicPrngType;
  backdoor : MfClassicBackdoor;
  nested_target_key : Z;
  msb_count : Z
}.

(** Field assignments [ctx->f = v]. *)
Definition set_dict (v : option KeysDict) (c : NfcMfClassicDictAttackContext)
    : NfcMfClassicDictAttackContext :=
  {| dict := v;
     sectors_total := sectors_total c;
     sectors_read := sectors_read c;
     current_sector := current_sector c;
     keys_found := keys_found c;
     dict_keys_total := dict_keys_total c;
     dict_keys_current := dict_keys_current c;
     is_key_attack := is_key_attack c;
     key_attack_current_sector := key_attack_current_sector c;
     is_card_present := is_card_present c;
     nested_phase := nested_phase c;
     prng_type := prng_type c;
     backdoor := backdoor c;
     nested_target_key := nested_target_key c;
     msb_count := msb_count c |}.

Definition set_sectors_total (v : Z) (c : NfcMfClassicDictAttackContext)
    : NfcMfClassicDictAttackContext :=
  {| dict := dict c;
     sectors_total := v;
     sectors_read := sectors_read c;
     current_sector := current_sector c;
     keys_found := keys_found c;
     dict_keys_total := dict_keys_total c;
     dict_keys_current := dict_keys_current c;
     is_key_attack := is_key_attack c;
     key_attack_current_sector := key_attack_current_sector c;
     is_card_present := is_card_present c;
     nested_phase := nested_phase c;
     prng_type := prng_type c;
     backdoor := backdoor c;
     nested_target_key := nested_target_key c;
     msb_count := msb_count c |}.

Definition set_sectors_read (v : Z) (c : NfcMfClassicDictAttackContext)
    : NfcMfClassicDictAttackContext :=
  {| dict := dict c;
     sectors_total := sectors_total c;
     sectors_read := v;
     current_sector := current_sector c;
     keys_found := keys_found c;
     dict_keys_total := dict_keys_total c;
     dict_keys_current := dict_keys_current c;
     is_key_attack := is_key_attack c;
     key_attack_current_sector := key_attack_current_sector c;
     is_card_present := is_card_present c;
     nested_phase := nested_phase c;
     prng_type := prng_type c;
     backdoor := backdoor c;
     nested_target_key := nested_target_key c;
     msb_count := msb_count c |}.

Definition set_current_sector (v : Z) (c : NfcMfClassicDictAttackContext)
    : NfcMfClassicDictAttackContext :=
  {| dict := dict c;
     sectors_total := sectors_total c;
     sectors_read := sectors_read c;
     current_sector := v;
     keys_found := keys_found c;
     dict_keys_total := dict_keys_total c;
     dict_keys_current := dict_keys_current c;
     is_key_attack := is_key_attack c;
     key_attack_current_sector := key_attack_current_sector c;
     is_card_present := is_card_present c;
     nested_phase := nested_phase c;
     prng_type := prng_type c;
     backdoor := backdoor c;
     nested_target_key := nested_target_key c;
     msb_count := msb_count c |}.

Definition set_keys_found (v : Z) (c : NfcMfClassicDictAttackContext)
    : NfcMfClassicDictAttackContext :=
  {| dict := dict c;
     sectors_total := sectors_total c;
     sectors_read := sectors_read c;
     current_sector := current_sector c;
     keys_found := v;
     dict_keys_total := dict_keys_total c;
     dict_keys_current := dict_keys_current c;
     is_key_attack := is_key_attack c;
     key_attack_current_sector := key_attack_current_sector c;
     is_card_present := is_card_present c;
     nested_phase := nested_phase c;
     prng_type := prng_type c;
     backdoor := backdoor c;
     nested_target_key := nested_target_key c;
     msb_count := msb_count c |}.

Definition set_dict_keys_total (v : Z) (c : NfcMfClassicDictAttackContext)
    : NfcMfClassicDictAttackContext :=
  {| dict := dict c;
     sectors_total := sectors_total c;
     sectors_read := sectors_read c;
     current_sector := current_sector c;
     keys_found := keys_found c;
     dict_keys_total := v;
     dict_keys_current := dict_keys_current c;
     is_key_attack := is_key_attack c;
     key_attack_current_sector := key_attack_current_sector c;
     is_card_present := is_card_present c;
     nested_phase := nested_phase c;
     prng_type := prng_type c;
     backdoor := backdoor c;
     nested_target_key := nested_target_key c;
     msb_count := msb_count c |}.

Definition set_dict_keys_current (v : Z) (c : NfcMfClassicDictAttackContext)
    : NfcMfClassicDictAttackContext :=
  {| dict := dict c;
     sectors_total := sectors_total c;
     sectors_read := sectors_read c;
     current_sector := current_sector c;
     keys_found := keys_found c;
     dict_keys_total := dict_keys_total c;
     dict_keys_current := v;
     is_key_attack := is_key_attack c;
     key_attack_current_sector := key_attack_current_sector c;
     is_card_present := is_card_present c;
     nested_phase := nested_phase c;
     prng_type := prng_type c;
     backdoor := backdoor c;
     nested_target_key := nested_target_key c;
     msb_count := msb_count c |}.

Definition set_is_key_attack (v : bool) (c : NfcMfClassicDictAttackContext)
    : NfcMfClassicDictAttackContext :=
  {| dict := dict c;
     sectors_total := sectors_total c;
     sectors_read := sectors_read c;
     current_sector := current_sector c;
     keys_found := keys_found c;
     dict_keys_total := dict_keys_total c;
     dict_keys_current := dict_keys_current c;
     is_key_attack := v;
     key_attack_current_sector := key_attack_current_sector c;
     is_card_present := is_card_present c;
     nested_phase := nested_phase c;
     prng_type := prng_type c;
     backdoor := backdoor c;
     nested_target_key := nested_target_key c;
     msb_count := msb_count c |}.

Definition set_key_attack_current_sector (v : Z) (c : NfcMfClassicDictAttackContext)
    : NfcMfClassicDictAttackContext :=
  {| dict := dict c;
     sectors_total := sectors_total c;
     sectors_read := sectors_read c;
     current_sector := current_sector c;
     keys_found := keys_found c;
     dict_keys_total := dict_keys_total c;
     dict_keys_current := dict_keys_current c;
     is_key_attack := is_key_attack c;
     key_attack_current_sector := v;
     is_card_present := is_card_present c;
     nested_phase := nested_phase c;
     prng_type := prng_type c;
     backdoor := backdoor c;
     nested_target_key := nested_target_key c;
     msb_count := msb_count c |}.

Definition set_is_card_present (v : bool) (c : NfcMfClassicDictAttackContext)
    : NfcMfClassicDictAttackContext :=
  {| dict := dict c;
     sectors_total := sectors_total c;
     sectors_read := sectors_read c;
     current_sector := current_sector c;
     keys_found := keys_found c;
     dict_keys_total := dict_keys_total c;
     dict_keys_current := dict_keys_current c;
     is_key_attack := is_key_attack c;
     key_attack_current_sector := key_attack_current_sector c;
     is_card_present := v;
     nested_phase := nested_phase c;
     prng_type := prng_type c;
     backdoor := backdoor c;
     nested_target_key := nested_target_key c;
     msb_count := msb_count c |}.

Definition set_nested_phase (v : MfClassicNestedPhase) (c : NfcMfClassicDictAttackContext)
    : NfcMfClassicDictAttackContext :=
  {| dict := dict c;
     sectors_total := sectors_total c;
     sectors_read := sectors_read c;
     current_sector := current_sector c;
     keys_found := keys_found c;
     dict_keys_total := dict_keys_total c;
     dict_keys_current := dict_keys_current c;
     is_key_attack := is_key_attack c;
     key_attack_current_sector := key_attack_current_sector c;
     is_card_present := is_card_present c;
     nested_phase := v;
     prng_type := prng_type c;
     backdoor := backdoor c;
     nested_target_key := nested_target_key c;
     msb_count := msb_count c |}.

Definition set_prng_type (v : MfClassicPrngType) (c : NfcMfClassicDictAttackContext)
    : NfcMfClassicDictAttackContext :=
  {| dict := dict c;
     sectors_total := sectors_total c;
     sectors_read := sectors_read c;
     current_sector := current_sector c;
     keys_found := keys_found c;
     dict_keys_total := dict_keys_total c;
     dict_keys_current := dict_keys_current c;
     is_key_attack := is_key_attack c;
     key_attack_current_sector := key_attack_current_sector c;
     is_card_present := is_card_present c;
     nested_phase := nested_phase c;
     prng_type := v;
     backdoor := backdoor c;
     nested_target_key := nested_target_key c;
     msb_count := msb_count c |}.

Definition set_backdoor (v : MfClassicBackdoor) (c : NfcMfClassicDictAttackContext)
    : NfcMfClassicDictAttackContext :=
  {| dict := dict c;
     sectors_total := sectors_total c;
     sectors_read := sectors_read c;
     current_sector := current_sector c;
     keys_found := keys_found c;
     dict_keys_total := dict_keys_total c;
     dict_keys_current := dict_keys_current c;
     is_key_attack := is_key_attack c;
     key_attack_current_sector := key_attack_current_sector c;
     is_card_present := is_card_present c;
     nested_phase := nested_phase c;
     prng_type := prng_type c;
     backdoor := v;
     nested_target_key := nested_target_key c;
     msb_count := msb_count c |}.

Definition set_nested_target_key (v : Z) (c : NfcMfClassicDictAttackContext)
    : NfcMfClassicDictAttackContext :=
  {| dict := dict c;
     sectors_total := sectors_total c;
     sectors_read := sectors_read c;
     current_sector := current_sector c;
     keys_found := keys_found c;
     dict_keys_total := dict_keys_total c;
     dict_keys_current := dict_keys_current c;
     is_key_attack := is_key_attack c;
     key_attack_current_sector := key_attack_current_sector c;
     is_card_present := is_card_present c;
     nested_phase := nested_phase c;
     prng_type := prng_type c;
     backdoor := backdoor c;
     nested_target_key := v;
     msb_count := msb_count c |}.

Definition set_msb_count (v : Z) (c : NfcMfClassicDictAttackContext)
    : NfcMfClassicDictAttackContext :=
  {| dict := dict c;
     sectors_total := sectors_total c;
     sectors_read := sectors_read c;
     current_sector := current_sector c;
     keys_found := keys_found c;
     dict_keys_total := dict_keys_total c;
     dict_keys_current := dict_keys_current c;
     is_key_attack := is_key_attack c;
     key_attack_current_sector := key_attack_current_sector c;
     is_card_present := is_card_present c;
     nested_phase := nested_phase c;
     prng_type := prng_type c;
     backdoor := backdoor c;
     nested_target_key := nested_target_key c;
     msb_count := v |}.

(** [DictAttackState], kept as the scene state of
    [NfcSceneMfClassicDictAttack]. *)
Inductive DictAttackState : Type :=
| DictAttackStateUserDictInProgress
| DictAttackStateSystemDictInProgress.

(** The part of [NfcApp] the scene reads and writes: the attack context,
    the scene state held by the scene manager, the card image of the
    device record ([instance->nfc_device]), the card image the poller
    currently holds (what [nfc_poller_get_data(instance->poller)]
    returns) and the storage. *)
Record NfcApp : Type := {
  nfc_dict_context : NfcMfClassicDictAttackContext;
  scene_state : DictAttackState;
  nfc_device : MfClassicData;
  poller : MfClassicData;
  storage : Storage
}.

Definition set_nfc_dict_context (c : NfcMfClassicDictAttackContext) (a : NfcApp) : NfcApp :=
  {| nfc_dict_context := c; scene_state := scene_state a;
     nfc_device := nfc_device a; poller := poller a; storage := storage a |}.

Definition set_scene_state (s : DictAttackState) (a : NfcApp) : NfcApp :=
  {| nfc_dict_context := nfc_dict_context a; scene_state := s;
     nfc_device := nfc_device a; poller := poller a; storage := storage a |}.

Definition set_nfc_device (d : MfClassicData) (a : NfcApp) : NfcApp :=
  {| nfc_dict_context := nfc_dict_context a; scene_state := scene_state a;
     nfc_device := d; poller := poller a; storage := storage a |}.

Definition set_poller (d : MfClassicData) (a : NfcApp) : NfcApp :=
  {| nfc_dict_context := nfc_dict_context a; scene_state := scene_state a;
     nfc_device := nfc_device a; poller := d; storage := storage a |}.

Definition set_storage (st : Storage) (a : NfcApp) : NfcApp :=
  {| nfc_dict_context := nfc_dict_context a; scene_state := scene_state a;
     nfc_device := nfc_device a; poller := poller a; storage := st |}.

(** ** Events *)

Inductive NfcCommand : Type :=
| NfcCommandContinue
| NfcCommandStop.

Inductive MfClassicPollerMode : Type :=
| MfClassicPollerModeRead
| MfClassicPollerModeWrite
| MfClassicPollerModeDictAttack.

(** [mfc_event->data->poller_mode] *)
Record MfClassicPollerEventDataRequestMode : Type := {
  mode : MfClassicPollerMode;
  mode_data : option MfClassicData
}.

(** [mfc_event->data->key_request_data] *)
Record MfClassicPollerEventDataKeyRequest : Type := {
  key : MfClassicKey;
  key_provided : bool
}.

(** [mfc_event->data->data_update] *)
Record MfClassicPollerEventDataUpdate : Type := {
  du_sectors_read : Z;
  du_keys_found : Z;
  du_current_sector : Z;
  du_nested_phase : MfClassicNestedPhase;
  du_prng_type : MfClassicPrngType;
  du_backdoor : MfClassicBackdoor;
  du_nested_target_key : Z;
  du_msb_count : Z
}.

(** [MfClassicPollerEvent]: the event type together with the member of
    the data union that the type selects.  The request events carry the
    data the poller passes in; the callback answers by writing to it. *)
Inductive MfClassicPollerEvent : Type :=
| MfClassicPollerEventTypeCardDetected
| MfClassicPollerEventTypeCardLost
| MfClassicPollerEventTypeRequestMode (poller_mode : MfClassicPollerEventDataRequestMode)
| MfClassicPollerEventTypeRequestKey (key_request_data : MfClassicPollerEventDataKeyRequest)
| MfClassicPollerEventTypeDataUpdate (data_update : MfClassicPollerEventDataUpdate)
| MfClassicPollerEventTypeNextSector (next_sector_current_sector : Z)
| MfClassicPollerEventTypeFoundKeyA
| MfClassicPollerEventTypeFoundKeyB
| MfClassicPollerEventTypeKeyAttackStart (key_attack_sector : Z)
| MfClassicPollerEventTypeKeyAttackStop
| MfClassicPollerEventTypeSuccess.

Inductive NfcCustomEvent : Type :=
| NfcCustomEventViewExit
| NfcCustomEventCardDetected
| NfcCustomEventCardLost
| NfcCustomEventDictAttackComplete
| NfcCustomEventDictAttackDataUpdate
| NfcCustomEventDictAttackSkip.

Inductive SceneManagerEvent : Type :=
| SceneManagerEventTypeCustom (event : NfcCustomEvent)
| SceneManagerEventTypeBack
| SceneManagerEventTypeTick.

Inductive DictAttackEvent : Type :=
| DictAttackEventSkipPressed.

Inductive NfcScene : Type :=
| NfcSceneReadSuccess
| NfcSceneExitConfirm.

Inductive NotificationSequence : Type :=
| sequence_success
| sequence_semi_success.

(** ** Calls into the collaborators *)

(** Calls on the dictionary attack view ([instance->dict_attack]). *)
Inductive DictAttackCall : Type :=
| dict_attack_set_key_attack (sector : Z)
| dict_attack_reset_key_attack
| dict_attack_set_sectors_total (n : Z)
| dict_attack_set_sectors_read (n : Z)
| dict_attack_set_keys_found (n : Z)
| dict_attack_set_current_dict_key (n : Z)
| dict_attack_set_current_sector (n : Z)
| dict_attack_set_nested_phase (p : MfClassicNestedPhase)
| dict_attack_set_prng_type (t : MfClassicPrngType)
| dict_attack_set_backdoor (b : MfClassicBackdoor)
| dict_attack_set_nested_target_key (n : Z)
| dict_attack_set_msb_count (n : Z)
| dict_attack_set_header (text : string)
| dict_attack_set_total_dict_keys (n : Z)
| dict_attack_set_callback
| dict_attack_set_card_state (present : bool)
| dict_attack_reset.

(** One outward call of the scene.  The trace of a handler is the list
    of its calls in program order. *)
Inductive Call : Type :=
| call_view_dispatcher_send_custom_event (e : NfcCustomEvent)
| call_view_dispatcher_switch_to_view_DictAttack
| call_nfc_device_set_data (d : MfClassicData)
| call_storage_common_remove (p : DictPath)
| call_storage_common_copy (src dst : DictPath)
| call_keys_dict_alloc (p : DictPath) (m : KeysDictMode)
| call_keys_dict_free (p : DictPath)
| call_keys_dict_rewind (p : DictPath)
| call_keys_dict_get_next_key (p : DictPath)
| call_dict_attack (c : DictAttackCall)
| call_scene_manager_set_scene_state (s : DictAttackState)
| call_scene_manager_next_scene (s : NfcScene)
| call_nfc_poller_alloc
| call_nfc_poller_start
| call_nfc_poller_stop
| call_nfc_poller_free
| call_nfc_blink_read_start
| call_nfc_blink_stop
| call_notification_message (s : NotificationSequence)
| call_dolphin_deed_NfcReadSuccess.

(** ** The handler monad *)

(** A handler either runs to its end ([Done]: result, final object,
    trace) or stops where it uses a dictionary handle that is not open
    ([Crash]: object and trace up to there). *)
Inductive Outcome (A : Type) : Type :=
| Done (a : A) (app : NfcApp) (tr : list Call)
| Crash (app : NfcApp) (tr : list Call).
Arguments Done {A} a app tr.
Arguments Crash {A} app tr.

Definition M (A : Type) : Type := NfcApp -> Outcome A.

Definition ret {A : Type} (a : A) : M A := fun app => Done a app [].

Definition bind {A B : Type} (m : M A) (k : A -> M B) : M B :=
  fun app =>
    match m app with
    | Done a app1 tr1 =>
        match k a app1 with
        | Done b app2 tr2 => Done b app2 (tr1 ++ tr2)
        | Crash app2 tr2 => Crash app2 (tr1 ++ tr2)
        end
    | Crash app1 tr1 => Crash app1 tr1
    end.

Declare Scope handler_scope.
Delimit Scope handler_scope with handler.
Notation "x <- m ;; k" := (bind m (fun x => k))
  (at level 61, m at next level, right associativity) : handler_scope.
Notation "m ;; k" := (bind m (fun _ => k))
  (at level 61, right associativity) : handler_scope.
Local Open Scope handler_scope.

Definition get : M NfcApp := fun app => Done app app [].
Definition modify (f : NfcApp -> NfcApp) : M unit := fun app => Done tt (f app) [].
Definition emit (c : Call) : M unit := fun app => Done tt app [c].
Definition crash {A : Type} : M A := fun app => Crash app [].

(** [instance->nfc_dict_context.f = v] *)
Definition assign (f : NfcMfClassicDictAttackContext -> NfcMfClassicDictAttackContext)
    : M unit :=
  modify (fun app => set_nfc_dict_context (f (nfc_dict_context app)) app).

Definition outcome_app {A : Type} (o : Outcome A) : NfcApp :=
  match o with Done _ app _ => app | Crash app _ => app end.

Definition outcome_trace {A : Type} (o : Outcome A) : list Call :=
  match o with Done _ _ tr => tr | Crash _ tr => tr end.

(** ** Collaborators, as the scene calls them

    None of them is under src/.  A call that only acts on the outside
    (view, poller, notifications) is recorded in the trace; a call whose
    effect the scene later depends on also changes the application
    object. *)

Definition view_dispatcher_send_custom_event (e : NfcCustomEvent) : M unit :=
  emit (call_view_dispatcher_send_custom_event e).

Definition nfc_device_get_data : M MfClassicData :=
  app <- get ;; ret (nfc_device app).

(** Modelled from the spec: [set_data(protocol, data)] of the device
    record; the record then holds [d]. *)
Definition nfc_device_set_data (d : MfClassicData) : M unit :=
  modify (set_nfc_device d) ;; emit (call_nfc_device_set_data d).

Definition nfc_poller_get_data : M MfClassicData :=
  app <- get ;; ret (poller app).

(** The poller is the external card session.  Its lifecycle calls are
    recorded; the card image it holds is set by [StepCardImage] below. *)
Definition nfc_poller_alloc : M unit := emit call_nfc_poller_alloc.
Definition nfc_poller_start : M unit := emit call_nfc_poller_start.
Definition nfc_poller_stop : M unit := emit call_nfc_poller_stop.
Definition nfc_poller_free : M unit := emit call_nfc_poller_free.

Definition scene_manager_get_scene_state : M DictAttackState :=
  app <- get ;; ret (scene_state app).

Definition scene_manager_set_scene_state (s : DictAttackState) : M unit :=
  modify (set_scene_state s) ;; emit (call_scene_manager_set_scene_state s).

Definition scene_manager_next_scene (s : NfcScene) : M unit :=
  emit (call_scene_manager_next_scene s).

(** Modelled from the spec: the storage collaborator's [remove] and
    [copy]; the scene does not look at their results. *)
Definition storage_common_remove (p : DictPath) : M unit :=
  modify (fun app => set_storage (storage_remove (storage app) p) app) ;;
  emit (call_storage_common_remove p).

Definition storage_common_copy (src dst : DictPath) : M unit :=
  modify (fun app => set_storage (storage_copy (storage app) src dst) app) ;;
  emit (call_storage_common_copy src dst).

(** Modelled from the spec: [check_presence(path)], a non-mutating
    existence check. *)
Definition keys_dict_check_presence (p : DictPath) : M bool :=
  app <- get ;;
  ret (match storage_file (storage app) p with Some _ => true | None => false end).

(** Modelled from the spec: [open(path, mode) -> Handle | Error]; the
    error is the null handle [None]. *)
Definition keys_dict_alloc (p : DictPath) (m : KeysDictMode) : M (option KeysDict) :=
  app <- get ;;
  let (h, st) := keys_dict_open (storage app) p m in
  modify (set_storage st) ;;
  emit (call_keys_dict_alloc p m) ;;
  ret h.

(** Modelled from the spec: the dictionary calls below all take
    [instance->nfc_dict_context.dict]; they work on that slot, and a
    call through a handle that is not open (null or freed: outside the
    contract of §4.1) is where a handler stops. *)
Definition the_dict : M KeysDict :=
  fun app =>
    match dict (nfc_dict_context app) with
    | Some d => Done d app []
    | None => Crash app []
    end.

(** Modelled from the spec: [total_keys(handle)], the count cached at
    open. *)
Definition keys_dict_get_total_keys : M Z :=
  d <- the_dict ;; ret (total_keys d).

(** Modelled from the spec: [next_key(handle)]. *)
Definition keys_dict_get_next_key : M (option MfClassicKey) :=
  d <- the_dict ;;
  let (k, d') := keys_dict_next d in
  assign (set_dict (Some d')) ;;
  emit (call_keys_dict_get_next_key (dict_path d)) ;;
  ret k.

(** Modelled from the spec: [rewind(handle)]. *)
Definition keys_dict_rewind : M unit :=
  d <- the_dict ;;
  assign (set_dict (Some (keys_dict_rewound d))) ;;
  emit (call_keys_dict_rewind (dict_path d)).

(** Modelled from the spec: [release(handle)]; the slot no longer
    points to an open dictionary. *)
Definition keys_dict_free : M unit :=
  d <- the_dict ;;
  assign (set_dict None) ;;
  emit (call_keys_dict_free (dict_path d)).

Definition dict_attack (c : DictAttackCall) : M unit := emit (call_dict_attack c).

(** ** The scene *)

Definition nfc_dict_attack_worker_callback (mfc_event : MfClassicPollerEvent)
    : M (NfcCommand * MfClassicPollerEvent) :=
  match mfc_event with
  | MfClassicPollerEventTypeCardDetected =>
      assign (set_is_card_present true) ;;
      view_dispatcher_send_custom_event NfcCustomEventCardDetected ;;
      ret (NfcCommandContinue, mfc_event)
  | MfClassicPollerEventTypeCardLost =>
      assign (set_is_card_present false) ;;
      view_dispatcher_send_custom_event NfcCustomEventCardLost ;;
      ret (NfcCommandContinue, mfc_event)
  | MfClassicPollerEventTypeRequestMode _ =>
      mfc_data <- nfc_device_get_data ;;
      assign (set_sectors_total (mf_classic_get_total_sectors_num (type mfc_data))) ;;
      assign (set_sectors_read (fst (mf_classic_get_read_sectors_and_keys mfc_data))) ;;
      assign (set_keys_found (snd (mf_classic_get_read_sectors_and_keys mfc_data))) ;;
      view_dispatcher_send_custom_event NfcCustomEventDictAttackDataUpdate ;;
      ret (NfcCommandContinue,
           MfClassicPollerEventTypeRequestMode
             {| mode := MfClassicPollerModeDictAttack; mode_data := Some mfc_data |})
  | MfClassicPollerEventTypeRequestKey key_request_data =>
      next <- keys_dict_get_next_key ;;
      match next with
      | Some k =>
          assign (fun c => set_dict_keys_current (to_size_t (dict_keys_current c + 1)) c) ;;
          app <- get ;;
          (if dict_keys_current (nfc_dict_context app) mod 10 =? 0
           then view_dispatcher_send_custom_event NfcCustomEventDictAttackDataUpdate
           else ret tt) ;;
          ret (NfcCommandContinue,
               MfClassicPollerEventTypeRequestKey {| key := k; key_provided := true |})
      | None =>
          ret (NfcCommandContinue,
               MfClassicPollerEventTypeRequestKey
                 {| key := key key_request_data; key_provided := false |})
      end
  | MfClassicPollerEventTypeDataUpdate data_update =>
      assign (set_sectors_read (du_sectors_read data_update)) ;;
      assign (set_keys_found (du_keys_found data_update)) ;;
      assign (set_current_sector (du_current_sector data_update)) ;;
      assign (set_nested_phase (du_nested_phase data_update)) ;;
      assign (set_prng_type (du_prng_type data_update)) ;;
      assign (set_backdoor (du_backdoor data_update)) ;;
      assign (set_nested_target_key (du_nested_target_key data_update)) ;;
      assign (set_msb_count (du_msb_count data_update)) ;;
      view_dispatcher_send_custom_event NfcCustomEventDictAttackDataUpdate ;;
      ret (NfcCommandContinue, mfc_event)
  | MfClassicPollerEventTypeNextSector sector =>
      keys_dict_rewind ;;
      assign (set_dict_keys_current 0) ;;
      assign (set_current_sector sector) ;;
      view_dispatcher_send_custom_event NfcCustomEventDictAttackDataUpdate ;;
      ret (NfcCommandContinue, mfc_event)
  | MfClassicPollerEventTypeFoundKeyA =>
      view_dispatcher_send_custom_event NfcCustomEventDictAttackDataUpdate ;;
      ret (NfcCommandContinue, mfc_event)
  | MfClassicPollerEventTypeFoundKeyB =>
      view_dispatcher_send_custom_event NfcCustomEventDictAttackDataUpdate ;;
      ret (NfcCommandContinue, mfc_event)
  | MfClassicPollerEventTypeKeyAttackStart sector =>
      assign (set_key_attack_current_sector sector) ;;
      assign (set_is_key_attack true) ;;
      view_dispatcher_send_custom_event NfcCustomEventDictAttackDataUpdate ;;
      ret (NfcCommandContinue, mfc_event)
  | MfClassicPollerEventTypeKeyAttackStop =>
      keys_dict_rewind ;;
      assign (set_is_key_attack false) ;;
      assign (set_dict_keys_current 0) ;;
      view_dispatcher_send_custom_event NfcCustomEventDictAttackDataUpdate ;;
      ret (NfcCommandContinue, mfc_event)
  | MfClassicPollerEventTypeSuccess =>
      mfc_data <- nfc_poller_get_data ;;
      nfc_device_set_data mfc_data ;;
      view_dispatcher_send_custom_event NfcCustomEventDictAttackComplete ;;
      ret (NfcCommandStop, mfc_event)
  end.

Definition nfc_dict_attack_dict_attack_result_callback (e : DictAttackEvent) : M unit :=
  match e with
  | DictAttackEventSkipPressed =>
      view_dispatcher_send_custom_event NfcCustomEventDictAttackSkip
  end.

Definition nfc_scene_mf_classic_dict_attack_update_view : M unit :=
  app <- get ;;
  let mfc_dict := nfc_dict_context app in
  if is_key_attack mfc_dict then
    dict_attack (dict_attack_set_key_attack (key_attack_current_sector mfc_dict))
  else
    dict_attack dict_attack_reset_key_attack ;;
    dict_attack (dict_attack_set_sectors_total (sectors_total mfc_dict)) ;;
    dict_attack (dict_attack_set_sectors_read (sectors_read mfc_dict)) ;;
    dict_attack (dict_attack_set_keys_found (keys_found mfc_dict)) ;;
    dict_attack (dict_attack_set_current_dict_key (dict_keys_current mfc_dict)) ;;
    dict_attack (dict_attack_set_current_sector (current_sector mfc_dict)) ;;
    dict_attack (dict_attack_set_nested_phase (nested_phase mfc_dict)) ;;
    dict_attack (dict_attack_set_prng_type (prng_type mfc_dict)) ;;
    dict_attack (dict_attack_set_backdoor (backdoor mfc_dict)) ;;
    dict_attack (dict_attack_set_nested_target_key (nested_target_key mfc_dict)) ;;
    dict_attack (dict_attack_set_msb_count (msb_count mfc_dict)).

(** The [do { ... } while(false)] block of [prepare_view], entered when
    the scene state is [DictAttackStateUserDictInProgress]; the result
    is the value of the local [state] when the block is left. *)
Definition prepare_view_user_dict : M DictAttackState :=
  storage_common_remove NFC_APP_MF_CLASSIC_DICT_SYSTEM_NESTED_PATH ;;
  storage_common_copy
    NFC_APP_MF_CLASSIC_DICT_SYSTEM_PATH NFC_APP_MF_CLASSIC_DICT_SYSTEM_NESTED_PATH ;;
  present <- keys_dict_check_presence NFC_APP_MF_CLASSIC_DICT_USER_PATH ;;
  if negb present then ret DictAttackStateSystemDictInProgress
  else
    storage_common_remove NFC_APP_MF_CLASSIC_DICT_USER_NESTED_PATH ;;
    storage_common_copy
      NFC_APP_MF_CLASSIC_DICT_USER_PATH NFC_APP_MF_CLASSIC_DICT_USER_NESTED_PATH ;;
    d <- keys_dict_alloc NFC_APP_MF_CLASSIC_DICT_USER_PATH KeysDictModeOpenAlways ;;
    assign (set_dict d) ;;
    total <- keys_dict_get_total_keys ;;
    if total =? 0 then
      keys_dict_free ;;
      ret DictAttackStateSystemDictInProgress
    else
      dict_attack (dict_attack_set_header "MF Classic User Dictionary") ;;
      ret DictAttackStateUserDictInProgress.

(** The [if(state == DictAttackStateSystemDictInProgress)] block. *)
Definition prepare_view_system_dict : M unit :=
  storage_common_remove NFC_APP_MF_CLASSIC_DICT_SYSTEM_NESTED_PATH ;;
  storage_common_copy
    NFC_APP_MF_CLASSIC_DICT_SYSTEM_PATH NFC_APP_MF_CLASSIC_DICT_SYSTEM_NESTED_PATH ;;
  d <- keys_dict_alloc NFC_APP_MF_CLASSIC_DICT_SYSTEM_PATH KeysDictModeOpenExisting ;;
  assign (set_dict d) ;;
  dict_attack (dict_attack_set_header "MF Classic System Dictionary").

Definition nfc_scene_mf_classic_dict_attack_prepare_view : M unit :=
  state0 <- scene_manager_get_scene_state ;;
  state <- match state0 with
           | DictAttackStateUserDictInProgress => prepare_view_user_dict
           | DictAttackStateSystemDictInProgress => ret state0
           end ;;
  match state with
  | DictAttackStateSystemDictInProgress => prepare_view_system_dict
  | DictAttackStateUserDictInProgress => ret tt
  end ;;
  total <- keys_dict_get_total_keys ;;
  assign (set_dict_keys_total total) ;;
  dict_attack (dict_attack_set_total_dict_keys total) ;;
  assign (set_dict_keys_current 0) ;;
  dict_attack dict_attack_set_callback ;;
  nfc_scene_mf_classic_dict_attack_update_view ;;
  scene_manager_set_scene_state state.

Definition nfc_scene_mf_classic_dict_attack_on_enter : M unit :=
  scene_manager_set_scene_state DictAttackStateUserDictInProgress ;;
  nfc_scene_mf_classic_dict_attack_prepare_view ;;
  dict_attack (dict_attack_set_card_state true) ;;
  emit call_view_dispatcher_switch_to_view_DictAttack ;;
  emit call_nfc_blink_read_start ;;
  nfc_poller_alloc ;;
  nfc_poller_start.

Definition nfc_scene_mf_classic_dict_attack_notify_read : M unit :=
  mfc_data <- nfc_poller_get_data ;;
  if mf_classic_is_card_read mfc_data
  then emit (call_notification_message sequence_success)
  else emit (call_notification_message sequence_semi_success).

(** The three lines that end the attack: notify, go to the read-success
    scene, credit the deed. *)
Definition finish_read : M unit :=
  nfc_scene_mf_classic_dict_attack_notify_read ;;
  scene_manager_next_scene NfcSceneReadSuccess ;;
  emit call_dolphin_deed_NfcReadSuccess.

(** The block that moves the attack on to the system dictionary. *)
Definition restart_with_system_dict : M unit :=
  nfc_poller_stop ;;
  nfc_poller_free ;;
  keys_dict_free ;;
  scene_manager_set_scene_state DictAttackStateSystemDictInProgress ;;
  nfc_scene_mf_classic_dict_attack_prepare_view ;;
  nfc_poller_alloc ;;
  nfc_poller_start.

Definition nfc_scene_mf_classic_dict_attack_on_event (event : SceneManagerEvent) : M bool :=
  state <- scene_manager_get_scene_state ;;
  match event with
  | SceneManagerEventTypeCustom NfcCustomEventDictAttackComplete =>
      match state with
      | DictAttackStateUserDictInProgress =>
          restart_with_system_dict ;; ret true
      | DictAttackStateSystemDictInProgress =>
          finish_read ;; ret true
      end
  | SceneManagerEventTypeCustom NfcCustomEventCardDetected =>
      dict_attack (dict_attack_set_card_state true) ;; ret true
  | SceneManagerEventTypeCustom NfcCustomEventCardLost =>
      dict_attack (dict_attack_set_card_state false) ;; ret true
  | SceneManagerEventTypeCustom NfcCustomEventDictAttackDataUpdate =>
      nfc_scene_mf_classic_dict_attack_update_view ;; ret false
  | SceneManagerEventTypeCustom NfcCustomEventDictAttackSkip =>
      mfc_data <- nfc_poller_get_data ;;
      nfc_device_set_data mfc_data ;;
      match state with
      | DictAttackStateUserDictInProgress =>
          app <- get ;;
          (if is_card_present (nfc_dict_context app)
           then restart_with_system_dict
           else finish_read) ;;
          ret true
      | DictAttackStateSystemDictInProgress =>
          finish_read ;; ret true
      end
  | SceneManagerEventTypeCustom NfcCustomEventViewExit => ret false
  | SceneManagerEventTypeBack =>
      scene_manager_next_scene NfcSceneExitConfirm ;; ret true
  | SceneManagerEventTypeTick => ret false
  end.

Definition nfc_scene_mf_classic_dict_attack_on_exit : M unit :=
  nfc_poller_stop ;;
  nfc_poller_free ;;
  dict_attack dict_attack_reset ;;
  scene_manager_set_scene_state DictAttackStateUserDictInProgress ;;
  keys_dict_free ;;
  assign (set_current_sector 0) ;;
  assign (set_sectors_total 0) ;;
  assign (set_sectors_read 0) ;;
  assign (set_keys_found 0) ;;
  assign (set_dict_keys_total 0) ;;
  assign (set_dict_keys_current 0) ;;
  assign (set_is_key_attack false) ;;
  assign (set_key_attack_current_sector 0) ;;
  assign (set_is_card_present false) ;;
  assign (set_nested_phase MfClassicNestedPhaseNone) ;;
  assign (set_prng_type MfClassicPrngTypeUnknown) ;;
  assign (set_backdoor MfClassicBackdoorUnknown) ;;
  emit call_nfc_blink_stop.

(** ** Runs *)

(** The application object before the scene is first entered: a zeroed
    attack context, no dictionary open. *)
Definition nfc_app_alloc (st : Storage) (device card : MfClassicData) : NfcApp :=
  {| nfc_dict_context :=
       {| dict := None; sectors_total := 0; sectors_read := 0;
          current_sector := 0; keys_found := 0; dict_keys_total := 0;
          dict_keys_current := 0; is_key_attack := false;
          key_attack_current_sector := 0; is_card_present := false;
          nested_phase := MfClassicNestedPhaseNone;
          prng_type := MfClassicPrngTypeUnknown;
          backdoor := MfClassicBackdoorUnknown;
          nested_target_key := 0; msb_count := 0 |};
     scene_state := DictAttackStateUserDictInProgress;
     nfc_device := device; poller := card; storage := st |}.

(** What can happen to the scene: it is entered, the poller delivers an
    event to the worker callback, the scene manager delivers an event,
    the scene is left, or the running poller reads more of the card and
    its card image changes. *)
Inductive Step : Type :=
| StepEnter
| StepPoller (e : MfClassicPollerEvent)
| StepScene (e : SceneManagerEvent)
| StepExit
| StepCardImage (d : MfClassicData).

Definition exec (s : Step) : M unit :=
  match s with
  | StepEnter => nfc_scene_mf_classic_dict_attack_on_enter
  | StepPoller e => nfc_dict_attack_worker_callback e ;; ret tt
  | StepScene e => nfc_scene_mf_classic_dict_attack_on_event e ;; ret tt
  | StepExit => nfc_scene_mf_classic_dict_attack_on_exit
  | StepCardImage d => modify (set_poller d)
  end.

Fixpoint run (steps : list Step) : M unit :=
  match steps with
  | [] => ret tt
  | s :: rest => exec s ;; run rest
  end.


(** ** Vocabulary of the properties *)

(** Calls that persist card data to the device record. *)
Definition is_set_data (c : Call) : bool :=
  match c with
  | call_nfc_device_set_data _ => true
  | _ => false
  end.

Definition set_data_calls (tr : list Call) : nat :=
  length (filter is_set_data tr).


(** ** Sample data *)

Definition key_of (b : byte) : MfClassicKey := {| data := [b; b; b; b; b; b] |}.
Definition K1 : MfClassicKey := key_of x01.
Definition K2 : MfClassicKey := key_of x02.
Definition K3 : MfClassicKey := key_of x03.
Definition K4 : MfClassicKey := {| data := [xff; xff; xff; xff; xff; xff] |}.
Definition K5 : MfClassicKey := {| data := [xa0; xa1; xa2; xa3; xa4; xa5] |}.

(** A 1K card of which nothing is known, and the same card with key A
    of sector 0 found. *)
Definition card_blank : MfClassicData :=
  {| type := MfClassicType1k; sector_keys := repeat (false, false) 16 |}.
Definition card_one_key : MfClassicData :=
  {| type := MfClassicType1k;
     sector_keys := (true, false) :: repeat (false, false) 15 |}.

(** A user dictionary of three keys and a system dictionary of two. *)
Definition sample_storage : Storage :=
  {| user_dict_file := Some [K1; K2; K3]; user_nested_file := None;
     system_dict_file := Some [K4; K5]; system_nested_file := None |}.

Definition sample_app : NfcApp := nfc_app_alloc sample_storage card_blank card_blank.


Definition request_key : MfClassicPollerEvent :=
  MfClassicPollerEventTypeRequestKey {| key := MfClassicKey_zero; key_provided := false |}.

Definition request_mode : MfClassicPollerEvent :=
  MfClassicPollerEventTypeRequestMode
    {| mode := MfClassicPollerModeRead; mode_data := None |}.

Definition sample_update : MfClassicPollerEventDataUpdate :=
  {| du_sectors_read := 1; du_keys_found := 1; du_current_sector := 2;
     du_nested_phase := MfClassicNestedPhaseRunning 1;
     du_prng_type := MfClassicPrngTypeWeak;
     du_backdoor := MfClassicBackdoorNone;
     du_nested_target_key := 5; du_msb_count := 7 |}.

Definition scene_complete : Step :=
  StepScene (SceneManagerEventTypeCustom NfcCustomEventDictAttackComplete).
Definition scene_skip : Step :=
  StepScene (SceneManagerEventTypeCustom NfcCustomEventDictAttackSkip).
Definition poller_success : Step := StepPoller MfClassicPollerEventTypeSuccess.

(** ** Traces of the two ways a pass can end *)

(** The calls of [update_view] for a context. *)
Definition update_view_calls (c : NfcMfClassicDictAttackContext) : list Call :=
  if is_key_attack c then
    [call_dict_attack (dict_attack_set_key_attack (key_attack_current_sector c))]
  else
    [call_dict_attack dict_attack_reset_key_attack;
     call_dict_attack (dict_attack_set_sectors_total (sectors_total c));
     call_dict_attack (dict_attack_set_sectors_read (sectors_read c));
     call_dict_attack (dict_attack_set_keys_found (keys_found c));
     call_dict_attack (dict_attack_set_current_dict_key (dict_keys_current c));
     call_dict_attack (dict_attack_set_current_sector (current_sector c));
     call_dict_attack (dict_attack_set_nested_phase (nested_phase c));
     call_dict_attack (dict_attack_set_prng_type (prng_type c));
     call_dict_attack (dict_attack_set_backdoor (backdoor c));
     call_dict_attack (dict_attack_set_nested_target_key (nested_target_key c));
     call_dict_attack (dict_attack_set_msb_count (msb_count c))].

(** The handle a successful open of the system dictionary returns. *)
Definition system_dict_handle (ks : list MfClassicKey) : KeysDict :=
  {| dict_path := NFC_APP_MF_CLASSIC_DICT_SYSTEM_PATH; dict_keys := ks;
     dict_cursor := 0%nat; total_keys := to_size_t (Z.of_nat (length ks)) |}.

(** The calls of [prepare_view] when it is entered in the system phase;
    [c] is the context it leaves. *)
Definition system_entry_calls (c : NfcMfClassicDictAttackContext) : list Call :=
  [call_storage_common_remove NFC_APP_MF_CLASSIC_DICT_SYSTEM_NESTED_PATH;
   call_storage_common_copy
     NFC_APP_MF_CLASSIC_DICT_SYSTEM_PATH NFC_APP_MF_CLASSIC_DICT_SYSTEM_NESTED_PATH;
   call_keys_dict_alloc NFC_APP_MF_CLASSIC_DICT_SYSTEM_PATH KeysDictModeOpenExisting;
   call_dict_attack (dict_attack_set_header "MF Classic System Dictionary");
   call_dict_attack (dict_attack_set_total_dict_keys (dict_keys_total c));
   call_dict_attack dict_attack_set_callback]
  ++ update_view_calls c
  ++ [call_scene_manager_set_scene_state DictAttackStateSystemDictInProgress].

(** Moving on to the system dictionary: the session is stopped and
    released, the dictionary at [p] is released, the system phase is
    entered and a new session is started. *)
Definition restart_calls (p : DictPath) (c : NfcMfClassicDictAttackContext) : list Call :=
  [call_nfc_poller_stop; call_nfc_poller_free; call_keys_dict_free p;
   call_scene_manager_set_scene_state DictAttackStateSystemDictInProgress]
  ++ system_entry_calls c
  ++ [call_nfc_poller_alloc; call_nfc_poller_start].




(** The storage once the working copy of the system dictionary is
    staged. *)
Definition staged_system (st : Storage) : Storage :=
  storage_copy
    (storage_remove st NFC_APP_MF_CLASSIC_DICT_SYSTEM_NESTED_PATH)
    NFC_APP_MF_CLASSIC_DICT_SYSTEM_PATH NFC_APP_MF_CLASSIC_DICT_SYSTEM_NESTED_PATH.

(** The application object once the system phase is entered with the
    system dictionary [ks]. *)
Definition in_system_phase (ks : list MfClassicKey) (app : NfcApp) : NfcApp :=
  set_scene_state DictAttackStateSystemDictInProgress
    (set_storage (staged_system (storage app))
       (set_nfc_dict_context
          (set_dict_keys_current 0
             (set_dict_keys_total (to_size_t (Z.of_nat (length ks)))
                (set_dict (Some (system_dict_handle ks)) (nfc_dict_context app))))
          app)).

(** The sample application in the user phase (the scene was entered),
    the same with a card detected, and in the system phase (the user
    pass reported success). *)
Definition sample_user_app : NfcApp := outcome_app (run [StepEnter] sample_app).
Definition sample_system_app : NfcApp :=
  outcome_app (run [StepEnter; poller_success; scene_complete] sample_app).
Definition sample_user_dict : KeysDict :=
  {| dict_path := NFC_APP_MF_CLASSIC_DICT_USER_PATH; dict_keys := [K1; K2; K3];
     dict_cursor := 0%nat; total_keys := 3 |}.

(** ** Dictionary calls in a trace *)




(** The poller delivers the events [evs], one after the other. *)
Definition deliver (evs : list MfClassicPollerEvent) : M unit :=
  run (map StepPoller evs).


(** ** One pass over a dictionary *)

(** The poller events that neither rewind the dictionary nor end the
    session. *)
Definition pass_event (e : MfClassicPollerEvent) : bool :=
  match e with
  | MfClassicPollerEventTypeNextSector _
  | MfClassicPollerEventTypeKeyAttackStop
  | MfClassicPollerEventTypeSuccess => false
  | _ => true
  end.

Definition is_request_key (e : MfClassicPollerEvent) : bool :=
  match e with
  | MfClassicPollerEventTypeRequestKey _ => true
  | _ => false
  end.

(** The number of [RequestKey] events among [evs]. *)
Definition requests (evs : list MfClassicPollerEvent) : nat :=
  length (filter is_request_key evs).

(** [n] keys were requested since the dictionary at [p], with the keys
    [ks], was rewound. *)
Definition pulled (p : DictPath) (ks : list MfClassicKey) (n : nat) (app : NfcApp) : Prop :=
  exists d,
    dict (nfc_dict_context app) = Some d /\
    dict_path d = p /\
    dict_keys d = ks /\
    dict_cursor d = Nat.min n (length ks) /\
    dict_keys_current (nfc_dict_context app) = Z.of_nat (Nat.min n (length ks)).

(** ** Invariant of the runs *)

(** Every dictionary file holds a number of keys that [size_t] can
    express. *)
Definition file_fits (f : option (list MfClassicKey)) : Prop :=
  match f with
  | Some ks => Z.of_nat (length ks) <= SIZE_MAX
  | None => True
  end.

Definition storage_fits (st : Storage) : Prop :=
  file_fits (user_dict_file st) /\ file_fits (user_nested_file st) /\
  file_fits (system_dict_file st) /\ file_fits (system_nested_file st).

(** The counters of the context agree with the open dictionary:
    [dict_keys_current] is its cursor and [dict_keys_total] the number
    of its keys; with no dictionary open both are 0. *)
Definition cursor_agrees (c : NfcMfClassicDictAttackContext) : Prop :=
  match dict c with
  | Some d =>
      dict_keys_current c = Z.of_nat (dict_cursor d) /\
      dict_keys_total c = Z.of_nat (length (dict_keys d)) /\
      (dict_cursor d <= length (dict_keys d))%nat /\
      Z.of_nat (length (dict_keys d)) <= SIZE_MAX
  | None => dict_keys_current c = 0 /\ dict_keys_total c = 0
  end.

Definition consistent (app : NfcApp) : Prop :=
  storage_fits (storage app) /\ cursor_agrees (nfc_dict_context app).

(** ** Steps that set [dict_keys_current] to 0 *)

Inductive Reset : Type :=
| Rewinds   (* the dictionary is rewound or freshly opened *)
| Releases  (* the dictionary is released *)
| Keeps.

(** How the code treats the counter on a step: [NextSector],
    [KeyAttackStop] and the entries of a phase ([on_enter], and
    [DictAttackComplete] or [Skip] when they move on to the system
    dictionary) rewind; [on_exit] releases. *)
Definition reset_of (s : Step) (app : NfcApp) : Reset :=
  match s with
  | StepEnter => Rewinds
  | StepPoller (MfClassicPollerEventTypeNextSector _) => Rewinds
  | StepPoller MfClassicPollerEventTypeKeyAttackStop => Rewinds
  | StepScene (SceneManagerEventTypeCustom NfcCustomEventDictAttackComplete) =>
      match scene_state app with
      | DictAttackStateUserDictInProgress => Rewinds
      | DictAttackStateSystemDictInProgress => Keeps
      end
  | StepScene (SceneManagerEventTypeCustom NfcCustomEventDictAttackSkip) =>
      match scene_state app with
      | DictAttackStateUserDictInProgress =>
          if is_card_present (nfc_dict_context app) then Rewinds else Keeps
      | DictAttackStateSystemDictInProgress => Keeps
      end
  | StepExit => Releases
  | _ => Keeps
  end.

(** [c] puts a dictionary cursor at the start. *)
Definition rewinds_dict (c : Call) : bool :=
  match c with
  | call_keys_dict_rewind _ => true
  | call_keys_dict_alloc _ _ => true
  | _ => false
  end.

(** ** Phases, dictionaries and the view *)

(** The steps the scene takes between its entry and its exit: events of
    the poller and of the scene manager, and progress of the poller. *)
Definition event_step (s : Step) : bool :=
  match s with
  | StepEnter | StepExit => false
  | _ => true
  end.

(** The scene events on which the code moves on from the user to the
    system dictionary. *)
Definition escalates (s : Step) (app : NfcApp) : bool :=
  match s, scene_state app with
  | StepScene (SceneManagerEventTypeCustom NfcCustomEventDictAttackComplete),
    DictAttackStateUserDictInProgress => true
  | StepScene (SceneManagerEventTypeCustom NfcCustomEventDictAttackSkip),
    DictAttackStateUserDictInProgress => is_card_present (nfc_dict_context app)
  | _, _ => false
  end.

(** The dictionary and the header text of a phase. *)
Definition phase_path (s : DictAttackState) : DictPath :=
  match s with
  | DictAttackStateUserDictInProgress => NFC_APP_MF_CLASSIC_DICT_USER_PATH
  | DictAttackStateSystemDictInProgress => NFC_APP_MF_CLASSIC_DICT_SYSTEM_PATH
  end.

Definition phase_header (s : DictAttackState) : string :=
  match s with
  | DictAttackStateUserDictInProgress => "MF Classic User Dictionary"
  | DictAttackStateSystemDictInProgress => "MF Classic System Dictionary"
  end.

(** The dictionary that is open belongs to the phase and holds the keys
    of its file; outside the scene nothing is open and the phase is the
    user phase. *)
Definition dict_of_phase (app : NfcApp) : Prop :=
  match dict (nfc_dict_context app) with
  | Some d =>
      dict_path d = phase_path (scene_state app) /\
      storage_file (storage app) (dict_path d) = Some (dict_keys d)
  | None => scene_state app = DictAttackStateUserDictInProgress
  end.

(** The header texts and the totals a trace sends to the view. *)
Definition headers_sent (tr : list Call) : list string :=
  flat_map (fun c => match c with
                     | call_dict_attack (dict_attack_set_header text) => [text]
                     | _ => []
                     end) tr.

Definition totals_sent (tr : list Call) : list Z :=
  flat_map (fun c => match c with
                     | call_dict_attack (dict_attack_set_total_dict_keys n) => [n]
                     | _ => []
                     end) tr.

(** The calls on the view in a trace. *)
Definition view_calls (tr : list Call) : list DictAttackCall :=
  flat_map (fun c => match c with call_dict_attack v => [v] | _ => [] end) tr.

(** The custom events a trace posts. *)
Definition events_posted (tr : list Call) : list NfcCustomEvent :=
  flat_map (fun c => match c with
                     | call_view_dispatcher_send_custom_event e => [e]
                     | _ => []
                     end) tr.

(** ** Resources held by the scene *)

Inductive PollerState : Type :=
| PollerNone
| PollerAllocated
| PollerRunning
| PollerStopped.

(** What the scene holds: the state of its poller and whether a
    dictionary is open. *)
Record Resources : Type := {
  res_poller : PollerState;
  res_dict_open : bool
}.

Definition released : Resources := {| res_poller := PollerNone; res_dict_open := false |}.
Definition attacking : Resources := {| res_poller := PollerRunning; res_dict_open := true |}.

Definition poller_running (r : Resources) : bool :=
  match res_poller r with PollerRunning => true | _ => false end.

(** The effect of one call on the resources; [None] when the call breaks
    the discipline: a poller is allocated, started, stopped and freed in
    this order; a dictionary is opened only when none is open, read or
    rewound only while open, and released only while open and with no
    poller running; the working copies are staged only with no
    dictionary open and no poller running. *)
Definition track (r : Resources) (c : Call) : option Resources :=
  match c with
  | call_nfc_poller_alloc =>
      match res_poller r with
      | PollerNone => Some {| res_poller := PollerAllocated; res_dict_open := res_dict_open r |}
      | _ => None
      end
  | call_nfc_poller_start =>
      match res_poller r with
      | PollerAllocated => Some {| res_poller := PollerRunning; res_dict_open := res_dict_open r |}
      | _ => None
      end
  | call_nfc_poller_stop =>
      match res_poller r with
      | PollerRunning => Some {| res_poller := PollerStopped; res_dict_open := res_dict_open r |}
      | _ => None
      end
  | call_nfc_poller_free =>
      match res_poller r with
      | PollerStopped => Some {| res_poller := PollerNone; res_dict_open := res_dict_open r |}
      | _ => None
      end
  | call_keys_dict_alloc _ _ =>
      if res_dict_open r then None
      else Some {| res_poller := res_poller r; res_dict_open := true |}
  | call_keys_dict_free _ =>
      if res_dict_open r && negb (poller_running r)
      then Some {| res_poller := res_poller r; res_dict_open := false |}
      else None
  | call_keys_dict_rewind _
  | call_keys_dict_get_next_key _ =>
      if res_dict_open r then Some r else None
  | call_storage_common_remove _
  | call_storage_common_copy _ _ =>
      if res_dict_open r || poller_running r then None else Some r
  | _ => Some r
  end.

Fixpoint track_all (r : Resources) (tr : list Call) : option Resources :=
  match tr with
  | [] => Some r
  | c :: rest =>
      match track r c with
      | Some r' => track_all r' rest
      | None => None
      end
  end.

(** ** Progress notifications and rewinding events *)

(** The number of data updates a trace posts to the scene. *)
Definition progress_posts (tr : list Call) : nat :=
  length (filter (fun c => match c with
                           | call_view_dispatcher_send_custom_event
                               NfcCustomEventDictAttackDataUpdate => true
                           | _ => false
                           end) tr).

(** The poller events on which the callback rewinds the dictionary. *)
Definition rewind_event (e : MfClassicPollerEvent) : bool :=
  match e with
  | MfClassicPollerEventTypeNextSector _
  | MfClassicPollerEventTypeKeyAttackStop => true
  | _ => false
  end.

Definition is_success (e : MfClassicPollerEvent) : bool :=
  match e with
  | MfClassicPollerEventTypeSuccess => true
  | _ => false
  end.

(** The handle a successful open of the user dictionary returns. *)
Definition user_dict_handle (ks : list MfClassicKey) : KeysDict :=
  {| dict_path := NFC_APP_MF_CLASSIC_DICT_USER_PATH; dict_keys := ks;
     dict_cursor := 0%nat; total_keys := to_size_t (Z.of_nat (length ks)) |}.



(** The requests a trace makes to the storage. *)
Definition storage_calls (tr : list Call) : list Call :=
  filter (fun c => match c with
                   | call_storage_common_remove _
                   | call_storage_common_copy _ _ => true
                   | _ => false
                   end) tr.

(** The two requests that stage the working copy [dst] of [src]. *)
Definition staging (src dst : DictPath) : list Call :=
  [call_storage_common_remove dst; call_storage_common_copy src dst].

(** A user dictionary of twelve keys, and the scene entered on it. *)
Definition twelve_keys_storage : Storage :=
  {| user_dict_file := Some (repeat K1 12); user_nested_file := None;
     system_dict_file := Some [K4]; system_nested_file := None |}.

Definition twelve_keys_app : NfcApp :=
  outcome_app (run [StepEnter] (nfc_app_alloc twelve_keys_storage card_blank card_blank)).

(** * Walkie-talkie application

    [applications/external/walki_talki/walki_talki.c]: the input
    callback and the table look-up of the draw callback. *)

Module WalkieTalkie.

Definition NUM_CHANNELS : Z := 22.

Definition to_uint8 (x : Z) : Z := x mod 256.

(** The input service's event types and keys. *)
Inductive InputType : Type :=
| InputTypePress
| InputTypeRelease
| InputTypeShort
| InputTypeLong
| InputTypeRepeat.

Inductive InputKey : Type :=
| InputKeyUp
| InputKeyDown
| InputKeyRight
| InputKeyLeft
| InputKeyOk
| InputKeyBack.

Record InputEvent : Type := {
  type : InputType;
  key : InputKey
}.

Inductive MyEventType : Type :=
| MyEventTypeKey
| MyEventTypeDone.

(** [WalkieTalkieApp]: [uint8_t current_channel], [bool mute_status]
    (the notification handle plays no part in the callbacks). *)
Record WalkieTalkieApp : Type := {
  current_channel : Z;
  mute_status : bool
}.

(** FRS channel frequencies in Hz. *)
Definition frs_frequencies : list Z :=
  [462562500; 462587500; 462612500; 462637500; 462662500;
   462687500; 462712500; 467562500; 467587500; 467612500;
   467637500; 467662500; 467687500; 467712500; 462550000;
   462575000; 462600000; 462625000; 462650000; 462675000;
   462700000; 462725000].

(** The message queue [walkie_talkie_main] allocates has room for 8
    events ([furi_message_queue_alloc(8, sizeof(MyEvent))]). *)
Definition QUEUE_SIZE : nat := 8.

(** [furi_message_queue_put(queue, &event, FuriWaitForever)], seen from
    the caller while nothing is taken from the queue: with room left
    the event is appended and the call returns ([Some]); on a full
    queue the call waits for room and does not return ([None]). *)
Definition furi_message_queue_put (queue : list MyEventType) (e : MyEventType)
    : option (list MyEventType) :=
  if (length queue <? QUEUE_SIZE)%nat then Some (queue ++ [e]) else None.

(** What a call of the input callback comes to: it returns, or it is
    left waiting on the queue; either way with the application object
    and the queue (the types of the events on it, oldest first) as they
    are then. *)
Inductive Result : Type :=
| Returned (st : WalkieTalkieApp * list MyEventType)
| Waiting (st : WalkieTalkieApp * list MyEventType).

Definition state_of (r : Result) : WalkieTalkieApp * list MyEventType :=
  match r with
  | Returned st | Waiting st => st
  end.

(** [my_input_callback] on one input event. *)
Definition my_input_callback (input_event : InputEvent)
    (st : WalkieTalkieApp * list MyEventType) : Result :=
  let (app, queue) := st in
  match type input_event with
  | InputTypeShort =>
      match key input_event with
      | InputKeyUp =>
          Returned
            ({| current_channel :=
                  to_uint8 (if current_channel app =? 0
                            then NUM_CHANNELS - 1
                            else current_channel app - 1);
                mute_status := mute_status app |}, queue)
      | InputKeyDown =>
          Returned
            ({| current_channel := to_uint8 ((current_channel app + 1) mod NUM_CHANNELS);
                mute_status := mute_status app |}, queue)
      | InputKeyOk =>
          Returned
            ({| current_channel := current_channel app;
                mute_status := negb (mute_status app) |}, queue)
      | InputKeyBack =>
          match furi_message_queue_put queue MyEventTypeDone with
          | Some queue' => Returned (app, queue')
          | None => Waiting (app, queue)
          end
      | _ => Returned (app, queue)
      end
  | _ => Returned (app, queue)
  end.

(** The application object [walkie_talkie_main] starts with. *)
Definition app_alloc : WalkieTalkieApp :=
  {| current_channel := 0; mute_status := false |}.

(** The input events [evs] arrive one after the other, each handled
    once the call for the one before has returned; a call that is left
    waiting keeps the later events from being handled. *)
Fixpoint inputs (evs : list InputEvent)
    (st : WalkieTalkieApp * list MyEventType) : Result :=
  match evs with
  | [] => Returned st
  | e :: evs' =>
      match my_input_callback e st with
      | Returned st' => inputs evs' st'
      | Waiting st' => Waiting st'
      end
  end.

(** [my_draw_callback]: the channel number it prints
    ([current_channel + 1]) and the entry of [frs_frequencies] it reads;
    [None] when [current_channel] is no index of the table. *)
Definition drawn_channel (app : WalkieTalkieApp) : Z := current_channel app + 1.

Definition drawn_frequency (app : WalkieTalkieApp) : option Z :=
  if current_channel app <? 0 then None
  else nth_error frs_frequencies (Z.to_nat (current_channel app)).

(** Short presses. *)
Definition short (k : InputKey) : InputEvent := {| type := InputTypeShort; key := k |}.

Definition is_short (k : InputKey) (e : InputEvent) : bool :=
  match type e, key e, k with
  | InputTypeShort, InputKeyUp, InputKeyUp
  | InputTypeShort, InputKeyDown, InputKeyDown
  | InputTypeShort, InputKeyOk, InputKeyOk
  | InputTypeShort, InputKeyBack, InputKeyBack => true
  | _, _, _ => false
  end.

(** How many of [evs] are short presses of [k]. *)
Definition presses (k : InputKey) (evs : list InputEvent) : nat :=
  length (filter (is_short k) evs).

End WalkieTalkie.

(** * TPMS generic block

    [applications/external/tpms/protocols/tpms_generic.c]: the preset
    name, and the serialization of a block to and from a FlipperFormat
    file. *)

Module Tpms.

Definition to_uint8 (x : Z) : Z := x mod 2 ^ 8.
Definition to_uint16 (x : Z) : Z := x mod 2 ^ 16.
Definition to_uint32 (x : Z) : Z := x mod 2 ^ 32.
Definition to_uint64 (x : Z) : Z := x mod 2 ^ 64.

Inductive SubGhzProtocolStatus : Type :=
| SubGhzProtocolStatusOk
| SubGhzProtocolStatusError
| SubGhzProtocolStatusErrorParserHeader
| SubGhzProtocolStatusErrorParserFrequency
| SubGhzProtocolStatusErrorParserPreset
| SubGhzProtocolStatusErrorParserCustomPreset
| SubGhzProtocolStatusErrorParserProtocolName
| SubGhzProtocolStatusErrorParserOthers
| SubGhzProtocolStatusErrorParserBitCount
| SubGhzProtocolStatusErrorValueBitCount.

Definition tpms_block_generic_get_preset_name (preset_name : string) : string :=
  if String.eqb preset_name "AM270" then "FuriHalSubGhzPresetOok270Async"
  else if String.eqb preset_name "AM650" then "FuriHalSubGhzPresetOok650Async"
  else if String.eqb preset_name "FM238" then "FuriHalSubGhzPreset2FSKDev238Async"
  else if String.eqb preset_name "FM476" then "FuriHalSubGhzPreset2FSKDev476Async"
  else "FuriHalSubGhzPresetCustom".

(** [TPMSBlockGeneric], with the widths the code casts to: [id] and
    [timestamp] 32 bits, [data] 64 bits, [data_count_bit] and
    [battery_low] 8 bits.  The two [float]s are only copied; they are
    kept as their bit patterns. *)
Record TPMSBlockGeneric : Type := {
  protocol_name : string;
  id : Z;
  data_count_bit : Z;
  data : Z;
  battery_low : Z;
  pressure : Z;
  timestamp : Z;
  temperature : Z
}.

(** [SubGhzRadioPreset] *)
Record SubGhzRadioPreset : Type := {
  name : string;
  frequency : Z;
  preset_data : list Z
}.

(** One field of a FlipperFormat file. *)
Inductive FFValue : Type :=
| FFHeader (file_type : string) (version : Z)
| FFUint32 (v : Z)
| FFString (s : string)
| FFHex (bytes : list Z)
| FFFloat (bits : Z).

Definition Stream : Type := list (string * FFValue).

(** What the code takes from outside when it serializes: the two
    constants of the file header (macros of tpms_types.h), the time the
    clock shows, and which keys the FlipperFormat writer accepts (a
    write returns [false] on a key it does not accept and then adds
    nothing). *)
Record WriteEnv : Type := {
  TPMS_KEY_FILE_TYPE : string;
  TPMS_KEY_FILE_VERSION : Z;
  curr_ts : Z;
  accepts : string -> bool
}.

Definition flipper_format_write (env : WriteEnv) (k : string) (v : FFValue)
    (s : Stream) : bool * Stream :=
  if accepts env k then (true, s ++ [(k, v)]) else (false, s).

(** Array store [a[n] = x]. *)
Fixpoint array_set (a : list Z) (n : nat) (x : Z) : list Z :=
  match a, n with
  | [], _ => []
  | _ :: rest, O => x :: rest
  | y :: rest, S m => y :: array_set rest m x
  end.

(** The loop that fills [key_data] from [instance->data]:
    [key_data[sizeof(uint64_t) - i - 1] = (data >> (i * 8)) & 0xFF]. *)
Definition data_to_key_data (d : Z) : list Z :=
  fold_left
    (fun key_data i =>
       array_set key_data (8 - i - 1)
         (to_uint8 (Z.land (Z.shiftr d (Z.of_nat i * 8)) 255)))
    (seq 0 8) (repeat 0 8).

(** The loop that reads [instance->data] back:
    [data = data << 8 | key_data[i]], in 64 bits. *)
Definition key_data_to_data (key_data : list Z) (d : Z) : Z :=
  fold_left
    (fun acc i => to_uint64 (Z.lor (Z.shiftl acc 8) (nth i key_data 0)))
    (seq 0 8) d.

(** [tpms_block_generic_serialize]: the status and the stream it
    leaves; [flipper_format] is the stream as it is found. *)
Definition tpms_block_generic_serialize (env : WriteEnv) (instance : TPMSBlockGeneric)
    (flipper_format : Stream) (preset : SubGhzRadioPreset)
    : SubGhzProtocolStatus * Stream :=
  let s := @nil (string * FFValue) in
  let (ok, s) := flipper_format_write env "Filetype"
                   (FFHeader (TPMS_KEY_FILE_TYPE env) (TPMS_KEY_FILE_VERSION env)) s in
  if negb ok then (SubGhzProtocolStatusErrorParserHeader, s) else
  let (ok, s) := flipper_format_write env "Frequency" (FFUint32 (frequency preset)) s in
  if negb ok then (SubGhzProtocolStatusErrorParserFrequency, s) else
  let temp_str := tpms_block_generic_get_preset_name (name preset) in
  let (ok, s) := flipper_format_write env "Preset" (FFString temp_str) s in
  if negb ok then (SubGhzProtocolStatusErrorParserPreset, s) else
  let custom :=
    if String.eqb temp_str "FuriHalSubGhzPresetCustom" then
      let (ok, s) := flipper_format_write env "Custom_preset_module" (FFString "CC1101") s in
      if negb ok then (false, s) else
      let (ok, s) := flipper_format_write env "Custom_preset_data"
                       (FFHex (preset_data preset)) s in
      if negb ok then (false, s) else (true, s)
    else (true, s) in
  let (ok, s) := custom in
  if negb ok then (SubGhzProtocolStatusErrorParserCustomPreset, s) else
  let (ok, s) := flipper_format_write env "Protocol" (FFString (protocol_name instance)) s in
  if negb ok then (SubGhzProtocolStatusErrorParserProtocolName, s) else
  let (ok, s) := flipper_format_write env "Id" (FFUint32 (to_uint32 (id instance))) s in
  if negb ok then (SubGhzProtocolStatusErrorParserOthers, s) else
  let (ok, s) := flipper_format_write env "Bit"
                   (FFUint32 (to_uint32 (data_count_bit instance))) s in
  if negb ok then (SubGhzProtocolStatusErrorParserBitCount, s) else
  let key_data := data_to_key_data (data instance) in
  let (ok, s) := flipper_format_write env "Data" (FFHex key_data) s in
  if negb ok then (SubGhzProtocolStatusErrorParserOthers, s) else
  let (ok, s) := flipper_format_write env "Batt"
                   (FFUint32 (to_uint32 (battery_low instance))) s in
  if negb ok then (SubGhzProtocolStatusErrorParserOthers, s) else
  let (ok, s) := flipper_format_write env "Pressure" (FFFloat (pressure instance)) s in
  if negb ok then (SubGhzProtocolStatusErrorParserOthers, s) else
  let (ok, s) := flipper_format_write env "Ts" (FFUint32 (to_uint32 (curr_ts env))) s in
  if negb ok then (SubGhzProtocolStatusErrorParserOthers, s) else
  let (ok, s) := flipper_format_write env "Temp" (FFFloat (temperature instance)) s in
  if negb ok then (SubGhzProtocolStatusErrorParserOthers, s) else
  (SubGhzProtocolStatusOk, s).

(** What the code takes from outside when it deserializes: whether the
    file can be rewound and what the FlipperFormat reader finds under a
    key ([None] when the read fails). *)
Record ReadEnv : Type := {
  rewind_ok : bool;
  read_uint32 : string -> option Z;
  read_hex : string -> option (list Z);
  read_float : string -> option Z
}.

Definition set_id (v : Z) (i : TPMSBlockGeneric) : TPMSBlockGeneric :=
  {| protocol_name := protocol_name i; id := v; data_count_bit := data_count_bit i;
     data := data i; battery_low := battery_low i; pressure := pressure i;
     timestamp := timestamp i; temperature := temperature i |}.
Definition set_data_count_bit (v : Z) (i : TPMSBlockGeneric) : TPMSBlockGeneric :=
  {| protocol_name := protocol_name i; id := id i; data_count_bit := v;
     data := data i; battery_low := battery_low i; pressure := pressure i;
     timestamp := timestamp i; temperature := temperature i |}.
Definition set_data (v : Z) (i : TPMSBlockGeneric) : TPMSBlockGeneric :=
  {| protocol_name := protocol_name i; id := id i; data_count_bit := data_count_bit i;
     data := v; battery_low := battery_low i; pressure := pressure i;
     timestamp := timestamp i; temperature := temperature i |}.
Definition set_battery_low (v : Z) (i : TPMSBlockGeneric) : TPMSBlockGeneric :=
  {| protocol_name := protocol_name i; id := id i; data_count_bit := data_count_bit i;
     data := data i; battery_low := v; pressure := pressure i;
     timestamp := timestamp i; temperature := temperature i |}.
Definition set_pressure (v : Z) (i : TPMSBlockGeneric) : TPMSBlockGeneric :=
  {| protocol_name := protocol_name i; id := id i; data_count_bit := data_count_bit i;
     data := data i; battery_low := battery_low i; pressure := v;
     timestamp := timestamp i; temperature := temperature i |}.
Definition set_timestamp (v : Z) (i : TPMSBlockGeneric) : TPMSBlockGeneric :=
  {| protocol_name := protocol_name i; id := id i; data_count_bit := data_count_bit i;
     data := data i; battery_low := battery_low i; pressure := pressure i;
     timestamp := v; temperature := temperature i |}.
Definition set_temperature (v : Z) (i : TPMSBlockGeneric) : TPMSBlockGeneric :=
  {| protocol_name := protocol_name i; id := id i; data_count_bit := data_count_bit i;
     data := data i; battery_low := battery_low i; pressure := pressure i;
     timestamp := timestamp i; temperature := v |}.

(** [tpms_block_generic_deserialize]: the status and the block it
    leaves. *)
Definition tpms_block_generic_deserialize (env : ReadEnv) (instance : TPMSBlockGeneric)
    : SubGhzProtocolStatus * TPMSBlockGeneric :=
  if negb (rewind_ok env) then (SubGhzProtocolStatusErrorParserOthers, instance) else
  match read_uint32 env "Id" with
  | None => (SubGhzProtocolStatusErrorParserOthers, instance)
  | Some temp_data =>
  let instance := set_id (to_uint32 temp_data) instance in
  match read_uint32 env "Bit" with
  | None => (SubGhzProtocolStatusErrorParserBitCount, instance)
  | Some temp_data =>
  let instance := set_data_count_bit (to_uint8 (to_uint32 temp_data)) instance in
  match read_hex env "Data" with
  | None => (SubGhzProtocolStatusErrorParserOthers, instance)
  | Some bytes =>
  let key_data := map to_uint8 bytes in
  let instance := set_data (key_data_to_data key_data (data instance)) instance in
  match read_uint32 env "Batt" with
  | None => (SubGhzProtocolStatusErrorParserOthers, instance)
  | Some temp_data =>
  let instance := set_battery_low (to_uint8 (to_uint32 temp_data)) instance in
  match read_float env "Pressure" with
  | None => (SubGhzProtocolStatusErrorParserOthers, instance)
  | Some temp =>
  let instance := set_pressure temp instance in
  match read_uint32 env "Ts" with
  | None => (SubGhzProtocolStatusErrorParserOthers, instance)
  | Some temp_data =>
  let instance := set_timestamp (to_uint32 temp_data) instance in
  match read_float env "Temp" with
  | None => (SubGhzProtocolStatusErrorParserOthers, instance)
  | Some temp =>
  let instance := set_temperature temp instance in
  (SubGhzProtocolStatusOk, instance)
  end end end end end end end.

Definition status_eqb (a b : SubGhzProtocolStatus) : bool :=
  match a, b with
  | SubGhzProtocolStatusOk, SubGhzProtocolStatusOk
  | SubGhzProtocolStatusError, SubGhzProtocolStatusError
  | SubGhzProtocolStatusErrorParserHeader, SubGhzProtocolStatusErrorParserHeader
  | SubGhzProtocolStatusErrorParserFrequency, SubGhzProtocolStatusErrorParserFrequency
  | SubGhzProtocolStatusErrorParserPreset, SubGhzProtocolStatusErrorParserPreset
  | SubGhzProtocolStatusErrorParserCustomPreset, SubGhzProtocolStatusErrorParserCustomPreset
  | SubGhzProtocolStatusErrorParserProtocolName, SubGhzProtocolStatusErrorParserProtocolName
  | SubGhzProtocolStatusErrorParserOthers, SubGhzProtocolStatusErrorParserOthers
  | SubGhzProtocolStatusErrorParserBitCount, SubGhzProtocolStatusErrorParserBitCount
  | SubGhzProtocolStatusErrorValueBitCount, SubGhzProtocolStatusErrorValueBitCount => true
  | _, _ => false
  end.

(** [tpms_block_generic_deserialize_check_count_bit]; the parameter
    [count_bit] is a [uint16_t], so the value the caller passes arrives
    converted to 16 bits. *)
Definition tpms_block_generic_deserialize_check_count_bit (env : ReadEnv)
    (instance : TPMSBlockGeneric) (count_bit : Z)
    : SubGhzProtocolStatus * TPMSBlockGeneric :=
  let count_bit := to_uint16 count_bit in
  let (ret, instance) := tpms_block_generic_deserialize env instance in
  if negb (status_eqb ret SubGhzProtocolStatusOk) then (ret, instance)
  else if negb (data_count_bit instance =? count_bit)
       then (SubGhzProtocolStatusErrorValueBitCount, instance)
       else (ret, instance).


(** ** Vocabulary of the properties *)

(** The preset name the code treats as a custom preset. *)
Definition custom_preset (preset : SubGhzRadioPreset) : bool :=
  String.eqb (tpms_block_generic_get_preset_name (name preset)) "FuriHalSubGhzPresetCustom".

(** The fields of a complete file, in the order the code writes them. *)
Definition fields (env : WriteEnv) (instance : TPMSBlockGeneric)
    (preset : SubGhzRadioPreset) : Stream :=
  [("Filetype"%string, FFHeader (TPMS_KEY_FILE_TYPE env) (TPMS_KEY_FILE_VERSION env));
   ("Frequency"%string, FFUint32 (frequency preset));
   ("Preset"%string, FFString (tpms_block_generic_get_preset_name (name preset)))]
  ++ (if custom_preset preset
      then [("Custom_preset_module"%string, FFString "CC1101");
            ("Custom_preset_data"%string, FFHex (preset_data preset))]
      else [])
  ++ [("Protocol"%string, FFString (protocol_name instance));
      ("Id"%string, FFUint32 (to_uint32 (id instance)));
      ("Bit"%string, FFUint32 (to_uint32 (data_count_bit instance)));
      ("Data"%string, FFHex (data_to_key_data (data instance)));
      ("Batt"%string, FFUint32 (to_uint32 (battery_low instance)));
      ("Pressure"%string, FFFloat (pressure instance));
      ("Ts"%string, FFUint32 (to_uint32 (curr_ts env)));
      ("Temp"%string, FFFloat (temperature instance))].

(** The fields written before the first key the writer does not accept,
    and that key. *)
Fixpoint written (accept : string -> bool) (fs : Stream) : Stream * option string :=
  match fs with
  | [] => ([], None)
  | (k, v) :: rest =>
      if accept k
      then let (w, r) := written accept rest in ((k, v) :: w, r)
      else ([], Some k)
  end.

(** The status the code returns when the write of a key fails. *)
Definition status_of_key (k : string) : SubGhzProtocolStatus :=
  if String.eqb k "Filetype" then SubGhzProtocolStatusErrorParserHeader
  else if String.eqb k "Frequency" then SubGhzProtocolStatusErrorParserFrequency
  else if String.eqb k "Preset" then SubGhzProtocolStatusErrorParserPreset
  else if String.eqb k "Custom_preset_module"
       then SubGhzProtocolStatusErrorParserCustomPreset
  else if String.eqb k "Custom_preset_data"
       then SubGhzProtocolStatusErrorParserCustomPreset
  else if String.eqb k "Protocol" then SubGhzProtocolStatusErrorParserProtocolName
  else if String.eqb k "Bit" then SubGhzProtocolStatusErrorParserBitCount
  else SubGhzProtocolStatusErrorParserOthers.

Definition is_some {A : Type} (o : option A) : bool :=
  match o with Some _ => true | None => false end.

(** The reader can rewind and finds all seven keys. *)
Definition complete (env : ReadEnv) : bool :=
  rewind_ok env && is_some (read_uint32 env "Id") && is_some (read_uint32 env "Bit")
  && is_some (read_hex env "Data") && is_some (read_uint32 env "Batt")
  && is_some (read_float env "Pressure") && is_some (read_uint32 env "Ts")
  && is_some (read_float env "Temp").

(** The fields of a block are within the widths of their C types. *)
Definition well_typed (i : TPMSBlockGeneric) : Prop :=
  0 <= id i < 2 ^ 32 /\ 0 <= data_count_bit i < 2 ^ 8 /\
  0 <= data i < 2 ^ 64 /\ 0 <= battery_low i < 2 ^ 8.

(** The reader finds under each key what the stream holds there. *)
Definition reads_back (rd : ReadEnv) (s : Stream) : Prop :=
  rewind_ok rd = true /\
  (forall k v, In (k, FFUint32 v) s -> read_uint32 rd k = Some v) /\
  (forall k v, In (k, FFHex v) s -> read_hex rd k = Some v) /\
  (forall k v, In (k, FFFloat v) s -> read_float rd k = Some v).

(** A reader over a stream: the first field under the key, when it has
    the type asked for. *)
Fixpoint lookup (k : string) (s : Stream) : option FFValue :=
  match s with
  | [] => None
  | (k', v) :: rest => if String.eqb k k' then Some v else lookup k rest
  end.

Definition reader_of (s : Stream) : ReadEnv :=
  {| rewind_ok := true;
     read_uint32 := fun k => match lookup k s with Some (FFUint32 v) => Some v | _ => None end;
     read_hex := fun k => match lookup k s with Some (FFHex v) => Some v | _ => None end;
     read_float := fun k => match lookup k s with Some (FFFloat v) => Some v | _ => None end |}.

(** Sample data: a block, a preset with a known name and one with
    another name, a writer that accepts every key and one that does
    not accept [Data]. *)
Definition sample_block : TPMSBlockGeneric :=
  {| protocol_name := "Schrader GG4"; id := 305419896; data_count_bit := 40;
     data := 1311768467463790320; battery_low := 1; pressure := 1075838976;
     timestamp := 0; temperature := 1103626240 |}.

Definition blank_block : TPMSBlockGeneric :=
  {| protocol_name := "Schrader GG4"; id := 0; data_count_bit := 0;
     data := 18446744073709551615; battery_low := 0; pressure := 0;
     timestamp := 7; temperature := 0 |}.

Definition sample_preset : SubGhzRadioPreset :=
  {| name := "AM650"; frequency := 433920000; preset_data := [] |}.

Definition other_preset : SubGhzRadioPreset :=
  {| name := "AM_Q"; frequency := 315000000; preset_data := [2; 13; 255] |}.

Definition sample_env : WriteEnv :=
  {| TPMS_KEY_FILE_TYPE := "Flipper TPMS Key File"; TPMS_KEY_FILE_VERSION := 1;
     curr_ts := 1726444800; accepts := fun _ => true |}.

Definition full_env : WriteEnv :=
  {| TPMS_KEY_FILE_TYPE := "Flipper TPMS Key File"; TPMS_KEY_FILE_VERSION := 1;
     curr_ts := 1726444800; accepts := fun k => negb (String.eqb k "Data") |}.


(** A reader over a complete file that says [Bit = 296]. *)
Definition bit_296_reader : ReadEnv :=
  {| rewind_ok := true;
     read_uint32 := fun k => if String.eqb k "Bit" then Some 296 else Some 1;
     read_hex := fun _ => Some [18; 52; 86; 120; 154; 188; 222; 240];
     read_float := fun _ => Some 0 |}.

(** The sample block serialized with the sample preset. *)
Definition sample_file : Stream :=
  snd (tpms_block_generic_serialize sample_env sample_block [] sample_preset).

End Tpms.
(** * Properties *)

Arguments to_size_t : simpl never.

Lemma to_size_t_small (x : Z) : 0 <= x <= SIZE_MAX -> to_size_t x = x.
Proof.
  unfold to_size_t, SIZE_MAX, SIZE_BITS. intros H.
  apply Z.mod_small. lia.
Qed.

(** ** Symbolic execution of the handlers *)

Ltac destruct_app app :=
  let c := fresh "ctx" in
  let st := fresh "st" in
  destruct app as [c ? ? ? st]; destruct c; destruct st.

Ltac handler_unfold :=
  unfold exec, nfc_scene_mf_classic_dict_attack_on_enter,
    nfc_scene_mf_classic_dict_attack_on_event,
    nfc_scene_mf_classic_dict_attack_on_exit,
    restart_with_system_dict, finish_read,
    nfc_scene_mf_classic_dict_attack_notify_read,
    nfc_scene_mf_classic_dict_attack_prepare_view,
    prepare_view_user_dict, prepare_view_system_dict,
    nfc_scene_mf_classic_dict_attack_update_view,
    nfc_dict_attack_worker_callback,
    keys_dict_free, keys_dict_rewind, keys_dict_get_next_key,
    keys_dict_get_total_keys, keys_dict_alloc, keys_dict_check_presence,
    storage_common_copy, storage_common_remove,
    scene_manager_next_scene, scene_manager_set_scene_state,
    scene_manager_get_scene_state, nfc_poller_free, nfc_poller_stop,
    nfc_poller_start, nfc_poller_alloc, nfc_poller_get_data,
    nfc_device_set_data, nfc_device_get_data,
    view_dispatcher_send_custom_event, dict_attack, the_dict, assign,
    storage_copy, storage_remove, storage_write, storage_file,
    keys_dict_open, keys_dict_next, keys_dict_rewound,
    crash, emit, modify, get, bind, ret.

Ltac handler_cbn := cbn -[Z.modulo Z.eqb Z.of_nat Z.add to_size_t SIZE_MAX].

(** Split on the innermost scrutinee the goal is stuck on. *)
Ltac split_scrutinee x :=
  lazymatch x with
  | context [match _ with _ => _ end] => fail
  | _ => first [is_var x; destruct x | destruct x eqn:?]
  end.

Ltac split_goal :=
  match goal with
  | |- context [match ?x with _ => _ end] => split_scrutinee x
  end.

Ltac handler_cases := handler_unfold; handler_cbn; repeat (split_goal; handler_cbn).

(** ** FoundKeyA / FoundKeyB *)

(** C7 (as the code has it): on [FoundKeyA] and on [FoundKeyB] the
    callback only posts [NfcCustomEventDictAttackDataUpdate] and lets
    the poller continue; the application object, and so
    [sectors_read] and [keys_found], is left exactly as it was: nothing
    is recomputed. *)
Theorem found_key_only_notifies (app : NfcApp) :
  nfc_dict_attack_worker_callback MfClassicPollerEventTypeFoundKeyA app =
    Done (NfcCommandContinue, MfClassicPollerEventTypeFoundKeyA) app
         [call_view_dispatcher_send_custom_event NfcCustomEventDictAttackDataUpdate]
  /\
  nfc_dict_attack_worker_callback MfClassicPollerEventTypeFoundKeyB app =
    Done (NfcCommandContinue, MfClassicPollerEventTypeFoundKeyB) app
         [call_view_dispatcher_send_custom_event NfcCustomEventDictAttackDataUpdate].
Proof. split; reflexivity. Qed.

(** ** Persisting the card data *)

(** C10: on every [Skip] scene event, whatever the phase and whether or
    not a card is present, the first thing the handler does is to
    persist the poller's current card data to the device record; the
    finalizing or the move to the system dictionary come after it, and
    the device record still holds that data when the handler is done. *)
Theorem skip_persists_card_data_first (app : NfcApp) :
  exists rest,
    outcome_trace
      (nfc_scene_mf_classic_dict_attack_on_event
         (SceneManagerEventTypeCustom NfcCustomEventDictAttackSkip) app)
    = call_nfc_device_set_data (poller app) :: rest /\
    set_data_calls rest = 0%nat /\
    nfc_device
      (outcome_app
         (nfc_scene_mf_classic_dict_attack_on_event
            (SceneManagerEventTypeCustom NfcCustomEventDictAttackSkip) app))
    = poller app.
Proof.
  destruct_app app. handler_cases.
  all: eexists; split; [reflexivity | split; reflexivity].
Qed.



(** C7, counterexample: the attack is entered, the poller asks for the
    mode (nothing known yet: both counters are 0), then finds key A of
    sector 0 and reports [FoundKeyA].  The card image now aggregates to
    one sector and one key; the counters of the context are still 0. *)
Lemma found_key_does_not_recompute :
  exists app tr,
    run [StepEnter; StepPoller request_mode; StepCardImage card_one_key;
         StepPoller MfClassicPollerEventTypeFoundKeyA] sample_app = Done tt app tr /\
    mf_classic_get_read_sectors_and_keys (poller app) = (1, 1) /\
    sectors_read (nfc_dict_context app) = 0 /\
    keys_found (nfc_dict_context app) = 0.
Proof.
  do 2 eexists. split; [vm_compute; reflexivity|].
  repeat split; reflexivity.
Qed.

(** ** Teardown *)

(** C4, at the failing input: after a [DataUpdate] that reports
    [nested_target_key = 5] and [msb_count = 7], leaving the scene
    resets the other fields of the context, the phase and
    [is_card_present], but both of these keep their values. *)
Theorem on_exit_keeps_nested_target_key_and_msb_count :
  exists app tr,
    run [StepEnter; StepPoller (MfClassicPollerEventTypeDataUpdate sample_update);
         StepExit] sample_app = Done tt app tr /\
    nested_target_key (nfc_dict_context app) = 5 /\
    msb_count (nfc_dict_context app) = 7 /\
    nfc_dict_context app =
      set_msb_count 7
        (set_nested_target_key 5
           (nfc_dict_context (nfc_app_alloc sample_storage card_blank card_blank))) /\
    scene_state app = DictAttackStateUserDictInProgress /\
    is_card_present (nfc_dict_context app) = false.
Proof.
  do 2 eexists. split; [vm_compute; reflexivity|].
  repeat split; reflexivity.
Qed.

(** What [on_exit] does to the context, in general: twelve fields are
    reset and the dictionary is released; [nested_target_key] and
    [msb_count] are not assigned. *)
Lemma on_exit_context (app app' : NfcApp) (tr : list Call) :
  nfc_scene_mf_classic_dict_attack_on_exit app = Done tt app' tr ->
  nfc_dict_context app' =
    set_msb_count (msb_count (nfc_dict_context app))
      (set_nested_target_key (nested_target_key (nfc_dict_context app))
         (nfc_dict_context (nfc_app_alloc (storage app) (nfc_device app) (poller app))))
  /\ scene_state app' = DictAttackStateUserDictInProgress.
Proof.
  destruct_app app. handler_cases; intros H; try discriminate H.
  injection H as <- <-. split; reflexivity.
Qed.

(** ** The end of a pass *)

Lemma update_view_calls_spec (app : NfcApp) :
  nfc_scene_mf_classic_dict_attack_update_view app =
    Done tt app (update_view_calls (nfc_dict_context app)).
Proof.
  unfold nfc_scene_mf_classic_dict_attack_update_view, update_view_calls.
  handler_unfold. handler_cbn. destruct (is_key_attack (nfc_dict_context app)); reflexivity.
Qed.



(** The move to the system dictionary, when a dictionary is open and the
    system dictionary exists. *)
Lemma restart_with_system_dict_done (app : NfcApp) (d : KeysDict) (ks : list MfClassicKey) :
  dict (nfc_dict_context app) = Some d ->
  system_dict_file (storage app) = Some ks ->
  restart_with_system_dict app =
    Done tt (in_system_phase ks app)
         (restart_calls (dict_path d) (nfc_dict_context (in_system_phase ks app))).
Proof.
  intros Hd Hs. destruct_app app. cbn in Hd, Hs. subst.
  unfold restart_calls, system_entry_calls, update_view_calls, system_dict_handle,
    in_system_phase, staged_system.
  handler_cases; reflexivity.
Qed.


Lemma on_event_complete_user (app : NfcApp) (d : KeysDict) (ks : list MfClassicKey) :
  scene_state app = DictAttackStateUserDictInProgress ->
  dict (nfc_dict_context app) = Some d ->
  system_dict_file (storage app) = Some ks ->
  nfc_scene_mf_classic_dict_attack_on_event
    (SceneManagerEventTypeCustom NfcCustomEventDictAttackComplete) app =
  Done true (in_system_phase ks app)
       (restart_calls (dict_path d) (nfc_dict_context (in_system_phase ks app))).
Proof.
  intros Hstate Hd Hs.
  unfold nfc_scene_mf_classic_dict_attack_on_event, scene_manager_get_scene_state.
  unfold bind at 1 2. unfold get, ret at 1. cbn beta iota. rewrite Hstate.
  unfold bind. rewrite (restart_with_system_dict_done app d ks Hd Hs).
  unfold ret. cbn [List.app]. rewrite app_nil_r. reflexivity.
Qed.






(** ** Skip *)






(** ** Phase entry with no usable user dictionary *)






(** ** Requesting keys *)

Lemma request_key_supplies (app : NfcApp) (d : KeysDict) (k : MfClassicKey)
    (kr : MfClassicPollerEventDataKeyRequest) :
  dict (nfc_dict_context app) = Some d ->
  nth_error (dict_keys d) (dict_cursor d) = Some k ->
  nfc_dict_attack_worker_callback (MfClassicPollerEventTypeRequestKey kr) app =
  Done (NfcCommandContinue,
        MfClassicPollerEventTypeRequestKey {| key := k; key_provided := true |})
       (set_nfc_dict_context
          (set_dict_keys_current
             (to_size_t (dict_keys_current (nfc_dict_context app) + 1))
             (set_dict (Some (snd (keys_dict_next d))) (nfc_dict_context app)))
          app)
       (call_keys_dict_get_next_key (dict_path d) ::
        if to_size_t (dict_keys_current (nfc_dict_context app) + 1) mod 10 =? 0
        then [call_view_dispatcher_send_custom_event NfcCustomEventDictAttackDataUpdate]
        else []).
Proof.
  intros Hd Hk.
  unfold nfc_dict_attack_worker_callback, keys_dict_get_next_key, the_dict, bind.
  rewrite Hd. unfold keys_dict_next. rewrite Hk. cbn.
  destruct (to_size_t (dict_keys_current (nfc_dict_context app) + 1) mod 10 =? 0);
    reflexivity.
Qed.

Lemma request_key_exhausted (app : NfcApp) (d : KeysDict)
    (kr : MfClassicPollerEventDataKeyRequest) :
  dict (nfc_dict_context app) = Some d ->
  nth_error (dict_keys d) (dict_cursor d) = None ->
  nfc_dict_attack_worker_callback (MfClassicPollerEventTypeRequestKey kr) app =
  Done (NfcCommandContinue,
        MfClassicPollerEventTypeRequestKey {| key := key kr; key_provided := false |})
       (set_nfc_dict_context (set_dict (Some d) (nfc_dict_context app)) app)
       [call_keys_dict_get_next_key (dict_path d)].
Proof.
  intros Hd Hk.
  unfold nfc_dict_attack_worker_callback, keys_dict_get_next_key, the_dict, bind.
  rewrite Hd. unfold keys_dict_next. rewrite Hk. reflexivity.
Qed.

(** One event of a pass: the cursor and the counter move together, by
    one on a [RequestKey] that finds a key and not at all otherwise. *)
Lemma pulled_step (p : DictPath) (ks : list MfClassicKey) (n : nat) (app : NfcApp)
    (e : MfClassicPollerEvent) :
  Z.of_nat (length ks) <= SIZE_MAX ->
  pass_event e = true ->
  pulled p ks n app ->
  exists r app' tr,
    nfc_dict_attack_worker_callback e app = Done r app' tr /\
    pulled p ks (if is_request_key e then S n else n) app'.
Proof.
  intros Hfit He (d & Hd & Hp & Hks & Hcur & Hcnt).
  destruct e; try discriminate He; cbn [is_request_key].
  all: try (do 3 eexists; split; [reflexivity|];
            exists d; cbn; repeat split; assumption).
  destruct (nth_error (dict_keys d) (dict_cursor d)) as [k|] eqn:Hk.
  - do 3 eexists. split; [apply (request_key_supplies _ d k); assumption|].
    assert (Hlt : (dict_cursor d < length (dict_keys d))%nat)
      by (apply nth_error_Some; congruence).
    rewrite Hks, Hcur in Hlt.
    unfold keys_dict_next. rewrite Hk.
    eexists. split; [reflexivity|]. cbn -[Nat.min to_size_t].
    rewrite Hcnt, Hks, Hcur. repeat split; try assumption; try lia.
    rewrite to_size_t_small; lia.
  - do 3 eexists. split; [apply (request_key_exhausted _ d); assumption|].
    apply nth_error_None in Hk. rewrite Hks, Hcur in Hk.
    exists d. cbn -[Nat.min]. rewrite Hcnt, Hks, Hcur.
    repeat split; try assumption; try lia.
Qed.

Lemma deliver_cons (e : MfClassicPollerEvent) (evs : list MfClassicPollerEvent)
    (app app1 : NfcApp) (r : NfcCommand * MfClassicPollerEvent) (tr1 : list Call) :
  nfc_dict_attack_worker_callback e app = Done r app1 tr1 ->
  deliver (e :: evs) app =
    match deliver evs app1 with
    | Done u app2 tr2 => Done u app2 (tr1 ++ tr2)
    | Crash app2 tr2 => Crash app2 (tr1 ++ tr2)
    end.
Proof.
  intros Hcb. unfold deliver. cbn [map run exec]. unfold bind at 1 2.
  rewrite Hcb. unfold ret at 1. cbn beta iota. rewrite app_nil_r. reflexivity.
Qed.

Lemma deliver_pulled (p : DictPath) (ks : list MfClassicKey)
    (evs : list MfClassicPollerEvent) :
  Z.of_nat (length ks) <= SIZE_MAX ->
  forallb pass_event evs = true ->
  forall (n : nat) (app : NfcApp),
    pulled p ks n app ->
    exists app' tr,
      deliver evs app = Done tt app' tr /\ pulled p ks (n + requests evs) app'.
Proof.
  intros Hfit. induction evs as [|e evs IH]; intros Hall n app Hp.
  - exists app, []. split; [reflexivity|].
    unfold requests. cbn [filter length]. rewrite Nat.add_0_r. exact Hp.
  - cbn [forallb] in Hall. apply andb_prop in Hall as [He Hall].
    destruct (pulled_step p ks n app e Hfit He Hp) as (r & app1 & tr1 & Hcb & Hp1).
    destruct (IH Hall _ _ Hp1) as (app2 & tr2 & Hrun & Hp2).
    exists app2, (tr1 ++ tr2). split.
    + rewrite (deliver_cons e evs app app1 r tr1 Hcb), Hrun. reflexivity.
    + unfold requests in *. cbn [filter].
      destruct (is_request_key e); cbn [length]; [|exact Hp2].
      rewrite Nat.add_succ_r. exact Hp2.
Qed.

(** C1: take a context whose dictionary [d] has just been rewound
    (cursor at the start, [dict_keys_current = 0]) and let the poller
    deliver any events [evs] that neither rewind nor end the session.
    They all run to their end, and the next [RequestKey], the one after
    [requests evs] earlier ones,
    - when a key is left at that position of the file, supplies that
      key with [key_provided] set, adds exactly 1 to
      [dict_keys_current], and posts a data update exactly when the new
      value is a multiple of 10;
    - when the [length (dict_keys d)] keys are used up, answers with
      [key_provided] cleared, posts nothing and leaves
      [dict_keys_current] as it is. *)
Theorem request_key_sequence (app : NfcApp) (d : KeysDict)
    (evs : list MfClassicPollerEvent) (kr : MfClassicPollerEventDataKeyRequest) :
  dict (nfc_dict_context app) = Some d ->
  dict_cursor d = 0%nat ->
  dict_keys_current (nfc_dict_context app) = 0 ->
  Z.of_nat (length (dict_keys d)) <= SIZE_MAX ->
  forallb pass_event evs = true ->
  exists app1 tr1 app2,
    deliver evs app = Done tt app1 tr1 /\
    match nth_error (dict_keys d) (requests evs) with
    | Some k =>
        nfc_dict_attack_worker_callback (MfClassicPollerEventTypeRequestKey kr) app1 =
          Done (NfcCommandContinue,
                MfClassicPollerEventTypeRequestKey {| key := k; key_provided := true |})
               app2
               (call_keys_dict_get_next_key (dict_path d) ::
                if dict_keys_current (nfc_dict_context app2) mod 10 =? 0
                then [call_view_dispatcher_send_custom_event
                        NfcCustomEventDictAttackDataUpdate]
                else []) /\
        dict_keys_current (nfc_dict_context app1) = Z.of_nat (requests evs) /\
        dict_keys_current (nfc_dict_context app2) =
          dict_keys_current (nfc_dict_context app1) + 1
    | None =>
        nfc_dict_attack_worker_callback (MfClassicPollerEventTypeRequestKey kr) app1 =
          Done (NfcCommandContinue,
                MfClassicPollerEventTypeRequestKey
                  {| key := key kr; key_provided := false |})
               app2
               [call_keys_dict_get_next_key (dict_path d)] /\
        dict_keys_current (nfc_dict_context app1) = Z.of_nat (length (dict_keys d)) /\
        dict_keys_current (nfc_dict_context app2) =
          dict_keys_current (nfc_dict_context app1)
    end.
Proof.
  intros Hd Hcur Hcnt Hfit Hall.
  assert (Hp : pulled (dict_path d) (dict_keys d) 0 app).
  { exists d. rewrite Nat.min_0_l. repeat split; assumption. }
  destruct (deliver_pulled _ _ evs Hfit Hall 0%nat app Hp)
    as (app1 & tr1 & Hrun & (d1 & Hd1 & Hp1 & Hks1 & Hcur1 & Hcnt1)).
  cbn [Nat.add] in Hcur1, Hcnt1.
  exists app1, tr1.
  destruct (nth_error (dict_keys d) (requests evs)) as [k|] eqn:Hk.
  - assert (Hlt : (requests evs < length (dict_keys d))%nat)
      by (apply nth_error_Some; congruence).
    rewrite Nat.min_l in Hcur1, Hcnt1 by lia.
    exists (set_nfc_dict_context
              (set_dict_keys_current
                 (to_size_t (dict_keys_current (nfc_dict_context app1) + 1))
                 (set_dict (Some (snd (keys_dict_next d1))) (nfc_dict_context app1)))
              app1).
    split; [exact Hrun|].
    rewrite (request_key_supplies app1 d1 k kr Hd1)
      by (rewrite Hks1, Hcur1; exact Hk).
    cbn [nfc_dict_context set_nfc_dict_context dict_keys_current set_dict_keys_current].
    rewrite Hp1, Hcnt1, to_size_t_small by lia.
    repeat split.
  - apply nth_error_None in Hk.
    rewrite Nat.min_r in Hcur1, Hcnt1 by lia.
    exists (set_nfc_dict_context (set_dict (Some d1) (nfc_dict_context app1)) app1).
    split; [exact Hrun|].
    rewrite (request_key_exhausted app1 d1 kr Hd1)
      by (rewrite Hks1, Hcur1; apply nth_error_None; lia).
    rewrite Hp1. split; [reflexivity|]. split; [exact Hcnt1 | reflexivity].
Qed.

Lemma request_key_sequence_witness :
  dict (nfc_dict_context sample_user_app) = Some sample_user_dict /\
  Z.of_nat (length (dict_keys sample_user_dict)) <= SIZE_MAX /\
  (exists app1 tr1 app2,
     deliver [request_key; MfClassicPollerEventTypeCardDetected; request_key]
       sample_user_app = Done tt app1 tr1 /\
     nfc_dict_attack_worker_callback request_key app1 =
       Done (NfcCommandContinue,
             MfClassicPollerEventTypeRequestKey {| key := K3; key_provided := true |})
            app2 [call_keys_dict_get_next_key NFC_APP_MF_CLASSIC_DICT_USER_PATH] /\
     dict_keys_current (nfc_dict_context app2) = 3) /\
  (exists app1 tr1 app2,
     deliver [request_key; request_key; request_key] sample_user_app = Done tt app1 tr1 /\
     nfc_dict_attack_worker_callback request_key app1 =
       Done (NfcCommandContinue,
             MfClassicPollerEventTypeRequestKey
               {| key := MfClassicKey_zero; key_provided := false |})
            app2 [call_keys_dict_get_next_key NFC_APP_MF_CLASSIC_DICT_USER_PATH] /\
     dict_keys_current (nfc_dict_context app2) = 3).
Proof.
  split; [reflexivity|]. split; [vm_compute; discriminate|]. split.
  - destruct (request_key_sequence sample_user_app sample_user_dict
                [request_key; MfClassicPollerEventTypeCardDetected; request_key]
                {| key := MfClassicKey_zero; key_provided := false |}
                eq_refl eq_refl eq_refl)
      as (app1 & tr1 & app2 & Hrun & Hnext).
    + vm_compute; discriminate.
    + reflexivity.
    + cbn in Hnext. destruct Hnext as (Hcb & H1 & H2).
      exists app1, tr1, app2. split; [exact Hrun|].
      rewrite H2, H1 in Hcb. split; [exact Hcb|]. rewrite H2, H1. reflexivity.
  - destruct (request_key_sequence sample_user_app sample_user_dict
                [request_key; request_key; request_key]
                {| key := MfClassicKey_zero; key_provided := false |}
                eq_refl eq_refl eq_refl)
      as (app1 & tr1 & app2 & Hrun & Hnext).
    + vm_compute; discriminate.
    + reflexivity.
    + cbn in Hnext. destruct Hnext as (Hcb & H1 & H2).
      exists app1, tr1, app2. split; [exact Hrun|].
      split; [exact Hcb|]. rewrite H2, H1. reflexivity.
Defined.

(** ** The counter and the cursor *)

Ltac cursor_bound :=
  match goal with
  | H : nth_error ?l ?n = Some _ |- _ =>
      assert (n < length l)%nat by (apply nth_error_Some; congruence)
  end.

(** Every step that runs to its end keeps the counters in agreement with
    the open dictionary. *)
Lemma exec_consistent (s : Step) (app app' : NfcApp) (tr : list Call) :
  consistent app -> exec s app = Done tt app' tr -> consistent app'.
Proof.
  intros [Hst Hc]. destruct_app app.
  unfold storage_fits, cursor_agrees, file_fits in Hst, Hc. cbn in Hst, Hc.
  destruct s as [|e|e| |c]; [ | destruct e | destruct e as [e| |]; [destruct e| |] | | ].
  all: handler_cases; intros H; try discriminate H; injection H as <- <-.
  all: unfold consistent, storage_fits, cursor_agrees, file_fits; handler_cbn.
  all: try cursor_bound.
  all: repeat split; try tauto; try lia.
  all: rewrite to_size_t_small; unfold SIZE_MAX, SIZE_BITS; lia.
Qed.

Lemma run_cons (s : Step) (rest : list Step) (app : NfcApp) :
  run (s :: rest) app =
    match exec s app with
    | Done _ app1 tr1 =>
        match run rest app1 with
        | Done u app2 tr2 => Done u app2 (tr1 ++ tr2)
        | Crash app2 tr2 => Crash app2 (tr1 ++ tr2)
        end
    | Crash app1 tr1 => Crash app1 tr1
    end.
Proof. reflexivity. Qed.

Lemma run_consistent (steps : list Step) :
  forall (app app' : NfcApp) (tr : list Call),
    consistent app -> run steps app = Done tt app' tr -> consistent app'.
Proof.
  induction steps as [|s rest IH]; intros app app' tr Hc Hrun.
  - injection Hrun as <- _. exact Hc.
  - rewrite run_cons in Hrun.
    destruct (exec s app) as [[] app1 tr1|] eqn:Hs; [|discriminate Hrun].
    destruct (run rest app1) as [[] app2 tr2|] eqn:Hr; [|discriminate Hrun].
    injection Hrun as <- _.
    exact (IH _ _ _ (exec_consistent s app app1 tr1 Hc Hs) Hr).
Qed.

Lemma nfc_app_alloc_consistent (st : Storage) (device card : MfClassicData) :
  storage_fits st -> consistent (nfc_app_alloc st device card).
Proof. intros Hst. split; [exact Hst | split; reflexivity]. Qed.

Lemma consistent_le (app : NfcApp) :
  consistent app ->
  0 <= dict_keys_current (nfc_dict_context app) <= dict_keys_total (nfc_dict_context app).
Proof.
  intros [_ Hc]. unfold cursor_agrees in Hc.
  destruct (dict (nfc_dict_context app)); lia.
Qed.

(** C9: in every state the scene reaches from a fresh application
    object, by any steps that run to their end, [dict_keys_current] is
    at most [dict_keys_total]. *)
Theorem dict_keys_current_le_total (st : Storage) (device card : MfClassicData)
    (steps : list Step) (app : NfcApp) (tr : list Call) :
  storage_fits st ->
  run steps (nfc_app_alloc st device card) = Done tt app tr ->
  dict_keys_current (nfc_dict_context app) <= dict_keys_total (nfc_dict_context app).
Proof.
  intros Hst Hrun.
  apply consistent_le.
  exact (run_consistent steps _ _ _ (nfc_app_alloc_consistent st device card Hst) Hrun).
Qed.

Lemma dict_keys_current_le_total_witness :
  storage_fits sample_storage /\
  exists app tr,
    run [StepEnter; StepPoller request_key; StepPoller request_key]
        (nfc_app_alloc sample_storage card_blank card_blank) = Done tt app tr /\
    dict_keys_current (nfc_dict_context app) = 2 /\
    dict_keys_total (nfc_dict_context app) = 3 /\
    dict_keys_current (nfc_dict_context app) <= dict_keys_total (nfc_dict_context app).
Proof.
  assert (Hfit : storage_fits sample_storage)
    by (repeat split; vm_compute; discriminate).
  split; [exact Hfit|].
  pose (o := run [StepEnter; StepPoller request_key; StepPoller request_key]
               (nfc_app_alloc sample_storage card_blank card_blank)).
  assert (Hrun : o = Done tt (outcome_app o) (outcome_trace o))
    by (vm_compute; reflexivity).
  exists (outcome_app o), (outcome_trace o).
  split; [exact Hrun|].
  split; [vm_compute; reflexivity|].
  split; [vm_compute; reflexivity|].
  exact (dict_keys_current_le_total sample_storage card_blank card_blank
           [StepEnter; StepPoller request_key; StepPoller request_key] _ _
           Hfit Hrun).
Defined.

(** What one step does to the counter, in a consistent state. *)
Lemma exec_reset (s : Step) (app app' : NfcApp) (tr : list Call) :
  consistent app ->
  exec s app = Done tt app' tr ->
  match reset_of s app with
  | Rewinds =>
      dict_keys_current (nfc_dict_context app') = 0 /\
      existsb rewinds_dict tr = true /\
      exists d, dict (nfc_dict_context app') = Some d /\ dict_cursor d = 0%nat
  | Releases =>
      dict_keys_current (nfc_dict_context app') = 0 /\
      existsb rewinds_dict tr = false /\
      dict (nfc_dict_context app') = None
  | Keeps =>
      (dict_keys_current (nfc_dict_context app') = dict_keys_current (nfc_dict_context app) \/
       dict_keys_current (nfc_dict_context app') =
         dict_keys_current (nfc_dict_context app) + 1) /\
      0 <= dict_keys_current (nfc_dict_context app) /\
      existsb rewinds_dict tr = false
  end.
Proof.
  intros Hc. pose proof (consistent_le app Hc) as Hle. destruct Hc as [_ Hc].
  destruct_app app. unfold cursor_agrees in Hc. cbn in Hc, Hle.
  destruct s as [|e|e| |c]; [ | destruct e | destruct e as [e| |]; [destruct e| |] | | ].
  all: unfold reset_of; handler_cases; intros H; try discriminate H; injection H as <- <-.
  all: handler_cbn.
  all: try cursor_bound.
  all: repeat split; try (left; reflexivity); try lia.
  all: try (eexists; split; reflexivity).
  all: right; rewrite to_size_t_small; unfold SIZE_MAX, SIZE_BITS; lia.
Qed.

(** C6 (as the code has it): in every state reached from a fresh
    application object, a step that runs to its end
    - sets [dict_keys_current] to 0 and leaves a dictionary open with
      its cursor at the start when it is [NextSector], [KeyAttackStop]
      or the entry of a phase ([on_enter], or [DictAttackComplete] or
      [Skip] moving on to the system dictionary);
    - sets [dict_keys_current] to 0 too when it is [on_exit], which
      releases the dictionary instead of rewinding it;
    - otherwise rewinds nothing and leaves the counter as it is or adds
      1 to it, the counter being non-negative: no other step takes it
      back to 0. *)
Theorem dict_keys_current_zeroed_only_by_reset (st : Storage) (device card : MfClassicData)
    (steps : list Step) (app : NfcApp) (tr : list Call)
    (s : Step) (app' : NfcApp) (tr' : list Call) :
  storage_fits st ->
  run steps (nfc_app_alloc st device card) = Done tt app tr ->
  exec s app = Done tt app' tr' ->
  match reset_of s app with
  | Rewinds =>
      dict_keys_current (nfc_dict_context app') = 0 /\
      existsb rewinds_dict tr' = true /\
      exists d, dict (nfc_dict_context app') = Some d /\ dict_cursor d = 0%nat
  | Releases =>
      dict_keys_current (nfc_dict_context app') = 0 /\
      existsb rewinds_dict tr' = false /\
      dict (nfc_dict_context app') = None
  | Keeps =>
      (dict_keys_current (nfc_dict_context app') = dict_keys_current (nfc_dict_context app) \/
       dict_keys_current (nfc_dict_context app') =
         dict_keys_current (nfc_dict_context app) + 1) /\
      0 <= dict_keys_current (nfc_dict_context app) /\
      existsb rewinds_dict tr' = false
  end.
Proof.
  intros Hst Hrun Hs.
  apply exec_reset; [|exact Hs].
  exact (run_consistent steps _ _ _ (nfc_app_alloc_consistent st device card Hst) Hrun).
Qed.

Lemma dict_keys_current_zeroed_only_by_reset_witness :
  storage_fits sample_storage /\
  exists app tr app' tr' app'' tr'',
    run [StepEnter; StepPoller request_key]
        (nfc_app_alloc sample_storage card_blank card_blank) = Done tt app tr /\
    dict_keys_current (nfc_dict_context app) = 1 /\
    exec (StepPoller MfClassicPollerEventTypeFoundKeyA) app = Done tt app' tr' /\
    dict_keys_current (nfc_dict_context app') = 1 /\
    exec (StepPoller (MfClassicPollerEventTypeNextSector 1)) app = Done tt app'' tr'' /\
    dict_keys_current (nfc_dict_context app'') = 0.
Proof.
  assert (Hfit : storage_fits sample_storage)
    by (repeat split; vm_compute; discriminate).
  split; [exact Hfit|].
  pose (o := run [StepEnter; StepPoller request_key]
               (nfc_app_alloc sample_storage card_blank card_blank)).
  assert (Hrun : o = Done tt (outcome_app o) (outcome_trace o))
    by (vm_compute; reflexivity).
  pose (o1 := exec (StepPoller MfClassicPollerEventTypeFoundKeyA) (outcome_app o)).
  assert (H1 : o1 = Done tt (outcome_app o1) (outcome_trace o1))
    by (vm_compute; reflexivity).
  pose (o2 := exec (StepPoller (MfClassicPollerEventTypeNextSector 1)) (outcome_app o)).
  assert (H2 : o2 = Done tt (outcome_app o2) (outcome_trace o2))
    by (vm_compute; reflexivity).
  exists (outcome_app o), (outcome_trace o), (outcome_app o1), (outcome_trace o1),
    (outcome_app o2), (outcome_trace o2).
  split; [exact Hrun|]. split; [vm_compute; reflexivity|].
  split; [exact H1|].
  pose proof (dict_keys_current_zeroed_only_by_reset sample_storage card_blank card_blank
                _ _ _ (StepPoller MfClassicPollerEventTypeFoundKeyA) _ _ Hfit Hrun H1) as K1.
  pose proof (dict_keys_current_zeroed_only_by_reset sample_storage card_blank card_blank
                _ _ _ (StepPoller (MfClassicPollerEventTypeNextSector 1)) _ _ Hfit Hrun H2)
    as K2.
  cbn [reset_of] in K1, K2.
  split; [vm_compute; reflexivity|].
  split; [exact H2|].
  exact (proj1 K2).
Defined.

(** C6, counterexample: after the scene is entered and one key was
    requested the counter is 1; leaving the scene sets it to 0, although
    [on_exit] is none of [NextSector], [KeyAttackStop] and phase entry,
    rewinds nothing and leaves no dictionary open. *)
Lemma teardown_zeroes_without_rewind :
  exists app tr app' tr',
    run [StepEnter; StepPoller request_key] sample_app = Done tt app tr /\
    dict_keys_current (nfc_dict_context app) = 1 /\
    exec StepExit app = Done tt app' tr' /\
    dict_keys_current (nfc_dict_context app') = 0 /\
    existsb rewinds_dict tr' = false /\
    dict (nfc_dict_context app') = None.
Proof.
  do 4 eexists.
  split; [vm_compute; reflexivity|]. split; [reflexivity|].
  split; [vm_compute; reflexivity|]. repeat split.
Qed.

(** ** Runs that go through *)

(** A step runs to its end whenever the system dictionary exists and a
    dictionary is open, or the step is the entry of the scene; the
    system dictionary then still exists. *)
Lemma exec_runs (s : Step) (app : NfcApp) :
  system_dict_file (storage app) <> None ->
  dict (nfc_dict_context app) <> None \/ s = StepEnter ->
  exists app' tr,
    exec s app = Done tt app' tr /\ system_dict_file (storage app') <> None.
Proof.
  intros Hs Hd. destruct_app app. cbn in Hs, Hd.
  destruct s as [|e|e| |c]; [ | destruct e | destruct e as [e| |]; [destruct e| |] | | ].
  all: handler_cases.
  all: try (exfalso; destruct Hd; congruence).
  all: do 2 eexists; split; [reflexivity|]; handler_cbn; congruence.
Qed.

(** A rewinding step leaves the scene where a pass starts: the
    preconditions of the pass lemmas hold. *)
Lemma pass_starts_after_rewind (s : Step) (app app' : NfcApp) (tr : list Call) :
  consistent app ->
  exec s app = Done tt app' tr ->
  reset_of s app = Rewinds ->
  exists d,
    dict (nfc_dict_context app') = Some d /\
    dict_cursor d = 0%nat /\
    dict_keys_current (nfc_dict_context app') = 0 /\
    Z.of_nat (length (dict_keys d)) <= SIZE_MAX.
Proof.
  intros Hc Hs Hr.
  pose proof (exec_reset s app app' tr Hc Hs) as H. rewrite Hr in H.
  destruct H as (H0 & _ & d & Hd & Hcur).
  destruct (exec_consistent s app app' tr Hc Hs) as [_ Hagree].
  unfold cursor_agrees in Hagree. rewrite Hd in Hagree.
  exists d. repeat split; try assumption. tauto.
Qed.

(** ** Scenarios *)

(** Three keys, four requests: [K1], [K2], [K3], then no key; the
    counter reads 1, 2, 3, 3. *)
Example three_keys_four_requests :
  exists app1 app2 app3 app4 tr1 tr2 tr3 tr4,
    nfc_dict_attack_worker_callback request_key sample_user_app =
      Done (NfcCommandContinue,
            MfClassicPollerEventTypeRequestKey {| key := K1; key_provided := true |})
           app1 tr1 /\
    nfc_dict_attack_worker_callback request_key app1 =
      Done (NfcCommandContinue,
            MfClassicPollerEventTypeRequestKey {| key := K2; key_provided := true |})
           app2 tr2 /\
    nfc_dict_attack_worker_callback request_key app2 =
      Done (NfcCommandContinue,
            MfClassicPollerEventTypeRequestKey {| key := K3; key_provided := true |})
           app3 tr3 /\
    nfc_dict_attack_worker_callback request_key app3 =
      Done (NfcCommandContinue,
            MfClassicPollerEventTypeRequestKey
              {| key := MfClassicKey_zero; key_provided := false |})
           app4 tr4 /\
    map (fun a => dict_keys_current (nfc_dict_context a)) [app1; app2; app3; app4]
      = [1; 2; 3; 3].
Proof.
  do 8 eexists.
  split; [vm_compute; reflexivity|]. split; [vm_compute; reflexivity|].
  split; [vm_compute; reflexivity|]. split; [vm_compute; reflexivity|].
  reflexivity.
Qed.

(** With twelve keys the observer is notified by the tenth request and
    by no other. *)
Example tenth_request_notifies :
  let st := {| user_dict_file := Some (repeat K1 12); user_nested_file := None;
               system_dict_file := Some [K4]; system_nested_file := None |} in
  let entered := outcome_app (run [StepEnter] (nfc_app_alloc st card_blank card_blank)) in
  map (fun n =>
         existsb (fun c => match c with
                           | call_view_dispatcher_send_custom_event _ => true
                           | _ => false
                           end)
           (outcome_trace
              (nfc_dict_attack_worker_callback request_key
                 (outcome_app (deliver (repeat request_key n) entered)))))
      (seq 0 13)
  = [false; false; false; false; false; false; false; false; false; true;
     false; false; false].
Proof. vm_compute. reflexivity. Qed.

(** After a [Success] in the user phase, the [RequestMode] of the new
    session finds [dict_keys_total] taken from the system dictionary
    (two keys) and not from the user dictionary (three). *)
Example total_recomputed_after_success :
  exists app tr,
    run [StepEnter; poller_success; scene_complete; StepPoller request_mode] sample_app
      = Done tt app tr /\
    dict_keys_total (nfc_dict_context sample_user_app) = 3 /\
    dict_keys_total (nfc_dict_context app) = 2 /\
    dict_keys_current (nfc_dict_context app) = 0.
Proof.
  do 2 eexists. split; [vm_compute; reflexivity|]. repeat split.
Qed.

(** * Further properties of the scene *)

(** ** Phases *)

(** X1: an event of the poller or of the scene manager never takes the
    attack back to the user dictionary: the phase stays as it is, or
    becomes the system phase on the [DictAttackComplete] and [Skip]
    events that move on from the user dictionary. *)
Theorem phase_only_advances (app : NfcApp) (s : Step) :
  event_step s = true ->
  scene_state (outcome_app (exec s app)) = scene_state app \/
  (escalates s app = true /\
   scene_state (outcome_app (exec s app)) = DictAttackStateSystemDictInProgress).
Proof.
  intros Hs. destruct_app app.
  destruct s as [|e|e| |c]; [ | destruct e | destruct e as [e| |]; [destruct e| |] | | ];
    try discriminate Hs; unfold escalates; handler_cases.
  all: first [left; reflexivity | right; split; reflexivity].
Qed.

Lemma phase_only_advances_witness :
  event_step scene_complete = true /\
  scene_state sample_user_app = DictAttackStateUserDictInProgress /\
  scene_state (outcome_app (exec scene_complete sample_user_app))
    = DictAttackStateSystemDictInProgress /\
  scene_state (outcome_app (exec scene_complete sample_system_app))
    = DictAttackStateSystemDictInProgress.
Proof.
  split; [reflexivity|]. split; [reflexivity|].
  destruct (phase_only_advances sample_user_app scene_complete eq_refl) as [H | [_ H]].
  - split; [vm_compute; reflexivity | vm_compute; reflexivity].
  - split; [exact H | vm_compute; reflexivity].
Defined.

(** X2: no step writes to a dictionary file: the user and the system
    dictionary on the storage are, after any step and however it ends,
    what they were before; only the nested working copies change. *)
Theorem dictionary_files_untouched (app : NfcApp) (s : Step) :
  user_dict_file (storage (outcome_app (exec s app))) = user_dict_file (storage app) /\
  system_dict_file (storage (outcome_app (exec s app))) = system_dict_file (storage app).
Proof.
  destruct_app app.
  destruct s as [|e|e| |c]; [ | destruct e | destruct e as [e| |]; [destruct e| |] | | ];
    handler_cases; split; reflexivity.
Qed.

(** ** Phase entry *)

(** X3: what [on_enter] asks of the storage.  However it ends, its
    requests to the storage are, in this order: the staging of the
    working copy of the system dictionary; the staging of the working
    copy of the user dictionary when a user dictionary exists; and the
    staging of the working copy of the system dictionary once more
    when the user dictionary is absent or has a total of zero.  A
    staging is the removal of the working copy followed by a copy of
    the dictionary onto it. *)
Theorem on_enter_requests_staging (app : NfcApp) :
  storage_calls (outcome_trace (nfc_scene_mf_classic_dict_attack_on_enter app)) =
    staging NFC_APP_MF_CLASSIC_DICT_SYSTEM_PATH NFC_APP_MF_CLASSIC_DICT_SYSTEM_NESTED_PATH
    ++ match user_dict_file (storage app) with
       | Some ku =>
           staging NFC_APP_MF_CLASSIC_DICT_USER_PATH NFC_APP_MF_CLASSIC_DICT_USER_NESTED_PATH
           ++ (if to_size_t (Z.of_nat (length ku)) =? 0
               then staging NFC_APP_MF_CLASSIC_DICT_SYSTEM_PATH
                      NFC_APP_MF_CLASSIC_DICT_SYSTEM_NESTED_PATH
               else [])
       | None =>
           staging NFC_APP_MF_CLASSIC_DICT_SYSTEM_PATH
             NFC_APP_MF_CLASSIC_DICT_SYSTEM_NESTED_PATH
       end.
Proof.
  destruct_app app. handler_cases; reflexivity.
Qed.

(** What [prepare_view] leaves when it runs to its end: a dictionary is
    open at the start of the file of the phase it has set, the context
    and the view hold its total, the counter is 0, and the one header
    sent to the view names that phase. *)
Lemma prepare_view_done (app app' : NfcApp) (tr : list Call) :
  nfc_scene_mf_classic_dict_attack_prepare_view app = Done tt app' tr ->
  exists d,
    dict (nfc_dict_context app') = Some d /\
    dict_path d = phase_path (scene_state app') /\
    storage_file (storage app') (dict_path d) = Some (dict_keys d) /\
    dict_cursor d = 0%nat /\
    dict_keys_total (nfc_dict_context app') = total_keys d /\
    dict_keys_current (nfc_dict_context app') = 0 /\
    headers_sent tr = [phase_header (scene_state app')] /\
    totals_sent tr = [total_keys d].
Proof.
  destruct_app app. handler_cases; intros H; try discriminate H; injection H as <- <-.
  all: eexists; split; [reflexivity|]; repeat split.
Qed.

(** X4: when [on_enter] runs to its end, the view has been sent exactly
    one header and one total: the header names the phase the scene is
    in, the dictionary that is open is the one of that phase, read from
    its start, and the total is the key count of that dictionary, which
    is also [dict_keys_total]. *)
Theorem on_enter_view_matches_dictionary (app app' : NfcApp) (tr : list Call) :
  nfc_scene_mf_classic_dict_attack_on_enter app = Done tt app' tr ->
  exists d,
    dict (nfc_dict_context app') = Some d /\
    dict_path d = phase_path (scene_state app') /\
    dict_cursor d = 0%nat /\
    headers_sent tr = [phase_header (scene_state app')] /\
    totals_sent tr = [total_keys d] /\
    dict_keys_total (nfc_dict_context app') = total_keys d /\
    total_keys d = to_size_t (Z.of_nat (length (dict_keys d))).
Proof.
  destruct_app app. handler_cases; intros H; try discriminate H; injection H as <- <-.
  all: eexists; split; [reflexivity|]; repeat split.
Qed.

Lemma on_enter_view_matches_dictionary_witness :
  exists app' tr,
    nfc_scene_mf_classic_dict_attack_on_enter sample_app = Done tt app' tr /\
    headers_sent tr = ["MF Classic User Dictionary"%string] /\
    totals_sent tr = [3] /\
    dict_keys_total (nfc_dict_context app') = 3.
Proof.
  pose (o := nfc_scene_mf_classic_dict_attack_on_enter sample_app).
  assert (Hrun : o = Done tt (outcome_app o) (outcome_trace o))
    by (vm_compute; reflexivity).
  destruct (on_enter_view_matches_dictionary sample_app _ _ Hrun)
    as (d & Hd & _ & _ & Hh & Ht & Htot & _).
  exists (outcome_app o), (outcome_trace o).
  split; [exact Hrun|].
  split; [vm_compute; reflexivity|]. split; [vm_compute; reflexivity|].
  vm_compute; reflexivity.
Defined.

(** ** The dictionary of the phase *)

Lemma exec_dict_of_phase (s : Step) (app app' : NfcApp) (tr : list Call) :
  dict_of_phase app -> exec s app = Done tt app' tr -> dict_of_phase app'.
Proof.
  intros Hp. unfold dict_of_phase in Hp. destruct_app app. cbn in Hp.
  destruct s as [|e|e| |c]; [ | destruct e | destruct e as [e| |]; [destruct e| |] | | ].
  all: handler_cases; intros H; try discriminate H; injection H as <- <-.
  all: unfold dict_of_phase; handler_cbn; cbn in Hp.
  all: try (destruct Hp as [Hp1 Hp2]); try split;
    try reflexivity; try assumption; try discriminate.
Qed.

Lemma run_preserves (P : NfcApp -> Prop) :
  (forall s app app' tr, P app -> exec s app = Done tt app' tr -> P app') ->
  forall steps app app' tr, P app -> run steps app = Done tt app' tr -> P app'.
Proof.
  intros Hstep. induction steps as [|s rest IH]; intros app app' tr Hp Hrun.
  - injection Hrun as <- _. exact Hp.
  - rewrite run_cons in Hrun.
    destruct (exec s app) as [[] app1 tr1|] eqn:Hs; [|discriminate Hrun].
    destruct (run rest app1) as [[] app2 tr2|] eqn:Hr; [|discriminate Hrun].
    injection Hrun as <- _.
    exact (IH _ _ _ (Hstep s app app1 tr1 Hp Hs) Hr).
Qed.

(** X5: in every state the scene reaches from a fresh application
    object, a dictionary that is open is the dictionary of the current
    phase (the user dictionary in the user phase, the system dictionary
    in the system phase) and holds the keys that the file of that path
    has on the storage; when none is open the phase is the user phase. *)
Theorem open_dictionary_is_of_phase (st : Storage) (device card : MfClassicData)
    (steps : list Step) (app : NfcApp) (tr : list Call) :
  run steps (nfc_app_alloc st device card) = Done tt app tr ->
  match dict (nfc_dict_context app) with
  | Some d =>
      dict_path d = phase_path (scene_state app) /\
      storage_file (storage app) (dict_path d) = Some (dict_keys d)
  | None => scene_state app = DictAttackStateUserDictInProgress
  end.
Proof.
  intros Hrun.
  apply (run_preserves dict_of_phase exec_dict_of_phase steps _ _ _ (eq_refl : dict_of_phase (nfc_app_alloc st device card)) Hrun).
Qed.

Lemma open_dictionary_is_of_phase_witness :
  exists app tr d,
    run [StepEnter; poller_success; scene_complete; StepPoller request_key]
        (nfc_app_alloc sample_storage card_blank card_blank) = Done tt app tr /\
    scene_state app = DictAttackStateSystemDictInProgress /\
    dict (nfc_dict_context app) = Some d /\
    dict_path d = NFC_APP_MF_CLASSIC_DICT_SYSTEM_PATH /\
    dict_keys d = [K4; K5].
Proof.
  pose (o := run [StepEnter; poller_success; scene_complete; StepPoller request_key]
               (nfc_app_alloc sample_storage card_blank card_blank)).
  assert (Hrun : o = Done tt (outcome_app o) (outcome_trace o))
    by (vm_compute; reflexivity).
  pose proof (open_dictionary_is_of_phase sample_storage card_blank card_blank
                _ _ _ Hrun) as H.
  exists (outcome_app o), (outcome_trace o).
  assert (Hd : dict (nfc_dict_context (outcome_app o)) =
               Some {| dict_path := NFC_APP_MF_CLASSIC_DICT_SYSTEM_PATH;
                       dict_keys := [K4; K5]; dict_cursor := 1%nat; total_keys := 2 |})
    by (vm_compute; reflexivity).
  rewrite Hd in H. destruct H as [Hpath _].
  eexists. split; [exact Hrun|]. split; [vm_compute; reflexivity|].
  split; [exact Hd|]. split; [|reflexivity].
  rewrite Hpath. vm_compute. reflexivity.
Defined.

(** ** Order of acquisition and release *)

Lemma track_all_app (r : Resources) (t1 t2 : list Call) :
  track_all r (t1 ++ t2) =
    match track_all r t1 with
    | Some r' => track_all r' t2
    | None => None
    end.
Proof.
  revert r. induction t1 as [|c t1 IH]; intros r; [reflexivity|].
  cbn [List.app track_all]. destruct (track r c); [apply IH | reflexivity].
Qed.

Lemma run_app (l1 l2 : list Step) :
  forall (app app' : NfcApp) (tr : list Call),
    run (l1 ++ l2) app = Done tt app' tr ->
    exists app1 tr1 tr2,
      run l1 app = Done tt app1 tr1 /\
      run l2 app1 = Done tt app' tr2 /\
      tr = tr1 ++ tr2.
Proof.
  induction l1 as [|s l1 IH]; intros app app' tr Hrun.
  - exists app, [], tr. repeat split. exact Hrun.
  - cbn [List.app] in Hrun. rewrite run_cons in Hrun. rewrite run_cons.
    destruct (exec s app) as [[] app1 tr1|]; [|discriminate Hrun].
    destruct (run (l1 ++ l2) app1) as [[] app2 tr2|] eqn:Hr; [|discriminate Hrun].
    injection Hrun as <- <-.
    destruct (IH _ _ _ Hr) as (app3 & tr3 & tr4 & H1 & H2 & ->).
    exists app3, (tr1 ++ tr3), tr4. rewrite H1.
    repeat split; [exact H2 | apply app_assoc].
Qed.

(** An event handled while the attack is on (poller running, dictionary
    open) keeps the discipline and leaves the attack on. *)
Lemma event_step_tracks (s : Step) (app app' : NfcApp) (tr : list Call) :
  event_step s = true ->
  exec s app = Done tt app' tr ->
  track_all attacking tr = Some attacking.
Proof.
  intros Hs. destruct_app app.
  destruct s as [|e|e| |c]; [ | destruct e | destruct e as [e| |]; [destruct e| |] | | ];
    try discriminate Hs.
  all: handler_cases; intros H; try discriminate H; injection H as <- <-; reflexivity.
Qed.

Lemma on_enter_tracks (app app' : NfcApp) (tr : list Call) :
  nfc_scene_mf_classic_dict_attack_on_enter app = Done tt app' tr ->
  track_all released tr = Some attacking.
Proof.
  destruct_app app.
  handler_cases; intros H; try discriminate H; injection H as <- <-; reflexivity.
Qed.

Lemma on_exit_tracks (app app' : NfcApp) (tr : list Call) :
  nfc_scene_mf_classic_dict_attack_on_exit app = Done tt app' tr ->
  track_all attacking tr = Some released.
Proof.
  destruct_app app.
  handler_cases; intros H; try discriminate H; injection H as <- <-; reflexivity.
Qed.

Lemma events_track (events : list Step) :
  forallb event_step events = true ->
  forall (app app' : NfcApp) (tr : list Call),
    run events app = Done tt app' tr ->
    track_all attacking tr = Some attacking.
Proof.
  induction events as [|s rest IH]; intros Hall app app' tr Hrun.
  - injection Hrun as _ <-. reflexivity.
  - cbn [forallb] in Hall. apply andb_prop in Hall as [Hs Hall].
    rewrite run_cons in Hrun.
    destruct (exec s app) as [[] app1 tr1|] eqn:He; [|discriminate Hrun].
    destruct (run rest app1) as [[] app2 tr2|] eqn:Hr; [|discriminate Hrun].
    injection Hrun as _ <-.
    rewrite track_all_app, (event_step_tracks s app app1 tr1 Hs He).
    exact (IH Hall _ _ _ Hr).
Qed.

(** X6: take any life of the scene that runs to its end: it is entered,
    handles any events of the poller and of the scene manager, and is
    left.  Along its whole trace a poller is allocated, started,
    stopped and freed in this order, one dictionary is open at a time
    and is read or rewound only while open, a dictionary is never
    released while a poller is running, the working copies are never
    staged while a dictionary is open or a poller is running, and at
    the end no poller is left and no dictionary is open. *)
Theorem scene_life_keeps_resource_order (events : list Step)
    (app app' : NfcApp) (tr : list Call) :
  forallb event_step events = true ->
  run (StepEnter :: events ++ [StepExit]) app = Done tt app' tr ->
  track_all released tr = Some released.
Proof.
  intros Hall Hrun.
  change (StepEnter :: events ++ [StepExit])
    with ([StepEnter] ++ (events ++ [StepExit])) in Hrun.
  destruct (run_app _ _ _ _ _ Hrun) as (app1 & tr1 & tr23 & H1 & H23 & ->).
  destruct (run_app _ _ _ _ _ H23) as (app2 & tr2 & tr3 & H2 & H3 & ->).
  rewrite run_cons in H1, H3. cbn [run ret exec] in H1, H3.
  destruct (nfc_scene_mf_classic_dict_attack_on_enter app) as [[] a1 t1|] eqn:He;
    [|discriminate H1].
  injection H1 as _ <-.
  destruct (nfc_scene_mf_classic_dict_attack_on_exit app2) as [[] a3 t3|] eqn:Hx;
    [|discriminate H3].
  injection H3 as _ <-.
  rewrite !app_nil_r.
  rewrite track_all_app, (on_enter_tracks _ _ _ He).
  rewrite track_all_app, (events_track events Hall _ _ _ H2).
  exact (on_exit_tracks _ _ _ Hx).
Qed.

Lemma scene_life_keeps_resource_order_witness :
  exists app' tr,
    run (StepEnter ::
         [StepPoller request_mode; StepPoller request_key;
          StepPoller (MfClassicPollerEventTypeNextSector 1); poller_success;
          scene_complete; StepPoller request_key; scene_skip] ++ [StepExit])
        sample_app = Done tt app' tr /\
    track_all released tr = Some released /\
    length (filter rewinds_dict tr) = 3%nat.
Proof.
  pose (o := run (StepEnter ::
         [StepPoller request_mode; StepPoller request_key;
          StepPoller (MfClassicPollerEventTypeNextSector 1); poller_success;
          scene_complete; StepPoller request_key; scene_skip] ++ [StepExit])
        sample_app).
  assert (Hrun : o = Done tt (outcome_app o) (outcome_trace o))
    by (vm_compute; reflexivity).
  exists (outcome_app o), (outcome_trace o).
  split; [exact Hrun|]. split.
  - exact (scene_life_keeps_resource_order
             [StepPoller request_mode; StepPoller request_key;
              StepPoller (MfClassicPollerEventTypeNextSector 1); poller_success;
              scene_complete; StepPoller request_key; scene_skip]
             sample_app _ _ eq_refl Hrun).
  - vm_compute. reflexivity.
Defined.

(** ** Throttled progress *)

Lemma tenth_step (n : Z) :
  0 <= n ->
  (n + 1) / 10 - n / 10 = if (n + 1) mod 10 =? 0 then 1 else 0.
Proof.
  intros Hn. destruct ((n + 1) mod 10 =? 0) eqn:E.
  - apply Z.eqb_eq in E. 
    pose proof (Z.div_mod (n + 1) 10 ltac:(lia)) as H1.
    pose proof (Z.div_mod n 10 ltac:(lia)) as H2.
    pose proof (Z.mod_pos_bound n 10 ltac:(lia)) as H3.
    lia.
  - apply Z.eqb_neq in E.
    pose proof (Z.div_mod (n + 1) 10 ltac:(lia)) as H1.
    pose proof (Z.div_mod n 10 ltac:(lia)) as H2.
    pose proof (Z.mod_pos_bound n 10 ltac:(lia)) as H3.
    pose proof (Z.mod_pos_bound (n + 1) 10 ltac:(lia)) as H4.
    lia.
Qed.

(** One [RequestKey] of a pass posts a data update exactly when it takes
    the number of keys pulled across a multiple of 10. *)
Lemma request_key_posts (p : DictPath) (ks : list MfClassicKey) (n : nat) (app : NfcApp)
    (kr : MfClassicPollerEventDataKeyRequest) :
  Z.of_nat (length ks) <= SIZE_MAX ->
  pulled p ks n app ->
  exists r app' tr,
    nfc_dict_attack_worker_callback (MfClassicPollerEventTypeRequestKey kr) app
      = Done r app' tr /\
    pulled p ks (S n) app' /\
    Z.of_nat (progress_posts tr) =
      Z.of_nat (Nat.min (S n) (length ks)) / 10 - Z.of_nat (Nat.min n (length ks)) / 10.
Proof.
  intros Hfit (d & Hd & Hp & Hks & Hcur & Hcnt).
  destruct (nth_error (dict_keys d) (dict_cursor d)) as [k|] eqn:Hk.
  - assert (Hlt : (dict_cursor d < length (dict_keys d))%nat)
      by (apply nth_error_Some; congruence).
    rewrite Hks, Hcur in Hlt.
    assert (Hn : Nat.min n (length ks) = n) by lia.
    assert (HSn : Nat.min (S n) (length ks) = S n) by lia.
    do 3 eexists. split; [apply (request_key_supplies _ d k); assumption|].
    split.
    + unfold keys_dict_next. rewrite Hk.
      eexists. split; [reflexivity|]. cbn -[Nat.min to_size_t].
      rewrite Hcnt, Hks, Hcur, Hn, HSn.
      repeat split; try assumption; try reflexivity.
      rewrite to_size_t_small; unfold SIZE_MAX, SIZE_BITS in *; lia.
    + rewrite Hcnt, Hn, HSn, Nat2Z.inj_succ, <- Z.add_1_r.
      rewrite to_size_t_small by (unfold SIZE_MAX, SIZE_BITS in *; lia).
      rewrite tenth_step by lia.
      destruct ((Z.of_nat n + 1) mod 10 =? 0); reflexivity.
  - pose proof Hk as Hge. apply nth_error_None in Hge. rewrite Hks, Hcur in Hge.
    assert (Hn : Nat.min n (length ks) = length ks) by lia.
    assert (HSn : Nat.min (S n) (length ks) = length ks) by lia.
    do 3 eexists. split; [apply (request_key_exhausted _ d); assumption|].
    split.
    + exists d. cbn -[Nat.min]. rewrite Hcnt, Hks, Hcur, Hn, HSn.
      repeat split; try assumption; reflexivity.
    + rewrite Hn, HSn, Z.sub_diag. reflexivity.
Qed.

Lemma progress_posts_app (t1 t2 : list Call) :
  progress_posts (t1 ++ t2) = (progress_posts t1 + progress_posts t2)%nat.
Proof. unfold progress_posts. rewrite filter_app, length_app. reflexivity. Qed.

Lemma requests_post (p : DictPath) (ks : list MfClassicKey)
    (evs : list MfClassicPollerEvent) :
  Z.of_nat (length ks) <= SIZE_MAX ->
  forallb is_request_key evs = true ->
  forall (n : nat) (app : NfcApp),
    pulled p ks n app ->
    exists app' tr,
      deliver evs app = Done tt app' tr /\
      pulled p ks (n + length evs) app' /\
      Z.of_nat (progress_posts tr) =
        Z.of_nat (Nat.min (n + length evs) (length ks)) / 10
        - Z.of_nat (Nat.min n (length ks)) / 10.
Proof.
  intros Hfit. induction evs as [|e evs IH]; intros Hall n app Hp.
  - exists app, []. split; [reflexivity|].
    cbn [length]. rewrite Nat.add_0_r, Z.sub_diag. split; [exact Hp | reflexivity].
  - cbn [forallb] in Hall. apply andb_prop in Hall as [He Hall].
    destruct e; try discriminate He.
    destruct (request_key_posts p ks n app key_request_data Hfit Hp)
      as (r & app1 & tr1 & Hcb & Hp1 & Hc1).
    destruct (IH Hall _ _ Hp1) as (app2 & tr2 & Hrun & Hp2 & Hc2).
    exists app2, (tr1 ++ tr2). split; [|split].
    + rewrite (deliver_cons _ evs app app1 r tr1 Hcb), Hrun. reflexivity.
    + cbn [length]. rewrite Nat.add_succ_r. exact Hp2.
    + rewrite progress_posts_app, Nat2Z.inj_add, Hc1, Hc2.
      cbn [length]. rewrite Nat.add_succ_r. cbn [Nat.add]. lia.
Qed.

(** X7: progress is posted once per ten keys.  From a dictionary that
    has just been rewound, a run of [m] [RequestKey] events posts
    [min m N / 10] data updates, [N] being the number of keys: one for
    every tenth key supplied and none for the requests after the keys
    are used up. *)
Theorem requests_post_every_tenth_key (app : NfcApp) (d : KeysDict)
    (evs : list MfClassicPollerEvent) :
  dict (nfc_dict_context app) = Some d ->
  dict_cursor d = 0%nat ->
  dict_keys_current (nfc_dict_context app) = 0 ->
  Z.of_nat (length (dict_keys d)) <= SIZE_MAX ->
  forallb is_request_key evs = true ->
  exists app' tr,
    deliver evs app = Done tt app' tr /\
    Z.of_nat (progress_posts tr) =
      Z.of_nat (Nat.min (length evs) (length (dict_keys d))) / 10.
Proof.
  intros Hd Hcur Hcnt Hfit Hall.
  assert (Hp : pulled (dict_path d) (dict_keys d) 0 app).
  { exists d. rewrite Nat.min_0_l. repeat split; assumption. }
  destruct (requests_post _ _ evs Hfit Hall 0%nat app Hp) as (app' & tr & Hrun & _ & Hc).
  exists app', tr. split; [exact Hrun|].
  rewrite Hc. cbn [Nat.add]. rewrite Nat.min_0_l. cbn. lia.
Qed.

Lemma requests_post_every_tenth_key_witness :
  dict (nfc_dict_context twelve_keys_app) = Some (user_dict_handle (repeat K1 12)) /\
  exists app' tr,
    deliver (repeat request_key 25) twelve_keys_app = Done tt app' tr /\
    progress_posts tr = 1%nat.
Proof.
  split; [vm_compute; reflexivity|].
  destruct (requests_post_every_tenth_key twelve_keys_app
              (user_dict_handle (repeat K1 12)) (repeat request_key 25))
    as (app' & tr & Hrun & Hposts).
  - vm_compute; reflexivity.
  - reflexivity.
  - vm_compute; reflexivity.
  - vm_compute; discriminate.
  - vm_compute; reflexivity.
  - exists app', tr. split; [exact Hrun|].
    apply Nat2Z.inj. rewrite Hposts. vm_compute. reflexivity.
Defined.

(** ** Rewinding *)

(** X8: after [NextSector], and after [KeyAttackStop], the dictionary is
    tried from its first key again: whatever had been pulled before,
    the next [RequestKey] supplies the first key of the file and the
    counter reads 1. *)
Theorem rewind_restarts_from_first_key (app : NfcApp) (d : KeysDict)
    (k0 : MfClassicKey) (rest : list MfClassicKey)
    (e : MfClassicPollerEvent) (kr : MfClassicPollerEventDataKeyRequest) :
  dict (nfc_dict_context app) = Some d ->
  dict_keys d = k0 :: rest ->
  rewind_event e = true ->
  exists app1 tr1 app2 tr2,
    nfc_dict_attack_worker_callback e app = Done (NfcCommandContinue, e) app1 tr1 /\
    nfc_dict_attack_worker_callback (MfClassicPollerEventTypeRequestKey kr) app1 =
      Done (NfcCommandContinue,
            MfClassicPollerEventTypeRequestKey {| key := k0; key_provided := true |})
           app2 tr2 /\
    dict_keys_current (nfc_dict_context app1) = 0 /\
    dict_keys_current (nfc_dict_context app2) = 1.
Proof.
  intros Hd Hks He. destruct_app app. cbn in Hd. subst.
  destruct d as [p ks c t]. cbn in Hks. subst.
  destruct e; try discriminate He.
  all: do 4 eexists; split; [reflexivity|]; split; [reflexivity|]; split; reflexivity.
Qed.

Lemma rewind_restarts_from_first_key_witness :
  exists app tr app1 tr1 app2 tr2,
    run [StepEnter; StepPoller request_key; StepPoller request_key] sample_app
      = Done tt app tr /\
    dict_keys_current (nfc_dict_context app) = 2 /\
    nfc_dict_attack_worker_callback (MfClassicPollerEventTypeNextSector 3) app
      = Done (NfcCommandContinue, MfClassicPollerEventTypeNextSector 3) app1 tr1 /\
    nfc_dict_attack_worker_callback request_key app1 =
      Done (NfcCommandContinue,
            MfClassicPollerEventTypeRequestKey {| key := K1; key_provided := true |})
           app2 tr2 /\
    dict_keys_current (nfc_dict_context app2) = 1.
Proof.
  pose (o := run [StepEnter; StepPoller request_key; StepPoller request_key] sample_app).
  assert (Hrun : o = Done tt (outcome_app o) (outcome_trace o))
    by (vm_compute; reflexivity).
  destruct (rewind_restarts_from_first_key (outcome_app o)
              {| dict_path := NFC_APP_MF_CLASSIC_DICT_USER_PATH;
                 dict_keys := [K1; K2; K3]; dict_cursor := 2%nat; total_keys := 3 |}
              K1 [K2; K3] (MfClassicPollerEventTypeNextSector 3)
              {| key := MfClassicKey_zero; key_provided := false |})
    as (app1 & tr1 & app2 & tr2 & H1 & H2 & _ & H4).
  - vm_compute; reflexivity.
  - reflexivity.
  - reflexivity.
  - exists (outcome_app o), (outcome_trace o), app1, tr1, app2, tr2.
    split; [exact Hrun|]. split; [vm_compute; reflexivity|].
    split; [exact H1|]. split; [exact H2 | exact H4].
Defined.

(** ** What the view is shown during a key attack *)

(** X9: while a key attack is on, what the poller reports is stored but
    not shown.  After [KeyAttackStart] for a sector and a [DataUpdate],
    the refresh of the view sends the key-attack sector and nothing
    else, although the context already holds the reported values; once
    [KeyAttackStop] has arrived the refresh sends them all, with the
    dictionary key counter back at 0. *)
Theorem key_attack_hides_progress (app : NfcApp) (d : KeysDict) (sector : Z)
    (du : MfClassicPollerEventDataUpdate) :
  dict (nfc_dict_context app) = Some d ->
  exists app1 app2 tr,
    deliver [MfClassicPollerEventTypeKeyAttackStart sector;
             MfClassicPollerEventTypeDataUpdate du] app = Done tt app1 tr /\
    sectors_read (nfc_dict_context app1) = du_sectors_read du /\
    keys_found (nfc_dict_context app1) = du_keys_found du /\
    view_calls
      (outcome_trace
         (nfc_scene_mf_classic_dict_attack_on_event
            (SceneManagerEventTypeCustom NfcCustomEventDictAttackDataUpdate) app1))
      = [dict_attack_set_key_attack sector] /\
    nfc_dict_attack_worker_callback MfClassicPollerEventTypeKeyAttackStop app1
      = Done (NfcCommandContinue, MfClassicPollerEventTypeKeyAttackStop) app2
             [call_keys_dict_rewind (dict_path d);
              call_view_dispatcher_send_custom_event NfcCustomEventDictAttackDataUpdate] /\
    view_calls
      (outcome_trace
         (nfc_scene_mf_classic_dict_attack_on_event
            (SceneManagerEventTypeCustom NfcCustomEventDictAttackDataUpdate) app2))
      = [dict_attack_reset_key_attack;
         dict_attack_set_sectors_total (sectors_total (nfc_dict_context app));
         dict_attack_set_sectors_read (du_sectors_read du);
         dict_attack_set_keys_found (du_keys_found du);
         dict_attack_set_current_dict_key 0;
         dict_attack_set_current_sector (du_current_sector du);
         dict_attack_set_nested_phase (du_nested_phase du);
         dict_attack_set_prng_type (du_prng_type du);
         dict_attack_set_backdoor (du_backdoor du);
         dict_attack_set_nested_target_key (du_nested_target_key du);
         dict_attack_set_msb_count (du_msb_count du)].
Proof.
  intros Hd. destruct_app app. cbn in Hd. subst.
  match goal with
  | |- exists app1 app2 tr, ?run ?app0 = _ /\ _ =>
      exists (outcome_app (run app0)),
        (outcome_app
           (nfc_dict_attack_worker_callback MfClassicPollerEventTypeKeyAttackStop
              (outcome_app (run app0)))),
        (outcome_trace (run app0))
  end.
  unfold deliver. cbn [map run]. handler_cases. repeat split.
Qed.

Lemma key_attack_hides_progress_witness :
  dict (nfc_dict_context sample_user_app) = Some sample_user_dict /\
  exists app1 tr,
    deliver [MfClassicPollerEventTypeKeyAttackStart 4;
             MfClassicPollerEventTypeDataUpdate sample_update] sample_user_app
      = Done tt app1 tr /\
    keys_found (nfc_dict_context app1) = 1 /\
    view_calls
      (outcome_trace
         (nfc_scene_mf_classic_dict_attack_on_event
            (SceneManagerEventTypeCustom NfcCustomEventDictAttackDataUpdate) app1))
      = [dict_attack_set_key_attack 4].
Proof.
  split; [reflexivity|].
  destruct (key_attack_hides_progress sample_user_app sample_user_dict 4 sample_update
              eq_refl) as (app1 & app2 & tr & Hrun & _ & Hk & Hv & _).
  exists app1, tr. split; [exact Hrun|]. split; [exact Hk | exact Hv].
Defined.

(** ** What the worker callback leaves alone *)

(** X10: whatever the event, the worker callback leaves the phase, the
    storage and the poller's card image alone, and the device record too
    unless the event is [Success], which copies the poller's card image
    into it.  It tells the poller to stop on [Success] and to continue
    on every other event, and the only way it can fail to answer is an
    event that needs the dictionary when none is open, in which case it
    has done nothing yet. *)
Theorem worker_callback_frame (app : NfcApp) (e : MfClassicPollerEvent) :
  scene_state (outcome_app (nfc_dict_attack_worker_callback e app)) = scene_state app /\
  storage (outcome_app (nfc_dict_attack_worker_callback e app)) = storage app /\
  poller (outcome_app (nfc_dict_attack_worker_callback e app)) = poller app /\
  nfc_device (outcome_app (nfc_dict_attack_worker_callback e app)) =
    (if is_success e then poller app else nfc_device app) /\
  match nfc_dict_attack_worker_callback e app with
  | Done (command, _) _ _ =>
      command = if is_success e then NfcCommandStop else NfcCommandContinue
  | Crash app' tr =>
      dict (nfc_dict_context app) = None /\ app' = app /\ tr = [] /\
      (is_request_key e || rewind_event e) = true
  end.
Proof.
  destruct_app app. destruct e; handler_cases; repeat split.
Qed.

(** ** Entry with a user dictionary, and with no dictionary *)





(** ** From the user dictionary to the system dictionary *)

(** X13: once the user pass has ended (a dictionary open in the user
    phase, [DictAttackComplete] handled), the first [RequestKey] of the
    new session is answered with the first key of the system
    dictionary, pulled from the system dictionary, and the counter
    reads 1, however many user keys had been tried. *)
Theorem first_key_after_escalation (app : NfcApp) (d : KeysDict)
    (k0 : MfClassicKey) (rest : list MfClassicKey)
    (kr : MfClassicPollerEventDataKeyRequest) :
  scene_state app = DictAttackStateUserDictInProgress ->
  dict (nfc_dict_context app) = Some d ->
  system_dict_file (storage app) = Some (k0 :: rest) ->
  exists app1 tr1 app2,
    nfc_scene_mf_classic_dict_attack_on_event
      (SceneManagerEventTypeCustom NfcCustomEventDictAttackComplete) app
      = Done true app1 tr1 /\
    nfc_dict_attack_worker_callback (MfClassicPollerEventTypeRequestKey kr) app1 =
      Done (NfcCommandContinue,
            MfClassicPollerEventTypeRequestKey {| key := k0; key_provided := true |})
           app2 [call_keys_dict_get_next_key NFC_APP_MF_CLASSIC_DICT_SYSTEM_PATH] /\
    dict_keys_current (nfc_dict_context app2) = 1.
Proof.
  intros Hst Hd Hs.
  exists (in_system_phase (k0 :: rest) app). eexists.
  exists (set_nfc_dict_context
            (set_dict_keys_current 1
               (set_dict
                  (Some (snd (keys_dict_next (system_dict_handle (k0 :: rest)))))
                  (nfc_dict_context (in_system_phase (k0 :: rest) app))))
            (in_system_phase (k0 :: rest) app)).
  split; [apply (on_event_complete_user app d (k0 :: rest) Hst Hd Hs)|].
  split; [|reflexivity].
  rewrite (request_key_supplies (in_system_phase (k0 :: rest) app)
             (system_dict_handle (k0 :: rest)) k0 kr eq_refl eq_refl).
  reflexivity.
Qed.

Lemma first_key_after_escalation_witness :
  exists app tr app1 tr1 app2,
    run [StepEnter; StepPoller request_key; StepPoller request_key] sample_app
      = Done tt app tr /\
    nfc_scene_mf_classic_dict_attack_on_event
      (SceneManagerEventTypeCustom NfcCustomEventDictAttackComplete) app
      = Done true app1 tr1 /\
    nfc_dict_attack_worker_callback request_key app1 =
      Done (NfcCommandContinue,
            MfClassicPollerEventTypeRequestKey {| key := K4; key_provided := true |})
           app2 [call_keys_dict_get_next_key NFC_APP_MF_CLASSIC_DICT_SYSTEM_PATH] /\
    dict_keys_current (nfc_dict_context app2) = 1.
Proof.
  pose (o := run [StepEnter; StepPoller request_key; StepPoller request_key] sample_app).
  assert (Hrun : o = Done tt (outcome_app o) (outcome_trace o))
    by (vm_compute; reflexivity).
  destruct (first_key_after_escalation (outcome_app o)
              {| dict_path := NFC_APP_MF_CLASSIC_DICT_USER_PATH;
                 dict_keys := [K1; K2; K3]; dict_cursor := 2%nat; total_keys := 3 |}
              K4 [K5] {| key := MfClassicKey_zero; key_provided := false |})
    as (app1 & tr1 & app2 & H1 & H2 & H3).
  - vm_compute; reflexivity.
  - vm_compute; reflexivity.
  - vm_compute; reflexivity.
  - exists (outcome_app o), (outcome_trace o), app1, tr1, app2.
    split; [exact Hrun|]. split; [exact H1|]. split; [exact H2 | exact H3].
Defined.

(** * Walkie-talkie application *)

(** One input event keeps the channel among the 22 channels. *)
Lemma walkie_channel_step (e : WalkieTalkie.InputEvent)
    (app : WalkieTalkie.WalkieTalkieApp) (q : list WalkieTalkie.MyEventType) :
  0 <= WalkieTalkie.current_channel app < WalkieTalkie.NUM_CHANNELS ->
  0 <= WalkieTalkie.current_channel
         (fst (WalkieTalkie.state_of (WalkieTalkie.my_input_callback e (app, q))))
    < WalkieTalkie.NUM_CHANNELS.
Proof.
  unfold WalkieTalkie.NUM_CHANNELS, WalkieTalkie.my_input_callback.
  intros H. destruct e as [[] []]; cbn -[Z.modulo Z.eqb]; try exact H.
  - unfold WalkieTalkie.to_uint8.
    destruct (WalkieTalkie.current_channel app =? 0) eqn:E.
    + cbn. lia.
    + apply Z.eqb_neq in E. rewrite Z.mod_small by lia. lia.
  - unfold WalkieTalkie.to_uint8.
    pose proof (Z.mod_pos_bound (WalkieTalkie.current_channel app + 1) 22 ltac:(lia)).
    rewrite (Z.mod_small (_ mod 22) 256) by lia. lia.
  - destruct (WalkieTalkie.furi_message_queue_put q _); exact H.
Qed.

(** X14: starting from the application object of [walkie_talkie_main],
    whatever input events arrive, [current_channel] stays within
    0..21, so the draw callback prints a channel number between 1 and
    22 and its read of [frs_frequencies] is always inside the table. *)
Theorem walkie_channel_in_table (evs : list WalkieTalkie.InputEvent) :
  let app :=
    fst (WalkieTalkie.state_of (WalkieTalkie.inputs evs (WalkieTalkie.app_alloc, []))) in
  0 <= WalkieTalkie.current_channel app < WalkieTalkie.NUM_CHANNELS /\
  1 <= WalkieTalkie.drawn_channel app <= 22 /\
  exists hz, WalkieTalkie.drawn_frequency app = Some hz.
Proof.
  cbn zeta.
  assert (H : 0 <= WalkieTalkie.current_channel
                     (fst (WalkieTalkie.state_of
                             (WalkieTalkie.inputs evs (WalkieTalkie.app_alloc, []))))
              < WalkieTalkie.NUM_CHANNELS).
  { generalize (@nil WalkieTalkie.MyEventType).
    assert (H0 : 0 <= WalkieTalkie.current_channel WalkieTalkie.app_alloc
                 < WalkieTalkie.NUM_CHANNELS) by (cbn; unfold WalkieTalkie.NUM_CHANNELS; lia).
    revert H0. generalize WalkieTalkie.app_alloc.
    induction evs as [|e evs IH]; intros app H0 q; [exact H0|].
    cbn [WalkieTalkie.inputs].
    pose proof (walkie_channel_step e app q H0) as H1.
    destruct (WalkieTalkie.my_input_callback e (app, q)) as [[app1 q1] | [app1 q1]];
      cbn [WalkieTalkie.state_of fst] in H1 |- *.
    - apply IH. exact H1.
    - exact H1. }
  split; [exact H|]. unfold WalkieTalkie.NUM_CHANNELS in H.
  split; [unfold WalkieTalkie.drawn_channel; lia|].
  unfold WalkieTalkie.drawn_frequency.
  destruct (WalkieTalkie.current_channel _ <? 0) eqn:E; [apply Z.ltb_lt in E; lia|].
  destruct (nth_error WalkieTalkie.frs_frequencies _) as [hz|] eqn:En; [exists hz; reflexivity|].
  apply nth_error_None in En. cbn [WalkieTalkie.frs_frequencies length] in En. lia.
Qed.

(** X15: on the 22 channels, a short press of Up undoes a short press of
    Down and a short press of Down undoes a short press of Up, the
    ends of the table included (Up on channel 0 goes to 21, Down on 21
    goes to 0); both calls return, and neither touches the mute status
    or the queue. *)
Theorem walkie_up_down_inverse (app : WalkieTalkie.WalkieTalkieApp)
    (q : list WalkieTalkie.MyEventType) :
  0 <= WalkieTalkie.current_channel app < WalkieTalkie.NUM_CHANNELS ->
  WalkieTalkie.inputs
    [WalkieTalkie.short WalkieTalkie.InputKeyDown;
     WalkieTalkie.short WalkieTalkie.InputKeyUp] (app, q)
    = WalkieTalkie.Returned (app, q) /\
  WalkieTalkie.inputs
    [WalkieTalkie.short WalkieTalkie.InputKeyUp;
     WalkieTalkie.short WalkieTalkie.InputKeyDown] (app, q)
    = WalkieTalkie.Returned (app, q).
Proof.
  unfold WalkieTalkie.NUM_CHANNELS. intros H. destruct app as [c m].
  cbn [WalkieTalkie.current_channel] in H.
  unfold WalkieTalkie.inputs, WalkieTalkie.my_input_callback, WalkieTalkie.to_uint8,
    WalkieTalkie.NUM_CHANNELS.
  cbn -[Z.modulo Z.eqb Z.add Z.sub].
  split; do 3 f_equal.
  - destruct (Z.eq_dec c 21) as [-> | Hc]; [reflexivity|].
    rewrite (Z.mod_small (c + 1) 22) by lia.
    rewrite (Z.mod_small (c + 1) 256) by lia.
    destruct (c + 1 =? 0) eqn:E; [apply Z.eqb_eq in E; lia|].
    rewrite Z.mod_small by lia. lia.
  - destruct (c =? 0) eqn:E.
    + apply Z.eqb_eq in E. subst. reflexivity.
    + apply Z.eqb_neq in E.
      rewrite (Z.mod_small (c - 1) 256) by lia.
      replace (c - 1 + 1) with c by lia.
      rewrite (Z.mod_small c 22) by lia. apply Z.mod_small. lia.
Qed.

Lemma walkie_up_down_inverse_witness :
  WalkieTalkie.inputs
    [WalkieTalkie.short WalkieTalkie.InputKeyUp;
     WalkieTalkie.short WalkieTalkie.InputKeyDown] (WalkieTalkie.app_alloc, [])
  = WalkieTalkie.Returned (WalkieTalkie.app_alloc, []) /\
  WalkieTalkie.current_channel
    (fst (WalkieTalkie.state_of
            (WalkieTalkie.inputs [WalkieTalkie.short WalkieTalkie.InputKeyUp]
               (WalkieTalkie.app_alloc, [])))) = 21.
Proof.
  split; [|reflexivity].
  apply (walkie_up_down_inverse WalkieTalkie.app_alloc []).
  vm_compute. split; [discriminate | reflexivity].
Defined.

(** One input event for which the queue has room: the call returns. *)
Lemma walkie_state_step (e : WalkieTalkie.InputEvent)
    (app : WalkieTalkie.WalkieTalkieApp) (q : list WalkieTalkie.MyEventType) :
  0 <= WalkieTalkie.current_channel app < 22 ->
  (length q + (if WalkieTalkie.is_short WalkieTalkie.InputKeyBack e then 1 else 0)
   <= WalkieTalkie.QUEUE_SIZE)%nat ->
  WalkieTalkie.my_input_callback e (app, q) =
    WalkieTalkie.Returned
      ({| WalkieTalkie.current_channel :=
            (WalkieTalkie.current_channel app
             + (if WalkieTalkie.is_short WalkieTalkie.InputKeyDown e then 1 else 0)
             - (if WalkieTalkie.is_short WalkieTalkie.InputKeyUp e then 1 else 0)) mod 22;
          WalkieTalkie.mute_status :=
            xorb (WalkieTalkie.mute_status app)
                 (WalkieTalkie.is_short WalkieTalkie.InputKeyOk e) |},
       q ++ (if WalkieTalkie.is_short WalkieTalkie.InputKeyBack e
             then [WalkieTalkie.MyEventTypeDone] else [])).
Proof.
  intros H Hroom. destruct app as [c m]. cbn [WalkieTalkie.current_channel] in H.
  destruct e as [[] []];
    unfold WalkieTalkie.my_input_callback, WalkieTalkie.is_short, WalkieTalkie.to_uint8,
      WalkieTalkie.NUM_CHANNELS, WalkieTalkie.furi_message_queue_put in *;
    cbn -[Z.modulo Z.eqb Z.add Z.sub Nat.ltb WalkieTalkie.QUEUE_SIZE] in *.
  all: rewrite ?app_nil_r, ?xorb_false_r, ?xorb_true_r, ?Z.add_0_r, ?Z.sub_0_r.
  all: try (rewrite (Z.mod_small c 22) by lia; reflexivity).
  - do 3 f_equal. destruct (c =? 0) eqn:E.
    + apply Z.eqb_eq in E. subst. reflexivity.
    + apply Z.eqb_neq in E.
      rewrite (Z.mod_small (c - 1) 256), (Z.mod_small (c - 1) 22) by lia. reflexivity.
  - do 3 f_equal. pose proof (Z.mod_pos_bound (c + 1) 22 ltac:(lia)).
    apply Z.mod_small. lia.
  - destruct (Nat.ltb_spec (length q) WalkieTalkie.QUEUE_SIZE) as [_ | Hfull]; [|lia].
    rewrite (Z.mod_small c 22) by lia. reflexivity.
Qed.

(** An input event other than a short press of Back returns and leaves
    the queue as it is. *)
Lemma walkie_no_put (e : WalkieTalkie.InputEvent)
    (app : WalkieTalkie.WalkieTalkieApp) (q : list WalkieTalkie.MyEventType) :
  WalkieTalkie.is_short WalkieTalkie.InputKeyBack e = false ->
  exists app1, WalkieTalkie.my_input_callback e (app, q) = WalkieTalkie.Returned (app1, q).
Proof.
  intros He. destruct e as [[] []]; try discriminate He; eexists; reflexivity.
Qed.

(** More short presses of Back than the queue has room for: the call
    for the first of them that finds the queue full is left waiting. *)
Lemma walkie_queue_full (evs : list WalkieTalkie.InputEvent)
    (app : WalkieTalkie.WalkieTalkieApp) (q : list WalkieTalkie.MyEventType) :
  (length q <= WalkieTalkie.QUEUE_SIZE)%nat ->
  (WalkieTalkie.QUEUE_SIZE
   < length q + WalkieTalkie.presses WalkieTalkie.InputKeyBack evs)%nat ->
  exists app',
    WalkieTalkie.inputs evs (app, q) =
      WalkieTalkie.Waiting
        (app', q ++ repeat WalkieTalkie.MyEventTypeDone
                      (WalkieTalkie.QUEUE_SIZE - length q)).
Proof.
  unfold WalkieTalkie.presses.
  revert app q. induction evs as [|e evs IH]; intros app q Hq Hover.
  - cbn in Hover. lia.
  - cbn [WalkieTalkie.inputs]. cbn [filter] in Hover.
    destruct (WalkieTalkie.is_short WalkieTalkie.InputKeyBack e) eqn:He.
    + assert (Hback : WalkieTalkie.my_input_callback e (app, q) =
                match WalkieTalkie.furi_message_queue_put q WalkieTalkie.MyEventTypeDone with
                | Some q' => WalkieTalkie.Returned (app, q')
                | None => WalkieTalkie.Waiting (app, q)
                end)
        by (destruct e as [[] []]; try discriminate He; reflexivity).
      rewrite Hback. unfold WalkieTalkie.furi_message_queue_put.
      cbn [length] in Hover.
      destruct (Nat.ltb_spec (length q) WalkieTalkie.QUEUE_SIZE) as [Hroom | Hfull].
      * destruct (IH app (q ++ [WalkieTalkie.MyEventTypeDone])) as (app' & Hrun).
        { rewrite length_app. cbn [length]. lia. }
        { rewrite length_app. cbn [length]. lia. }
        exists app'. rewrite Hrun. rewrite length_app, <- app_assoc. cbn [length List.app].
        replace (WalkieTalkie.QUEUE_SIZE - length q)%nat
          with (S (WalkieTalkie.QUEUE_SIZE - (length q + 1)))%nat by lia.
        reflexivity.
      * exists app. replace (WalkieTalkie.QUEUE_SIZE - length q)%nat with 0%nat by lia.
        cbn [repeat]. rewrite app_nil_r. reflexivity.
    + destruct (walkie_no_put e app q He) as (app1 & ->).
      apply IH; assumption.
Qed.

(** X16: the state after any input events is a count of the short
    presses among them, as long as the queue has room.  Take an
    application object on one of the 22 channels and a queue within its
    8 slots, from which nothing is taken meanwhile.  When the short
    presses of Back fit into the free slots, every call returns: the
    channel has moved by the number of short presses of Down minus that
    of Up, modulo 22; the mute status is flipped when the number of
    short presses of Ok is odd; and the queue has gained one
    [MyEventTypeDone] per short press of Back.  Nothing else, no long
    press and no other key, has any effect.  When they do not fit, the
    call for the first short press of Back that finds the queue full
    does not return: the events are handled up to there and the queue
    is full. *)
Theorem walkie_state_counts_presses (evs : list WalkieTalkie.InputEvent)
    (app : WalkieTalkie.WalkieTalkieApp) (q : list WalkieTalkie.MyEventType) :
  0 <= WalkieTalkie.current_channel app < WalkieTalkie.NUM_CHANNELS ->
  (length q <= WalkieTalkie.QUEUE_SIZE)%nat ->
  ((length q + WalkieTalkie.presses WalkieTalkie.InputKeyBack evs
    <= WalkieTalkie.QUEUE_SIZE)%nat ->
   WalkieTalkie.inputs evs (app, q) =
     WalkieTalkie.Returned
       ({| WalkieTalkie.current_channel :=
             (WalkieTalkie.current_channel app
              + Z.of_nat (WalkieTalkie.presses WalkieTalkie.InputKeyDown evs)
              - Z.of_nat (WalkieTalkie.presses WalkieTalkie.InputKeyUp evs))
             mod WalkieTalkie.NUM_CHANNELS;
           WalkieTalkie.mute_status :=
             xorb (WalkieTalkie.mute_status app)
                  (Nat.odd (WalkieTalkie.presses WalkieTalkie.InputKeyOk evs)) |},
        q ++ repeat WalkieTalkie.MyEventTypeDone
               (WalkieTalkie.presses WalkieTalkie.InputKeyBack evs)))
  /\
  ((WalkieTalkie.QUEUE_SIZE
    < length q + WalkieTalkie.presses WalkieTalkie.InputKeyBack evs)%nat ->
   exists app',
     WalkieTalkie.inputs evs (app, q) =
       WalkieTalkie.Waiting
         (app', q ++ repeat WalkieTalkie.MyEventTypeDone
                       (WalkieTalkie.QUEUE_SIZE - length q))).
Proof.
  intros H Hq. split; [|apply walkie_queue_full; exact Hq]. clear Hq.
  unfold WalkieTalkie.NUM_CHANNELS in *. unfold WalkieTalkie.presses.
  revert app q H. induction evs as [|e evs IH]; intros app q H Hroom.
  - destruct app as [c m]. cbn in *.
    rewrite Z.add_0_r, Z.sub_0_r, Z.mod_small, xorb_false_r, app_nil_r by lia.
    reflexivity.
  - cbn [WalkieTalkie.inputs filter] in *.
    assert (Hroom1 : (length q
                      + (if WalkieTalkie.is_short WalkieTalkie.InputKeyBack e then 1 else 0)
                      <= WalkieTalkie.QUEUE_SIZE)%nat)
      by (destruct (WalkieTalkie.is_short WalkieTalkie.InputKeyBack e);
          cbn [length] in Hroom; lia).
    rewrite (walkie_state_step e app q H Hroom1).
    rewrite IH; cbn [WalkieTalkie.current_channel WalkieTalkie.mute_status].
    + do 2 f_equal; [f_equal|].
      * destruct (WalkieTalkie.is_short WalkieTalkie.InputKeyDown e),
                 (WalkieTalkie.is_short WalkieTalkie.InputKeyUp e);
          cbn [length]; rewrite ?Nat2Z.inj_succ;
          match goal with
          | |- (?x mod 22 + ?a - ?b) mod 22 = ?r mod 22 =>
              replace (x mod 22 + a - b) with (x mod 22 + (a - b)) by lia;
              rewrite Zplus_mod_idemp_l; f_equal; lia
          end.
      * destruct (WalkieTalkie.is_short WalkieTalkie.InputKeyOk e); cbn [length].
        -- rewrite Nat.odd_succ, <- Nat.negb_odd.
           destruct (WalkieTalkie.mute_status app), (Nat.odd _); reflexivity.
        -- rewrite xorb_false_r. reflexivity.
      * destruct (WalkieTalkie.is_short WalkieTalkie.InputKeyBack e); cbn [length repeat].
        -- rewrite <- app_assoc. reflexivity.
        -- rewrite app_nil_r. reflexivity.
    + apply Z.mod_pos_bound. lia.
    + rewrite length_app.
      destruct (WalkieTalkie.is_short WalkieTalkie.InputKeyBack e);
        cbn [length] in *; lia.
Qed.

Lemma walkie_state_counts_presses_witness :
  0 <= WalkieTalkie.current_channel WalkieTalkie.app_alloc < WalkieTalkie.NUM_CHANNELS /\
  WalkieTalkie.inputs
    [WalkieTalkie.short WalkieTalkie.InputKeyUp;
     WalkieTalkie.short WalkieTalkie.InputKeyOk;
     {| WalkieTalkie.type := WalkieTalkie.InputTypeLong;
        WalkieTalkie.key := WalkieTalkie.InputKeyDown |};
     WalkieTalkie.short WalkieTalkie.InputKeyUp;
     WalkieTalkie.short WalkieTalkie.InputKeyBack]
    (WalkieTalkie.app_alloc, [])
  = WalkieTalkie.Returned
      ({| WalkieTalkie.current_channel := 20; WalkieTalkie.mute_status := true |},
       [WalkieTalkie.MyEventTypeDone]) /\
  exists app',
    WalkieTalkie.inputs
      (WalkieTalkie.short WalkieTalkie.InputKeyDown
       :: repeat (WalkieTalkie.short WalkieTalkie.InputKeyBack) 9
       ++ [WalkieTalkie.short WalkieTalkie.InputKeyDown])
      (WalkieTalkie.app_alloc, [])
    = WalkieTalkie.Waiting (app', repeat WalkieTalkie.MyEventTypeDone 8).
Proof.
  assert (H : 0 <= WalkieTalkie.current_channel WalkieTalkie.app_alloc
              < WalkieTalkie.NUM_CHANNELS) by (vm_compute; split; [discriminate | reflexivity]).
  split; [exact H|]. split.
  - rewrite (proj1 (walkie_state_counts_presses
              [WalkieTalkie.short WalkieTalkie.InputKeyUp;
               WalkieTalkie.short WalkieTalkie.InputKeyOk;
               {| WalkieTalkie.type := WalkieTalkie.InputTypeLong;
                  WalkieTalkie.key := WalkieTalkie.InputKeyDown |};
               WalkieTalkie.short WalkieTalkie.InputKeyUp;
               WalkieTalkie.short WalkieTalkie.InputKeyBack]
              WalkieTalkie.app_alloc [] H ltac:(vm_compute; lia))
             ltac:(vm_compute; lia)).
    vm_compute. reflexivity.
  - exact (proj2 (walkie_state_counts_presses
              (WalkieTalkie.short WalkieTalkie.InputKeyDown
               :: repeat (WalkieTalkie.short WalkieTalkie.InputKeyBack) 9
               ++ [WalkieTalkie.short WalkieTalkie.InputKeyDown])
              WalkieTalkie.app_alloc [] H ltac:(vm_compute; lia))
             ltac:(vm_compute; lia)).
Defined.

(** * TPMS generic block *)

(** ** The 64 data bits *)

Lemma tpms_byte_of (d n : Z) :
  0 <= n ->
  Tpms.to_uint8 (Z.land (Z.shiftr d n) 255) = (d / 2 ^ n) mod 256.
Proof.
  intros Hn. unfold Tpms.to_uint8.
  change 255 with (Z.ones 8). rewrite Z.land_ones by lia.
  rewrite Z.shiftr_div_pow2 by lia. change (2 ^ 8) with 256.
  apply Z.mod_mod. lia.
Qed.

Lemma tpms_lor_byte (acc b : Z) :
  0 <= b < 256 ->
  Z.lor (Z.shiftl acc 8) b = acc * 256 + b.
Proof.
  intros Hb. rewrite Z.shiftl_mul_pow2 by lia. change (2 ^ 8) with 256.
  rewrite <- Z.lxor_lor, <- Z.add_nocarry_lxor; try reflexivity.
  all: apply Z.bits_inj'; intros n Hn; rewrite Z.land_spec, Z.bits_0.
  all: destruct (Z.ltb_spec n 8).
  all: try (replace (acc * 256) with (acc * 2 ^ 8) by reflexivity;
            rewrite Z.mul_pow2_bits_low by lia; reflexivity).
  all: rewrite (Z.bits_above_log2 b n); [apply andb_false_r | lia |].
  all: destruct (Z.eq_dec b 0) as [->|]; [cbn; lia|];
       apply Z.log2_lt_pow2; [lia|];
       apply Z.lt_le_trans with (2 ^ 8); [cbn; lia | apply Z.pow_le_mono_r; lia].
Qed.

Lemma tpms_bytes_of_uint64 (d : Z) :
  0 <= d < 2 ^ 64 ->
  ((((((((d / 72057594037927936) mod 256) * 256
        + (d / 281474976710656) mod 256) * 256
       + (d / 1099511627776) mod 256) * 256
      + (d / 4294967296) mod 256) * 256
     + (d / 16777216) mod 256) * 256
    + (d / 65536) mod 256) * 256
   + (d / 256) mod 256) * 256
  + (d / 1) mod 256 = d.
Proof.
  intros Hd. change (2 ^ 64) with 18446744073709551616 in Hd.
  Z.div_mod_to_equations. lia.
Qed.

Lemma tpms_key_data_back (d prev : Z) :
  0 <= d < 2 ^ 64 ->
  Tpms.key_data_to_data (Tpms.data_to_key_data d) prev = d.
Proof.
  intros Hd.
  unfold Tpms.data_to_key_data, Tpms.key_data_to_data.
  cbn [seq fold_left repeat Tpms.array_set Nat.sub nth Z.of_nat Pos.of_succ_nat
       Pos.succ Z.mul Pos.mul Pos.add].
  rewrite !tpms_byte_of by lia.
  cbn [Z.mul Pos.mul Pos.add Z.pow Z.pow_pos Pos.iter].
  unfold Tpms.to_uint64.
  repeat (rewrite tpms_lor_byte by (apply Z.mod_pos_bound; lia)).
  pose proof (tpms_bytes_of_uint64 d Hd) as Hbytes.
  change (2 ^ 64) with 18446744073709551616 in *.
  repeat match goal with
         | H : context [(d / ?c) mod 256] |- _ =>
             let b := fresh "b" in
             set (b := (d / c) mod 256) in *; clearbody b
         end.
  Z.div_mod_to_equations. lia.
Qed.

(** X17: the 64 data bits survive the file.  The eight bytes that the
    serializer derives from [data], most significant first, are put
    back together by the loop of the deserializer to the same [data],
    and this whatever [instance->data] held before: the loop does not
    clear it, the eight shifts push the old bits out. *)
Theorem tpms_data_round_trip (d prev : Z) :
  0 <= d < 2 ^ 64 ->
  Tpms.key_data_to_data (Tpms.data_to_key_data d) prev = d.
Proof. exact (tpms_key_data_back d prev). Qed.

Lemma tpms_data_round_trip_witness :
  0 <= 1311768467463790320 < 2 ^ 64 /\
  Tpms.data_to_key_data 1311768467463790320 = [18; 52; 86; 120; 154; 188; 222; 240] /\
  Tpms.key_data_to_data (Tpms.data_to_key_data 1311768467463790320)
    18446744073709551615 = 1311768467463790320.
Proof.
  assert (H : 0 <= 1311768467463790320 < 2 ^ 64)
    by (vm_compute; split; [discriminate | reflexivity]).
  split; [exact H|]. split; [vm_compute; reflexivity|].
  exact (tpms_data_round_trip 1311768467463790320 18446744073709551615 H).
Defined.

(** ** Serializing *)

(** X18: [tpms_block_generic_serialize] empties the stream it is given
    and writes the fields of the file in their order up to the first
    key the writer does not accept.  It returns Ok when every field
    was written, and otherwise the status of the key that failed:
    header, frequency, preset, custom preset (for either of its two
    fields), protocol name, bit count, and "others" for [Id], [Data],
    [Batt], [Pressure], [Ts] and [Temp]. *)
Theorem tpms_serialize_writes_until_rejected (env : Tpms.WriteEnv)
    (instance : Tpms.TPMSBlockGeneric) (flipper_format : Tpms.Stream)
    (preset : Tpms.SubGhzRadioPreset) :
  Tpms.tpms_block_generic_serialize env instance flipper_format preset =
    (match snd (Tpms.written (Tpms.accepts env) (Tpms.fields env instance preset)) with
     | None => Tpms.SubGhzProtocolStatusOk
     | Some k => Tpms.status_of_key k
     end,
     fst (Tpms.written (Tpms.accepts env) (Tpms.fields env instance preset))).
Proof.
  unfold Tpms.tpms_block_generic_serialize, Tpms.fields, Tpms.custom_preset,
    Tpms.flipper_format_write.
  destruct (String.eqb (Tpms.tpms_block_generic_get_preset_name (Tpms.name preset))
              "FuriHalSubGhzPresetCustom");
    cbn [List.app Tpms.written];
    repeat match goal with
           | |- context [Tpms.accepts env ?k] =>
               destruct (Tpms.accepts env k); cbn [negb List.app fst snd]
           end;
    reflexivity.
Qed.

Lemma tpms_custom_preset_iff (preset : Tpms.SubGhzRadioPreset) :
  Tpms.custom_preset preset = true <->
  ~ In (Tpms.name preset) ["AM270"; "AM650"; "FM238"; "FM476"]%string.
Proof.
  unfold Tpms.custom_preset, Tpms.tpms_block_generic_get_preset_name.
  destruct (String.eqb_spec (Tpms.name preset) "AM270") as [-> | H1];
    [split; [discriminate | intros H; exfalso; apply H; cbn; tauto]|].
  destruct (String.eqb_spec (Tpms.name preset) "AM650") as [-> | H2];
    [split; [discriminate | intros H; exfalso; apply H; cbn; tauto]|].
  destruct (String.eqb_spec (Tpms.name preset) "FM238") as [-> | H3];
    [split; [discriminate | intros H; exfalso; apply H; cbn; tauto]|].
  destruct (String.eqb_spec (Tpms.name preset) "FM476") as [-> | H4];
    [split; [discriminate | intros H; exfalso; apply H; cbn; tauto]|].
  split; [|reflexivity].
  intros _ [H | [H | [H | [H | []]]]]; congruence.
Qed.

(** X19: with a writer that accepts every key, serializing returns Ok
    and the file has the custom-preset fields ([Custom_preset_module],
    always "CC1101", and [Custom_preset_data]) exactly when the name of
    the radio preset is none of AM270, AM650, FM238 and FM476: thirteen
    fields then, eleven otherwise. *)
Theorem tpms_custom_preset_fields (env : Tpms.WriteEnv)
    (instance : Tpms.TPMSBlockGeneric) (flipper_format : Tpms.Stream)
    (preset : Tpms.SubGhzRadioPreset) :
  (forall k, Tpms.accepts env k = true) ->
  fst (Tpms.tpms_block_generic_serialize env instance flipper_format preset)
    = Tpms.SubGhzProtocolStatusOk /\
  (In ("Custom_preset_data"%string, Tpms.FFHex (Tpms.preset_data preset))
      (snd (Tpms.tpms_block_generic_serialize env instance flipper_format preset))
   <-> ~ In (Tpms.name preset) ["AM270"; "AM650"; "FM238"; "FM476"]%string) /\
  (In ("Custom_preset_module"%string, Tpms.FFString "CC1101")
      (snd (Tpms.tpms_block_generic_serialize env instance flipper_format preset))
   <-> ~ In (Tpms.name preset) ["AM270"; "AM650"; "FM238"; "FM476"]%string) /\
  length (snd (Tpms.tpms_block_generic_serialize env instance flipper_format preset))
    = if Tpms.custom_preset preset then 13%nat else 11%nat.
Proof.
  intros Hacc.
  rewrite <- (tpms_custom_preset_iff preset).
  unfold Tpms.tpms_block_generic_serialize, Tpms.custom_preset, Tpms.flipper_format_write.
  rewrite !Hacc.
  destruct (String.eqb (Tpms.tpms_block_generic_get_preset_name (Tpms.name preset))
              "FuriHalSubGhzPresetCustom");
    cbn [negb List.app fst snd]; rewrite ?Hacc; cbn [negb List.app fst snd length].
  - repeat split; try reflexivity; intros _; cbn; tauto.
  - repeat split; try reflexivity; try discriminate.
    all: intros H; cbn in H; exfalso;
      repeat (destruct H as [H | H]; [discriminate H|]); exact H.
Qed.

Lemma tpms_custom_preset_fields_witness :
  (forall k, Tpms.accepts Tpms.sample_env k = true) /\
  length (snd (Tpms.tpms_block_generic_serialize Tpms.sample_env Tpms.sample_block []
                 Tpms.sample_preset)) = 11%nat /\
  length (snd (Tpms.tpms_block_generic_serialize Tpms.sample_env Tpms.sample_block []
                 Tpms.other_preset)) = 13%nat.
Proof.
  assert (H : forall k, Tpms.accepts Tpms.sample_env k = true) by (intros k; reflexivity).
  split; [exact H|]. split.
  - destruct (tpms_custom_preset_fields Tpms.sample_env Tpms.sample_block []
                Tpms.sample_preset H) as (_ & _ & _ & Hl).
    rewrite Hl. reflexivity.
  - destruct (tpms_custom_preset_fields Tpms.sample_env Tpms.sample_block []
                Tpms.other_preset H) as (_ & _ & _ & Hl).
    rewrite Hl. reflexivity.
Defined.

(** ** Deserializing *)

(** X20: [tpms_block_generic_deserialize] returns Ok exactly when the
    file can be rewound and all seven keys are read; when it fails it
    returns the bit-count status if the first thing missing is [Bit],
    and "others" in every other case; and it never changes the protocol
    name of the block. *)
Theorem tpms_deserialize_status (env : Tpms.ReadEnv) (instance : Tpms.TPMSBlockGeneric) :
  fst (Tpms.tpms_block_generic_deserialize env instance) =
    (if Tpms.complete env then Tpms.SubGhzProtocolStatusOk
     else if Tpms.rewind_ok env && Tpms.is_some (Tpms.read_uint32 env "Id")
             && negb (Tpms.is_some (Tpms.read_uint32 env "Bit"))
          then Tpms.SubGhzProtocolStatusErrorParserBitCount
          else Tpms.SubGhzProtocolStatusErrorParserOthers) /\
  Tpms.protocol_name (snd (Tpms.tpms_block_generic_deserialize env instance))
    = Tpms.protocol_name instance.
Proof.
  unfold Tpms.tpms_block_generic_deserialize, Tpms.complete.
  destruct (Tpms.rewind_ok env); cbn [negb andb]; [|split; reflexivity].
  destruct (Tpms.read_uint32 env "Id"); cbn [Tpms.is_some negb andb]; [|split; reflexivity].
  destruct (Tpms.read_uint32 env "Bit"); cbn [Tpms.is_some negb andb]; [|split; reflexivity].
  destruct (Tpms.read_hex env "Data"); cbn [Tpms.is_some negb andb]; [|split; reflexivity].
  destruct (Tpms.read_uint32 env "Batt"); cbn [Tpms.is_some negb andb]; [|split; reflexivity].
  destruct (Tpms.read_float env "Pressure"); cbn [Tpms.is_some negb andb]; [|split; reflexivity].
  destruct (Tpms.read_uint32 env "Ts"); cbn [Tpms.is_some negb andb]; [|split; reflexivity].
  destruct (Tpms.read_float env "Temp"); cbn [Tpms.is_some negb andb]; split; reflexivity.
Qed.

(** X21: the bit-count check compares the bit count after it was cut to
    8 bits.  With a file that can be read completely and holds [Bit =
    v], [tpms_block_generic_deserialize_check_count_bit] returns Ok
    exactly when [v mod 256] (for [v] below 2^32) equals the
    [count_bit] it was called with (a [uint16_t]), and the bit-count
    value error otherwise: an expected count of 256 or more is never
    met, and a file that says 296 passes a check for 40.  Either way
    the block returned is the one read from the file: a failed check
    does not undo the deserialization. *)
Theorem tpms_check_count_bit_truncates (env : Tpms.ReadEnv)
    (instance : Tpms.TPMSBlockGeneric) (v count_bit : Z) :
  Tpms.complete env = true ->
  Tpms.read_uint32 env "Bit" = Some v ->
  Tpms.tpms_block_generic_deserialize_check_count_bit env instance count_bit =
    (if (v mod 2 ^ 32) mod 2 ^ 8 =? Tpms.to_uint16 count_bit
     then Tpms.SubGhzProtocolStatusOk
     else Tpms.SubGhzProtocolStatusErrorValueBitCount,
     snd (Tpms.tpms_block_generic_deserialize env instance)) /\
  (256 <= Tpms.to_uint16 count_bit ->
   fst (Tpms.tpms_block_generic_deserialize_check_count_bit env instance count_bit)
     = Tpms.SubGhzProtocolStatusErrorValueBitCount).
Proof.
  intros Hc Hb.
  assert (Heq : Tpms.tpms_block_generic_deserialize_check_count_bit env instance count_bit =
    (if (v mod 2 ^ 32) mod 2 ^ 8 =? Tpms.to_uint16 count_bit
     then Tpms.SubGhzProtocolStatusOk
     else Tpms.SubGhzProtocolStatusErrorValueBitCount,
     snd (Tpms.tpms_block_generic_deserialize env instance))).
  { unfold Tpms.tpms_block_generic_deserialize_check_count_bit,
      Tpms.tpms_block_generic_deserialize.
    generalize (Tpms.to_uint16 count_bit) as cb. intros cb. cbn zeta.
    unfold Tpms.complete in Hc.
    repeat (apply andb_prop in Hc; destruct Hc as [Hc ?]).
    rewrite Hc, Hb in *. cbn [negb].
    destruct (Tpms.read_uint32 env "Id"); [|discriminate].
    destruct (Tpms.read_hex env "Data"); [|discriminate].
    destruct (Tpms.read_uint32 env "Batt"); [|discriminate].
    destruct (Tpms.read_float env "Pressure"); [|discriminate].
    destruct (Tpms.read_uint32 env "Ts"); [|discriminate].
    destruct (Tpms.read_float env "Temp"); [|discriminate].
    cbn -[Z.modulo Z.pow Z.eqb]. unfold Tpms.to_uint8, Tpms.to_uint32.
    destruct ((v mod 2 ^ 32) mod 2 ^ 8 =? cb); reflexivity. }
  split; [exact Heq|].
  intros Hbig. rewrite Heq. cbn [fst].
  destruct ((v mod 2 ^ 32) mod 2 ^ 8 =? Tpms.to_uint16 count_bit) eqn:E; [|reflexivity].
  apply Z.eqb_eq in E.
  pose proof (Z.mod_pos_bound (v mod 2 ^ 32) (2 ^ 8) ltac:(lia)) as Hm.
  change (2 ^ 8) with 256 in *. lia.
Qed.

Lemma tpms_check_count_bit_truncates_witness :
  Tpms.complete Tpms.bit_296_reader = true /\
  Tpms.read_uint32 Tpms.bit_296_reader "Bit" = Some 296 /\
  fst (Tpms.tpms_block_generic_deserialize_check_count_bit
         Tpms.bit_296_reader Tpms.blank_block 40) = Tpms.SubGhzProtocolStatusOk /\
  fst (Tpms.tpms_block_generic_deserialize_check_count_bit
         Tpms.bit_296_reader Tpms.blank_block 296)
    = Tpms.SubGhzProtocolStatusErrorValueBitCount.
Proof.
  split; [reflexivity|]. split; [reflexivity|].
  destruct (tpms_check_count_bit_truncates Tpms.bit_296_reader Tpms.blank_block 296 40
              eq_refl eq_refl) as [H40 _].
  destruct (tpms_check_count_bit_truncates Tpms.bit_296_reader Tpms.blank_block 296 296
              eq_refl eq_refl) as [_ H296].
  split.
  - rewrite H40. reflexivity.
  - apply H296. vm_compute. discriminate.
Defined.

(** ** From a block to a file and back *)

Lemma tpms_serialize_accepting (env : Tpms.WriteEnv)
    (instance : Tpms.TPMSBlockGeneric) (flipper_format : Tpms.Stream)
    (preset : Tpms.SubGhzRadioPreset) :
  (forall k, Tpms.accepts env k = true) ->
  Tpms.tpms_block_generic_serialize env instance flipper_format preset =
    (Tpms.SubGhzProtocolStatusOk, Tpms.fields env instance preset).
Proof.
  intros Hacc.
  unfold Tpms.tpms_block_generic_serialize, Tpms.fields, Tpms.custom_preset,
    Tpms.flipper_format_write.
  rewrite !Hacc.
  destruct (String.eqb (Tpms.tpms_block_generic_get_preset_name (Tpms.name preset))
              "FuriHalSubGhzPresetCustom");
    cbn [negb List.app fst snd]; rewrite ?Hacc; reflexivity.
Qed.

Lemma tpms_key_data_bytes (d : Z) :
  map Tpms.to_uint8 (Tpms.data_to_key_data d) = Tpms.data_to_key_data d.
Proof.
  unfold Tpms.data_to_key_data.
  cbn [seq fold_left repeat Tpms.array_set Nat.sub map].
  unfold Tpms.to_uint8. rewrite !Z.mod_mod by (cbn; lia). reflexivity.
Qed.

Lemma tpms_in_fields (env : Tpms.WriteEnv) (instance : Tpms.TPMSBlockGeneric)
    (preset : Tpms.SubGhzRadioPreset) (f : string * Tpms.FFValue) :
  In f [("Protocol"%string, Tpms.FFString (Tpms.protocol_name instance));
        ("Id"%string, Tpms.FFUint32 (Tpms.to_uint32 (Tpms.id instance)));
        ("Bit"%string, Tpms.FFUint32 (Tpms.to_uint32 (Tpms.data_count_bit instance)));
        ("Data"%string, Tpms.FFHex (Tpms.data_to_key_data (Tpms.data instance)));
        ("Batt"%string, Tpms.FFUint32 (Tpms.to_uint32 (Tpms.battery_low instance)));
        ("Pressure"%string, Tpms.FFFloat (Tpms.pressure instance));
        ("Ts"%string, Tpms.FFUint32 (Tpms.to_uint32 (Tpms.curr_ts env)));
        ("Temp"%string, Tpms.FFFloat (Tpms.temperature instance))] ->
  In f (Tpms.fields env instance preset).
Proof.
  intros H. unfold Tpms.fields. apply in_or_app. right. apply in_or_app. right. exact H.
Qed.

(** X22: a block written to a file and read back.  When the writer
    accepts every key, the fields of the block are within their C
    types, and the reader finds under each key what the writer put
    there, deserializing the serialized block into any other block
    returns Ok and gives a block with the id, bit count, data, battery
    flag, pressure and temperature of the block that was written.  The
    protocol name is not read back (it stays that of the receiving
    block), and the time stamp is not the one of the block written but
    the time of the clock when it was serialized. *)
Theorem tpms_serialize_deserialize (env : Tpms.WriteEnv) (rd : Tpms.ReadEnv)
    (instance receiver : Tpms.TPMSBlockGeneric) (flipper_format : Tpms.Stream)
    (preset : Tpms.SubGhzRadioPreset) :
  (forall k, Tpms.accepts env k = true) ->
  Tpms.well_typed instance ->
  Tpms.reads_back rd
    (snd (Tpms.tpms_block_generic_serialize env instance flipper_format preset)) ->
  fst (Tpms.tpms_block_generic_serialize env instance flipper_format preset)
    = Tpms.SubGhzProtocolStatusOk /\
  Tpms.tpms_block_generic_deserialize rd receiver =
    (Tpms.SubGhzProtocolStatusOk,
     {| Tpms.protocol_name := Tpms.protocol_name receiver;
        Tpms.id := Tpms.id instance;
        Tpms.data_count_bit := Tpms.data_count_bit instance;
        Tpms.data := Tpms.data instance;
        Tpms.battery_low := Tpms.battery_low instance;
        Tpms.pressure := Tpms.pressure instance;
        Tpms.timestamp := Tpms.curr_ts env mod 2 ^ 32;
        Tpms.temperature := Tpms.temperature instance |}).
Proof.
  intros Hacc (Hid & Hbit & Hdata & Hbatt) Hrd.
  rewrite (tpms_serialize_accepting env instance flipper_format preset Hacc) in *.
  cbn [fst snd] in *. split; [reflexivity|].
  destruct Hrd as (Hrw & Hu & Hh & Hf).
  pose proof (Hu _ _ (tpms_in_fields env instance preset _
                        (or_intror (or_introl eq_refl)))) as Rid.
  pose proof (Hu _ _ (tpms_in_fields env instance preset _
                        (or_intror (or_intror (or_introl eq_refl))))) as Rbit.
  pose proof (Hh _ _ (tpms_in_fields env instance preset _
                        (or_intror (or_intror (or_intror (or_introl eq_refl)))))) as Rdata.
  pose proof (Hu _ _ (tpms_in_fields env instance preset _
                        (or_intror (or_intror (or_intror (or_intror
                          (or_introl eq_refl))))))) as Rbatt.
  pose proof (Hf _ _ (tpms_in_fields env instance preset _
                        (or_intror (or_intror (or_intror (or_intror (or_intror
                          (or_introl eq_refl)))))))) as Rpres.
  pose proof (Hu _ _ (tpms_in_fields env instance preset _
                        (or_intror (or_intror (or_intror (or_intror (or_intror
                          (or_intror (or_introl eq_refl))))))))) as Rts.
  pose proof (Hf _ _ (tpms_in_fields env instance preset _
                        (or_intror (or_intror (or_intror (or_intror (or_intror
                          (or_intror (or_intror (or_introl eq_refl)))))))))) as Rtemp.
  unfold Tpms.tpms_block_generic_deserialize.
  rewrite Hrw, Rid, Rbit, Rdata, Rbatt, Rpres, Rts, Rtemp.
  cbn [negb]. rewrite tpms_key_data_bytes.
  unfold Tpms.set_temperature, Tpms.set_timestamp, Tpms.set_pressure,
    Tpms.set_battery_low, Tpms.set_data, Tpms.set_data_count_bit, Tpms.set_id.
  cbn [Tpms.protocol_name Tpms.id Tpms.data_count_bit Tpms.data Tpms.battery_low
       Tpms.pressure Tpms.timestamp Tpms.temperature].
  rewrite (tpms_key_data_back _ _ Hdata).
  unfold Tpms.to_uint8, Tpms.to_uint32.
  rewrite !(Z.mod_small (Tpms.id instance)) by lia.
  rewrite !(Z.mod_small (Tpms.data_count_bit instance)) by (cbn in *; lia).
  rewrite !(Z.mod_small (Tpms.battery_low instance)) by (cbn in *; lia).
  rewrite (Z.mod_mod (Tpms.curr_ts env)) by (cbn; lia).
  reflexivity.
Qed.

Lemma tpms_serialize_deserialize_witness :
  (forall k, Tpms.accepts Tpms.sample_env k = true) /\
  Tpms.well_typed Tpms.sample_block /\
  Tpms.reads_back (Tpms.reader_of Tpms.sample_file) Tpms.sample_file /\
  Tpms.tpms_block_generic_deserialize (Tpms.reader_of Tpms.sample_file) Tpms.blank_block =
    (Tpms.SubGhzProtocolStatusOk,
     {| Tpms.protocol_name := "Schrader GG4";
        Tpms.id := 305419896;
        Tpms.data_count_bit := 40;
        Tpms.data := 1311768467463790320;
        Tpms.battery_low := 1;
        Tpms.pressure := 1075838976;
        Tpms.timestamp := 1726444800;
        Tpms.temperature := 1103626240 |}).
Proof.
  assert (Hacc : forall k, Tpms.accepts Tpms.sample_env k = true)
    by (intros k; reflexivity).
  assert (Hty : Tpms.well_typed Tpms.sample_block)
    by (vm_compute; repeat split; discriminate).
  assert (Hrd : Tpms.reads_back (Tpms.reader_of Tpms.sample_file) Tpms.sample_file).
  { split; [reflexivity|].
    repeat split; intros k v H; vm_compute in H;
      repeat (destruct H as [H | H];
              [try discriminate H; injection H as <- <-; reflexivity|]);
      destruct H. }
  split; [exact Hacc|]. split; [exact Hty|]. split; [exact Hrd|].
  destruct (tpms_serialize_deserialize Tpms.sample_env (Tpms.reader_of Tpms.sample_file)
              Tpms.sample_block Tpms.blank_block [] Tpms.sample_preset Hacc Hty Hrd)
    as [_ H].
  rewrite H. reflexivity.
Defined.
